(** * The deployment workflow of [webviz_config/_deployment/azure_cli.py]

    A shallow embedding of the module's provisioning functions.  The module
    is a sequence of calls into the Azure SDK, the Azure CLI, the Graph REST
    API, the browser and the console, so the embedding is an error monad
    over the history of the requests issued so far:

    - every external request is an [event]; the answer to a request is given
      by the [world], as a function of the history and the request, so that
      any deterministic external service, stateless or not, is a [world];
    - a Python exception is an [exn]; a function either returns, raises, or
      (for the two [while True] loops, which run on fuel) is still looping;
    - the JSON documents of the Graph API and the attribute records of the
      SDK are [json] values, with Python's subscripts, attributes,
      membership and truthiness on them;
    - a name that a function reads from the module namespace, and that the
      module's top level does not bind unconditionally, is looked up in a
      [namespace]; [module_namespace] is the one the source builds.  The
      functions are stated for any namespace, the properties of the module
      for [module_namespace].

    The first part is the embedding, the second the vocabulary of the
    properties (example worlds, classifications of events, the reference
    definitions), the third the properties. *)

From Stdlib Require Import String Ascii List ZArith Bool Arith Lia.
From Stdlib Require Import DecimalString Floats Permutation.
Import ListNotations.
Local Open Scope string_scope.
Local Open Scope list_scope.

Set Implicit Arguments.
Set Warnings "-register-all,-inexact-float".

(** ** Python values *)

(** JSON documents, which also stand for the attribute records the SDK
    returns ([account.name] is the field [name]). *)
Inductive json : Type :=
| JNull
| JBool (b : bool)
| JInt (z : Z)
| JStr (s : string)
| JList (items : list json)
| JDict (fields : list (string * json)).

Inductive exn_class : Type :=
| NameError
| KeyError
| IndexError
| TypeError
| AttributeError
| ValueError
| StopIteration
| RuntimeError
| PermissionError
| ModuleNotFoundError
| FileNotFoundError
| OverflowError
| SdkError (qualname : string).

(** An exception: its class, [str(exc)], and the [__cause__] set by
    [raise ... from exc]. *)
Inductive exn : Type :=
| Exn (cls : exn_class) (msg : string) (cause : option exn).

Definition exn_cls (e : exn) : exn_class := let 'Exn c _ _ := e in c.
Definition exn_msg (e : exn) : string := let 'Exn _ m _ := e in m.
Definition exn_cause (e : exn) : option exn := let 'Exn _ _ c := e in c.

Definition exn_class_eqb (a b : exn_class) : bool :=
  match a, b with
  | NameError, NameError | KeyError, KeyError | IndexError, IndexError
  | TypeError, TypeError | AttributeError, AttributeError
  | ValueError, ValueError | StopIteration, StopIteration
  | RuntimeError, RuntimeError | PermissionError, PermissionError
  | ModuleNotFoundError, ModuleNotFoundError
  | FileNotFoundError, FileNotFoundError
  | OverflowError, OverflowError => true
  | SdkError p, SdkError q => String.eqb p q
  | _, _ => false
  end.

(** What a global name can be bound to: [None], a boolean, a string, an
    exception class, or a function, module or other class. *)
Inductive pyobj : Type :=
| PNone
| PBool (b : bool)
| PStr (s : string)
| PClass (c : exn_class)
| PCallable (qualname : string).

(** An f-string is the concatenation of its pieces. *)
Definition fstr (pieces : list string) : string := String.concat EmptyString pieces.

Definition decimal (z : Z) : string := NilZero.string_of_int (Z.to_int z).

(** [repr(v)]: exact on [None], booleans and integers; a string is quoted
    without the escapes of [repr]. *)
Fixpoint py_repr (v : json) : string :=
  match v with
  | JNull => "None"
  | JBool true => "True"
  | JBool false => "False"
  | JInt z => decimal z
  | JStr s => fstr ["'"; s; "'"]
  | JList items =>
      fstr ["["; String.concat ", " (map py_repr items); "]"]
  | JDict fields =>
      fstr ["{";
            String.concat ", "
              (map (fun kv => fstr ["'"; fst kv; "': "; py_repr (snd kv)]) fields);
            "}"]
  end.

(** [str(v)], as an f-string field formats it. *)
Definition py_str (v : json) : string :=
  match v with
  | JStr s => s
  | _ => py_repr v
  end.

Definition class_name (c : exn_class) : string :=
  match c with
  | NameError => "NameError"
  | KeyError => "KeyError"
  | IndexError => "IndexError"
  | TypeError => "TypeError"
  | AttributeError => "AttributeError"
  | ValueError => "ValueError"
  | StopIteration => "StopIteration"
  | RuntimeError => "RuntimeError"
  | PermissionError => "PermissionError"
  | ModuleNotFoundError => "ModuleNotFoundError"
  | FileNotFoundError => "FileNotFoundError"
  | OverflowError => "OverflowError"
  | SdkError qualname => qualname
  end.

(** [str(v)] of a global; a function is rendered by its name, without its
    address. *)
Definition pyobj_str (v : pyobj) : string :=
  match v with
  | PNone => "None"
  | PBool true => "True"
  | PBool false => "False"
  | PStr s => s
  | PClass c => fstr ["<class '"; class_name c; "'>"]
  | PCallable q => fstr ["<function "; q; ">"]
  end.

(** [needle in haystack] on strings. *)
Fixpoint contains (needle haystack : string) : bool :=
  String.prefix needle haystack
  || match haystack with
     | EmptyString => false
     | String _ rest => contains needle rest
     end.

(** [v == s] for a string [s]: a string equals only strings. *)
Definition eq_str (v : json) (s : string) : bool :=
  match v with
  | JStr t => String.eqb t s
  | _ => false
  end.

(** [v == o] for a global [o]: [True == 1] holds, a class or a function
    equals no document. *)
Definition eq_obj (v : json) (o : pyobj) : bool :=
  match o, v with
  | PNone, JNull => true
  | PBool b, JBool b' => Bool.eqb b b'
  | PBool b, JInt z => Z.eqb z (if b then 1 else 0)
  | PStr s, _ => eq_str v s
  | _, _ => false
  end.

(** [s in items] for a string [s] and a list. *)
Definition str_in (s : string) (items : list json) : bool :=
  existsb (fun v => eq_str v s) items.

(** Truthiness. *)
Definition truthy (v : json) : bool :=
  match v with
  | JNull => false
  | JBool b => b
  | JInt z => negb (Z.eqb z 0)
  | JStr s => negb (String.eqb s EmptyString)
  | JList items => match items with [] => false | _ => true end
  | JDict fields => match fields with [] => false | _ => true end
  end.

Fixpoint assoc (k : string) (fields : list (string * json)) : option json :=
  match fields with
  | [] => None
  | (k', v) :: rest => if String.eqb k k' then Some v else assoc k rest
  end.

(** [d[k] = v] on a dict: replaces the value in place, or appends the key. *)
Fixpoint assoc_set (k : string) (v : json) (fields : list (string * json))
  : list (string * json) :=
  match fields with
  | [] => [(k, v)]
  | (k', v') :: rest =>
      if String.eqb k k' then (k', v) :: rest else (k', v') :: assoc_set k v rest
  end.

(** ** Local files *)

Definition path := list string.

Inductive node : Type :=
| File
| Dir (entries : list (string * node)).

(** The entry of a directory that a name resolves to. *)
Fixpoint entry_named (name : string) (entries : list (string * node))
  : option node :=
  match entries with
  | [] => None
  | (name', child) :: rest =>
      if String.eqb name name' then Some child else entry_named name rest
  end.

Fixpoint lookup (n : node) (p : path) : option node :=
  match p with
  | [] => Some n
  | name :: rest =>
      match n with
      | File => None
      | Dir entries =>
          match entry_named name entries with
          | Some child => lookup child rest
          | None => None
          end
      end
  end.

Definition is_file (fs : node) (p : path) : bool :=
  match lookup fs p with
  | Some File => true
  | _ => false
  end.

(** The directories at and below [here], parents first, each with its
    entries: the order in which [rglob] walks them. *)
Fixpoint iterate_directories (here : path) (n : node)
  : list (path * list (string * node)) :=
  match n with
  | File => []
  | Dir entries =>
      (here, entries)
      :: flat_map (fun entry =>
                     iterate_directories (here ++ [fst entry]) (snd entry))
                  entries
  end.

(** The entries of the directories at and below [here]. *)
Definition entries_below (here : path) (n : node) : list path :=
  flat_map (fun d => map (fun entry => fst d ++ [fst entry]) (snd d))
           (iterate_directories here n).

(** [folder.rglob("*")]: every entry of every directory at or below
    [folder]; nothing when [folder] is no directory. *)
Definition rglob (fs : node) (folder : path) : list path :=
  match lookup fs folder with
  | Some tree => entries_below folder tree
  | None => []
  end.

(** [p.relative_to(base)]: [None] stands for the [ValueError]. *)
Fixpoint relative_to (p base : path) : option path :=
  match base, p with
  | [], _ => Some p
  | b :: base', x :: p' => if String.eqb b x then relative_to p' base' else None
  | _ :: _, [] => None
  end.

Definition as_posix (p : path) : string :=
  match p with
  | [] => "."
  | _ => String.concat "/" p
  end.

(** ** Time

    A [datetime] is a count of microseconds since 0001-01-01T00:00:00; a
    [timedelta] is a count of microseconds. *)

Definition datetime := Z.

Definition datetime_max : Z := (3652059 * 86400000000 - 1)%Z.

(** [float(z)]: the binary64 number nearest to [z], ties to even. *)
Definition float_of_int (z : Z) : float :=
  SF2Prim (binary_normalize prec emax z 0 false).

(** [n / 2^k] for [0 < k], to the nearest integer, ties to even. *)
Definition round_shift (n k : Z) : Z :=
  let q := Z.shiftr n k in
  let r := (n - Z.shiftl q k)%Z in
  let half := Z.shiftl 1 (k - 1) in
  if (r <? half)%Z then q
  else if (half <? r)%Z then (q + 1)%Z
  else if Z.even q then q else (q + 1)%Z.

(** [datetime.timedelta(days=x)] for a float [x]: the value of [x] in days,
    to the nearest microsecond; the error stands for the [ValueError] of a
    NaN and the [OverflowError] of an infinity or of more than 999999999
    days. *)
Definition timedelta_days (x : float) : exn_class + Z :=
  match Prim2SF x with
  | S754_zero _ => inr 0%Z
  | S754_finite negative m e =>
      let n := (Z.pos m * 86400000000)%Z in
      let us := if (0 <=? e)%Z then Z.shiftl n e else round_shift n (- e) in
      if (us <? 1000000000 * 86400000000)%Z
      then inr (if negative then (- us)%Z else us)
      else inl OverflowError
  | S754_infinity _ => inl OverflowError
  | S754_nan => inl ValueError
  end.

(** ** Requests and the world that answers them *)

Inductive http_verb : Type := GET | POST | PATCH.

Inductive event : Type :=
| EvAzureCli (args : list json)
| EvBrowserOpen (url : string)
| EvPrint (msg : string)
| EvWarn (msg : string)
| EvSleep (seconds : Z)
| EvSdk (call : string) (args : list pyobj)
| EvGetToken (scope : string)
| EvHttp (verb : http_verb) (url : string) (body : option json)
         (headers : list (string * string))
| EvCreateContainer (connection container : string)
| EvUploadBlob (connection container name : string) (file : path)
               (overwrite : bool)
| EvNow
| EvTokenUrlsafe (nbytes : Z).

Definition history := list event.

Record world : Type := {
  (** what a request returns or raises, given what was requested before *)
  answer : history -> event -> exn + json;
  (** the local file system *)
  root : node;
  (** [sys.version_info >= (3, 7)] *)
  python37 : bool;
  (** the packages an [import] finds *)
  has_module : string -> bool;
  (** [datetime.isoformat] *)
  isoformat : datetime -> string
}.

(** ** The monad *)

Inductive outcome (A : Type) : Type :=
| Returned (a : A)
| Raised (e : exn)
| Looping.

Arguments Raised {A} e.
Arguments Looping {A}.

Definition M (A : Type) : Type := history -> outcome A * history.

Definition ret {A} (a : A) : M A := fun h => (Returned a, h).

Definition raise {A} (e : exn) : M A := fun h => (Raised e, h).

Definition looping {A} : M A := fun h => (Looping, h).

Definition bind {A B} (m : M A) (k : A -> M B) : M B :=
  fun h =>
    match m h with
    | (Returned a, h') => k a h'
    | (Raised e, h') => (Raised e, h')
    | (Looping, h') => (Looping, h')
    end.

Declare Scope py_scope.
Delimit Scope py_scope with py.
Notation "x <- m ;; k" := (bind m (fun x => k))
  (at level 100, m at next level, right associativity) : py_scope.
Notation "m ;; k" := (bind m (fun _ => k))
  (at level 100, right associativity) : py_scope.
Local Open Scope py_scope.

(** [try: body except ...: handler].  The handler receives the exception and
    decides whether a clause matches; one that matches none re-raises. *)
Definition try_except {A} (body : M A) (handler : exn -> M A) : M A :=
  fun h =>
    match body h with
    | (Raised e, h') => handler e h'
    | r => r
    end.

(** [try: body finally: cleanup].  The cleanup runs on every way out of the
    body; what it raises replaces the body's outcome. *)
Definition try_finally {A} (body : M A) (cleanup : M unit) : M A :=
  fun h =>
    match body h with
    | (Looping, h') => (Looping, h')
    | (r, h') =>
        match cleanup h' with
        | (Returned _, h'') => (r, h'')
        | (Raised e, h'') => (Raised e, h'')
        | (Looping, h'') => (Looping, h'')
        end
    end.

(** A request that has no answer the caller reads. *)
Definition emit (e : event) : M unit := fun h => (Returned tt, h ++ [e]).

Definition print (msg : string) : M unit := emit (EvPrint msg).
Definition sleep (seconds : Z) : M unit := emit (EvSleep seconds).
Definition webbrowser_open (url : string) : M unit := emit (EvBrowserOpen url).
Definition warnings_warn (msg : string) : M unit := emit (EvWarn msg).

(** ** Subscripts and attributes

    The identifiers that the Graph API hands back are documents, and the
    functions below pass them on as they are: an [app_registration_id] is a
    [json], a string when the caller passes one. *)

Definition getitem (v : json) (k : string) : M json :=
  match v with
  | JDict fields =>
      match assoc k fields with
      | Some x => ret x
      | None => raise (Exn KeyError (fstr ["'"; k; "'"]) None)
      end
  | _ => raise (Exn TypeError "object is not subscriptable by a string" None)
  end.

Definition getindex (v : json) (i : nat) : M json :=
  match v with
  | JList items =>
      match nth_error items i with
      | Some x => ret x
      | None => raise (Exn IndexError "list index out of range" None)
      end
  | JStr s =>
      match String.get i s with
      | Some c => ret (JStr (String c EmptyString))
      | None => raise (Exn IndexError "string index out of range" None)
      end
  | JDict _ => raise (Exn KeyError (decimal (Z.of_nat i)) None)
  | _ => raise (Exn TypeError "object is not subscriptable" None)
  end.

Definition getattr (v : json) (a : string) : M json :=
  match v with
  | JDict fields =>
      match assoc a fields with
      | Some x => ret x
      | None =>
          raise (Exn AttributeError (fstr ["object has no attribute '"; a; "'"]) None)
      end
  | _ => raise (Exn AttributeError (fstr ["object has no attribute '"; a; "'"]) None)
  end.

Definition iterate (v : json) : M (list json) :=
  match v with
  | JList items => ret items
  | _ => raise (Exn TypeError "object is not iterable" None)
  end.

(** [k in v] for a string [k]: a key of a dict, an element of a list, a
    substring of a string. *)
Definition py_in (k : string) (v : json) : M bool :=
  match v with
  | JDict fields => ret (match assoc k fields with Some _ => true | None => false end)
  | JList items => ret (str_in k items)
  | JStr s => ret (contains k s)
  | _ => raise (Exn TypeError "argument is not iterable" None)
  end.

(** ** The module namespace *)

Definition namespace := string -> option pyobj.

Definition GRAPH_BASE_URL : string := "https://graph.microsoft.com".
Definition PIMCOMMON_URL : string :=
  "https://portal.azure.com/#blade/Microsoft_Azure_PIMCommon/ActivationMenuBlade".

(** The [try: from azure... import ...] block: the imports run in order
    and stop at the first package that is missing, so the names imported
    before it stay bound. *)
Definition sdk_imports : list (string * string) :=
  [("azure.identity", "AzureCliCredential");
   ("azure.mgmt.resource.subscriptions", "SubscriptionClient");
   ("azure.mgmt.resource", "ResourceManagementClient");
   ("azure.mgmt.storage", "StorageManagementClient");
   ("azure.storage.blob", "BlobServiceClient")].

Fixpoint import_all (found : string -> bool) (imports : list (string * string))
  : list (string * pyobj) * bool :=
  match imports with
  | [] => ([], true)
  | (package, name) :: rest =>
      if found package
      then let (bound, ok) := import_all found rest in
           ((name, PCallable name) :: bound, ok)
      else ([], false)
  end.

Definition named (names : list string) : list (string * pyobj) :=
  map (fun m => (m, PCallable m)) names.

(** Every name the module's top level binds: its imports, its constants and
    its [def]s, in source order. *)
Definition module_bindings (found : string -> bool) : list (string * pyobj) :=
  let (sdk, AZURE_CLI_INSTALLED) := import_all found sdk_imports in
  named ["sys"; "time"; "secrets"; "asyncio"; "pathlib"; "datetime"; "warnings";
         "webbrowser"; "subprocess"; "List"; "Dict"; "Optional"; "Tuple";
         "requests"]
  ++ sdk
  ++ [("AZURE_CLI_INSTALLED", PBool AZURE_CLI_INSTALLED);
      ("GRAPH_BASE_URL", PStr GRAPH_BASE_URL);
      ("PIMCOMMON_URL", PStr PIMCOMMON_URL)]
  ++ named ["logged_in"; "log_in"; "_credential"; "_subscription_id";
            "_connection_string"; "subscriptions"; "resource_groups";
            "storage_account_name_available"; "storage_account_exists";
            "storage_container_exists"; "create_storage_account";
            "get_storage_account_access_key"; "create_storage_container";
            "_upload_batch"; "storage_container_upload_folder";
            "_graph_headers"; "_object_id_from_app_id";
            "existing_app_registration"; "create_app_registration";
            "create_secret"; "add_reply_url"; "create_service_principal";
            "azure_app_registration_setup"].

Fixpoint binding (name : string) (bs : list (string * pyobj)) : option pyobj :=
  match bs with
  | [] => None
  | (n, v) :: rest => if String.eqb name n then Some v else binding name rest
  end.

Definition module_namespace (found : string -> bool) : namespace :=
  fun name => binding name (module_bindings found).

(** ** The functions of the module *)

Section AzureCli.

Variable w : world.
Variable G : namespace.

(** An external request: recorded in the history, answered by the world. *)
Definition perform (e : event) : M json :=
  fun h =>
    match answer w h e with
    | inl x => (Raised x, h ++ [e])
    | inr v => (Returned v, h ++ [e])
    end.

(** Reading a global name. *)
Definition load_global (name : string) : M pyobj :=
  match G name with
  | Some v => ret v
  | None => raise (Exn NameError (fstr ["name '"; name; "' is not defined"]) None)
  end.

(** Calling what a global name is bound to. *)
Definition callable (v : pyobj) : M unit :=
  match v with
  | PClass _ | PCallable _ => ret tt
  | _ => raise (Exn TypeError "object is not callable" None)
  end.

(** [v.a] on a global, for an attribute that functions, modules and classes
    of the SDK have. *)
Definition attribute (v : pyobj) (a : string) : M unit :=
  match v with
  | PClass _ | PCallable _ => ret tt
  | _ => raise (Exn AttributeError
                  (fstr ["object has no attribute '"; a; "'"]) None)
  end.

(** [except cls:] on a global name: the class to match against. *)
Definition exception_class (v : pyobj) : M exn_class :=
  match v with
  | PClass c => ret c
  | _ =>
      raise (Exn TypeError
               "catching classes that do not inherit from BaseException is not allowed"
               None)
  end.

(** [v[k]] on a global: none of the values a name can be bound to takes a
    string subscript. *)
Definition subscript_global (v : pyobj) (k : string) : M json :=
  match v with
  | PStr _ => raise (Exn TypeError "string indices must be integers" None)
  | _ => raise (Exn TypeError "object is not subscriptable" None)
  end.

(** [import package] inside a function. *)
Definition import_module (package : string) : M unit :=
  if has_module w package then ret tt
  else raise (Exn ModuleNotFoundError
                (fstr ["No module named '"; package; "'"]) None).

(** [isinstance(exc, classes)], by class: the classes of the embedding are
    not subclasses of one another, and an [SdkError] stands for the
    exceptions that an [except] clause on that class catches. *)
Definition isinstance (exc : exn) (classes : list exn_class) : bool :=
  existsb (exn_class_eqb (exn_cls exc)) classes.

(** The CLI runner [_azure_cli] is read from the namespace at each call. *)
Definition _azure_cli (args : list json) : M json :=
  f <- load_global "_azure_cli" ;;
  callable f ;;
  perform (EvAzureCli args).

Definition _credential : M unit :=
  c <- load_global "AzureCliCredential" ;;
  callable c.

Fixpoint find_subscription (subscription_name : pyobj) (subs : list json) : M json :=
  match subs with
  | [] =>
      raise (Exn ValueError
               (fstr ["Could not find a subscription with name ";
                      pyobj_str subscription_name]) None)
  | sub :: rest =>
      display_name <- getattr sub "display_name" ;;
      if eq_obj display_name subscription_name
      then getattr sub "subscription_id"
      else find_subscription subscription_name rest
  end.

Definition _subscription_id (subscription_name : pyobj) : M json :=
  client <- load_global "SubscriptionClient" ;;
  _credential ;;
  callable client ;;
  listing <- perform (EvSdk "subscriptions.list" []) ;;
  subscription_list <- iterate listing ;;
  match subscription_name with
  | PNone =>
      match subscription_list with
      | [] => raise (Exn StopIteration EmptyString None)
      | sub :: _ => getattr sub "subscription_id"
      end
  | _ => find_subscription subscription_name subscription_list
  end.

(** [StorageManagementClient(_credential(), _subscription_id(subscription))] *)
Definition storage_management_client (subscription : pyobj) : M unit :=
  client <- load_global "StorageManagementClient" ;;
  _credential ;;
  _ <- _subscription_id subscription ;;
  callable client.

Definition get_storage_account_access_key
    (subscription resource_group : pyobj) (account_name : string) : M json :=
  storage_management_client subscription ;;
  listing <- perform (EvSdk "storage_accounts.list_keys"
                        [resource_group; PStr account_name]) ;;
  keys <- getattr listing "keys" ;;
  key <- getindex keys 0 ;;
  getattr key "value".

Definition _connection_string
    (subscription resource_group : pyobj) (storage_account : string) : M string :=
  key <- get_storage_account_access_key subscription resource_group storage_account ;;
  ret (fstr ["DefaultEndpointsProtocol=https;AccountName="; storage_account;
             ";AccountKey="; py_str key]).

(** [any(x.name == name for x in xs)]: stops at the first match. *)
Fixpoint any_named (name : string) (xs : list json) : M bool :=
  match xs with
  | [] => ret false
  | x :: rest =>
      n <- getattr x "name" ;;
      if eq_str n name then ret true else any_named name rest
  end.

Definition storage_account_exists
    (name subscription resource_group : string) : M bool :=
  storage_management_client (PStr subscription) ;;
  listing <- perform (EvSdk "storage_accounts.list_by_resource_group"
                        [PStr resource_group]) ;;
  accounts <- iterate listing ;;
  here <- any_named name accounts ;;
  if here then ret true
  else
    listing <- perform (EvSdk "storage_accounts.list" []) ;;
    accounts <- iterate listing ;;
    elsewhere <- any_named name accounts ;;
    if elsewhere then
      (* the f-string reads [account], the variable of the generator
         expression above, which is no local of this function *)
      account <- load_global "account" ;;
      group <- subscript_global account "resourceGroup" ;;
      warnings_warn
        (fstr ["Storage account with name "; name; " found, but it belongs ";
               "to another resource group ("; py_str group; "."]) ;;
      ret true
    else ret false.

Definition storage_container_exists
    (container_name account_name subscription resource_group : string) : M bool :=
  storage_management_client (PStr subscription) ;;
  listing <- perform (EvSdk "blob_containers.list"
                        [PStr resource_group; PStr account_name]) ;;
  containers <- iterate listing ;;
  any_named container_name containers.

(** The arguments of the CLI call that creates a storage account. *)
Definition account_create_args (subscription resource_group name : string)
  : list json :=
  map JStr ["storage"; "account"; "create";
            "--subscription"; subscription;
            "--resource-group"; resource_group;
            "--name"; name;
            "--location"; "northeurope";
            "--sku"; "Standard_ZRS";
            "--encryption-services"; "blob"].

Definition storage_account_prompt : string :=
  fstr ["Not able to create new storage account. Do you have ";
        "enough priviliges to do it? We automatically opened the URL ";
        "to where you activate Azure PIM. Please activate necessary ";
        "priviliges. You need to be 'Owner' of the subscription in ";
        "order to both create the new account and assign user ";
        "roles to it afterwards."].

Definition app_registration_prompt : string :=
  fstr ["Not able to create new app registration. Do you have enough ";
        "priviliges to do it? We automatically opened the URL to where ";
        "you activate Azure PIM. Please activate necessary priviliges."].

(** [create_storage_account]: the [while True] loop, on fuel.  The body of
    the [try] ends in [break] ([None] below); the handler falls through to
    the next iteration with the updated flag. *)
Fixpoint create_storage_account_loop (fuel : nat)
    (subscription resource_group name : string)
    (azure_pim_already_open : bool) : M unit :=
  match fuel with
  | O => looping
  | S fuel' =>
      next <-
        try_except
          (_ <- _azure_cli
                  (account_create_args subscription resource_group name) ;;
           ret None)
          (fun exc =>
             http_response_error <- load_global "HttpResponseError" ;;
             cloud_error <- load_global "CloudError" ;;
             c1 <- exception_class http_response_error ;;
             c2 <- exception_class cloud_error ;;
             if isinstance exc [c1; c2] then
               if contains "AuthorizationFailed" (exn_msg exc) then
                 opened <-
                   (if negb azure_pim_already_open then
                      webbrowser_open (fstr [PIMCOMMON_URL; "/azurerbac"]) ;;
                      print storage_account_prompt ;;
                      ret true
                    else ret azure_pim_already_open) ;;
                 print "New attempt of app registration in 1 minute." ;;
                 sleep 60 ;;
                 ret (Some opened)
               else
                 raise (Exn RuntimeError "Not able to create new storage account."
                          (Some exc))
             else raise exc) ;;
      match next with
      | None => ret tt
      | Some opened =>
          create_storage_account_loop fuel' subscription resource_group name opened
      end
  end.

Fixpoint assign_roles (roles : list string) (user_id resource_group_id : json)
    (name : string) : M unit :=
  match roles with
  | [] => ret tt
  | role :: rest =>
      _ <- _azure_cli
             [JStr "role"; JStr "assignment"; JStr "create";
              JStr "--role"; JStr role;
              JStr "--assignee"; user_id;
              JStr "--scope";
              JStr (fstr [py_str resource_group_id;
                          "/providers/Microsoft.Storage/storageAccounts/"; name])] ;;
      assign_roles rest user_id resource_group_id name
  end.

Definition create_storage_account (fuel : nat)
    (subscription resource_group name : string) : M unit :=
  create_storage_account_loop fuel subscription resource_group name false ;;
  user_id <- _azure_cli (map JStr ["ad"; "signed-in-user"; "show"; "--query";
                                   "objectId"; "-o"; "tsv"]) ;;
  group <- _azure_cli (map JStr ["group"; "show"; "--subscription"; subscription;
                                 "--name"; resource_group]) ;;
  resource_group_id <- getitem group "id" ;;
  assign_roles ["Storage Blob Data Contributor";
                "Storage Account Key Operator Service Role"]
               user_id resource_group_id name.

Definition create_storage_container
    (subscription resource_group storage_account container : string) : M unit :=
  client <- load_global "BlobServiceClient" ;;
  attribute client "from_connection_string" ;;
  connection <- _connection_string (PStr subscription) (PStr resource_group)
                                   storage_account ;;
  _ <- perform (EvCreateContainer connection container) ;;
  ret tt.

Fixpoint for_each {A} (xs : list A) (body : A -> M unit) : M unit :=
  match xs with
  | [] => ret tt
  | x :: rest => body x ;; for_each rest body
  end.

Definition open_rb (p : path) : M unit :=
  if is_file (root w) p then ret tt
  else raise (Exn FileNotFoundError "No such file or directory" None).

Definition _upload_file (connection container_name : string)
    (source_folder p : path) : M unit :=
  open_rb p ;;
  match relative_to p source_folder with
  | None => raise (Exn ValueError "path is not in the subpath of the folder" None)
  | Some relative =>
      _ <- perform (EvUploadBlob connection container_name (as_posix relative)
                                 p true) ;;
      ret tt
  end.

(** [_upload_batch].  On Python 3.7 and later the uploads are tasks of one
    event loop; they are run here in the order in which the tasks are
    created, up to the first one that fails.  The source has by then started
    every task, so for that branch the embedding is that of the batches
    that go through, and of those that fail before their first upload; the
    loop of the older Python does stop at the first upload that fails. *)
Definition _upload_batch (subscription resource_group : pyobj)
    (storage_name container_name : string) (source_folder : path) : M unit :=
  let paths_to_upload :=
    filter (is_file (root w)) (rglob (root w) source_folder) in
  if python37 w then
    import_module "tqdm.asyncio" ;;
    import_module "azure.storage.blob.aio" ;;
    connection <- _connection_string subscription resource_group storage_name ;;
    for_each paths_to_upload (_upload_file connection container_name source_folder)
  else
    import_module "tqdm" ;;
    import_module "azure.storage.blob" ;;
    connection <- _connection_string subscription resource_group storage_name ;;
    for_each paths_to_upload (_upload_file connection container_name source_folder).

(** [storage_container_upload_folder]: the [for _ in range(5)] loop; an
    attempt yields [true] when its [try] body reached [return]. *)
Definition upload_attempt (storage_name container_name : string)
    (source_folder : path) : M bool :=
  try_finally
    (try_except
       (subscription <- load_global "subscription" ;;
        resource_group <- load_global "resource_group" ;;
        _upload_batch subscription resource_group storage_name container_name
                      source_folder ;;
        ret true)
       (fun exc =>
          azure_http_error <- load_global "AzureHttpError" ;;
          c <- exception_class azure_http_error ;;
          if isinstance exc [c] then ret false else raise exc))
    (print "Waiting on Azure access activation... please wait." ;;
     sleep 60).

Fixpoint upload_attempts (remaining : nat) (storage_name container_name : string)
    (source_folder : path) : M unit :=
  match remaining with
  | O => raise (Exn RuntimeError
                  "Not able to upload folder to blob storage container." None)
  | S remaining' =>
      done <- upload_attempt storage_name container_name source_folder ;;
      if done then ret tt
      else upload_attempts remaining' storage_name container_name source_folder
  end.

Definition storage_container_upload_folder (storage_name container_name : string)
    (source_folder : path) : M unit :=
  upload_attempts 5 storage_name container_name source_folder.

(** *** The Graph API *)

Definition _graph_headers : M (list (string * string)) :=
  _credential ;;
  access <- perform (EvGetToken GRAPH_BASE_URL) ;;
  token <- getattr access "token" ;;
  ret [("Authorization", fstr ["bearer "; py_str token]);
       ("Content-type", "application/json")].

(** [requests.<verb>(url, json=body, headers=_graph_headers())]: the headers
    are the last argument evaluated. *)
Definition request (verb : http_verb) (url : string) (body : option json) : M json :=
  headers <- _graph_headers ;;
  perform (EvHttp verb url body headers).

Definition _object_id_from_app_id (app_registration_id : json) : M json :=
  let endpoint :=
    fstr ["applications?$filter=appID eq '"; py_str app_registration_id; "'"] in
  data <- request GET (fstr [GRAPH_BASE_URL; "/v1.0/"; endpoint]) None ;;
  value <- getitem data "value" ;;
  first <- getindex value 0 ;;
  getitem first "id".

(** Returns the application id, or [JNull] for [None]. *)
Definition existing_app_registration (display_name : string) : M json :=
  let endpoint := fstr ["applications?$filter=displayName eq '"; display_name; "'"] in
  data <- request GET (fstr [GRAPH_BASE_URL; "/v1.0/"; endpoint]) None ;;
  value <- getitem data "value" ;;
  if truthy value then
    value <- getitem data "value" ;;
    first <- getindex value 0 ;;
    getitem first "appId"
  else ret JNull.

Definition is_none (v : json) : bool :=
  match v with
  | JNull => true
  | _ => false
  end.

Definition create_app_registration (display_name : string) : M json :=
  existing_app_id <- existing_app_registration display_name ;;
  if negb (is_none existing_app_id) then ret existing_app_id
  else
    data <- request POST (fstr [GRAPH_BASE_URL; "/v1.0/applications"])
              (Some (JDict [("displayName", JStr display_name);
                            ("signInAudience", JStr "AzureADMyOrg")])) ;;
    has_error <- py_in "error" data ;;
    denied <-
      (if has_error then
         error <- getitem data "error" ;;
         code <- getitem error "code" ;;
         ret (eq_str code "Authorization_RequestDenied")
       else ret false) ;;
    if denied then
      raise (Exn PermissionError
               "Insufficient privileges to create new app registration." None)
    else getitem data "appId".

Definition datetime_now : M datetime :=
  t <- perform EvNow ;;
  match t with
  | JInt z => ret z
  | _ => raise (Exn TypeError "not a datetime" None)
  end.

(** [moment + datetime.timedelta(days=days)] *)
Definition datetime_add_days (moment : datetime) (days : float) : M datetime :=
  match timedelta_days days with
  | inl c => raise (Exn c "timedelta out of range" None)
  | inr delta =>
      if ((0 <=? moment + delta) && (moment + delta <=? datetime_max))%Z
      then ret (moment + delta)%Z
      else raise (Exn OverflowError "date value out of range" None)
  end.

Definition create_secret (app_registration_id : json)
    (secret_description : string) (years : Z) : M json :=
  object_id <- _object_id_from_app_id app_registration_id ;;
  now <- datetime_now ;;
  end_datetime <- datetime_add_days now (365.242 * float_of_int years)%float ;;
  data <- request POST
            (fstr [GRAPH_BASE_URL; "/v1.0/applications/"; py_str object_id;
                   "/addPassword"])
            (Some (JDict
                     [("passwordCredential",
                       JDict [("displayName", JStr secret_description);
                              ("endDateTime",
                               JStr (isoformat w end_datetime))])])) ;;
  getitem data "secretText".

Definition add_reply_url (app_registration_id : json) (reply_url : string)
  : M unit :=
  object_id <- _object_id_from_app_id app_registration_id ;;
  data <- request GET
            (fstr [GRAPH_BASE_URL; "/v1.0/applications/"; py_str object_id]) None ;;
  web <- getitem data "web" ;;
  uris <- getitem web "redirectUris" ;;
  present <- py_in reply_url uris ;;
  web <-
    (if negb present then
       uris <- getitem web "redirectUris" ;;
       match uris, web with
       | JList items, JDict fields =>
           (* the list is appended to in place, inside [web] *)
           ret (JDict (assoc_set "redirectUris"
                         (JList (items ++ [JStr reply_url])) fields))
       | _, _ =>
           raise (Exn AttributeError "object has no attribute 'append'" None)
       end
     else ret web) ;;
  _ <- request PATCH
         (fstr [GRAPH_BASE_URL; "/v1.0/applications/"; py_str object_id])
         (Some (JDict [("web", web)])) ;;
  ret tt.

Definition create_service_principal (app_registration_id : json)
  : M (json * json) :=
  let endpoint :=
    fstr ["servicePrincipals?$filter=appID eq '"; py_str app_registration_id;
          "'"] in
  data <- request GET (fstr [GRAPH_BASE_URL; "/v1.0/"; endpoint]) None ;;
  has_error <- py_in "error" data ;;
  found <-
    (if negb has_error then
       value <- getitem data "value" ;;
       ret (truthy value)
     else ret false) ;;
  data_object <-
    (if found then
       value <- getitem data "value" ;;
       data_object <- getindex value 0 ;;
       required <- getitem data_object "appRoleAssignmentRequired" ;;
       if negb (truthy required) then
         raise (Exn RuntimeError
                  (fstr ["Service principal already exists, and it does not require app role ";
                         "assignments. Deployment stopped, as this should be set to true in ";
                         "order to secure access."]) None)
       else ret data_object
     else
       data_object <-
         request POST (fstr [GRAPH_BASE_URL; "/v1.0/servicePrincipals"])
           (Some (JDict [("appId", app_registration_id);
                         ("appRoleAssignmentRequired", JBool true)])) ;;
       has_error <- py_in "error" data ;;
       if has_error then
         raise (Exn RuntimeError
                  (fstr ["Graph query failed with response "; py_str data]) None)
       else ret data_object) ;;
  object_id <- getitem data_object "id" ;;
  directory_tenant_id <- getitem data_object "appOwnerOrganizationId" ;;
  ret (object_id, directory_tenant_id).

(** [azure_app_registration_setup]: the [while True] loop, on fuel; it
    leaves with the three identifiers the [try] body bound. *)
Fixpoint app_registration_loop (fuel : nat) (display_name : string)
    (azure_pim_already_open : bool) : M (json * json * json) :=
  match fuel with
  | O => looping
  | S fuel' =>
      next <-
        try_except
          (app_registration_id <- create_app_registration display_name ;;
           ids <- create_service_principal app_registration_id ;;
           ret (inl (app_registration_id, fst ids, snd ids)))
          (fun exc =>
             if isinstance exc [PermissionError] then
               opened <-
                 (if negb azure_pim_already_open then
                    webbrowser_open (fstr [PIMCOMMON_URL; "/aadmigratedroles"]) ;;
                    print app_registration_prompt ;;
                    ret true
                  else ret azure_pim_already_open) ;;
               print "New attempt of app registration in 30 seconds." ;;
               sleep 30 ;;
               ret (inr opened)
             else raise exc) ;;
      match next with
      | inl ids => ret ids
      | inr opened => app_registration_loop fuel' display_name opened
      end
  end.

Definition azure_app_registration_setup (fuel : nat)
    (display_name proxy_redirect_url : string) : M json :=
  ids <- app_registration_loop fuel display_name false ;;
  let '(app_registration_id, object_id, tenant_id) := ids in
  proxy_client_secret <- create_secret app_registration_id "cli secret" 100 ;;
  add_reply_url app_registration_id proxy_redirect_url ;;
  proxy_cookie_secret <- perform (EvTokenUrlsafe 16) ;;
  ret (JDict [("app_registration_id", app_registration_id);
              ("object_id", object_id);
              ("proxy_client_secret", proxy_client_secret);
              ("proxy_cookie_secret", proxy_cookie_secret);
              ("proxy_redirect_url", JStr proxy_redirect_url);
              ("tenant_id", tenant_id)]).

End AzureCli.

(** *** The session and the listings *)

Section Listings.

Variable w : world.
Variable G : namespace.

(** Truthiness of what a global name is bound to. *)
Definition obj_truthy (v : pyobj) : bool :=
  match v with
  | PNone => false
  | PBool b => b
  | PStr s => negb (String.eqb s EmptyString)
  | PClass _ | PCallable _ => true
  end.

Definition install_hint : string :=
  fstr ["In order to use webviz deploy features, you need to first install ";
        "the optional deploy dependencies. You can do this by e.g. running ";
        "'pip install webviz-config[deployment]'"].

(** [logged_in].  The keyword argument [devnull_stderr=False] of the CLI
    runner does not change the request.  The class of the [except] clause is
    reached through the global name [azure]. *)
Definition logged_in : M bool :=
  installed <- load_global G "AZURE_CLI_INSTALLED" ;;
  if negb (obj_truthy installed) then
    raise (Exn RuntimeError install_hint None)
  else
    try_except
      (_ <- _azure_cli w G [JStr "account"; JStr "list-locations"] ;;
       ret true)
      (fun exc =>
         azure <- load_global G "azure" ;;
         attribute azure "cli" ;;
         if isinstance exc [SdkError "azure.cli.core.CLIError"]
         then ret false
         else raise exc).

Definition log_in : M unit :=
  _ <- _azure_cli w G [JStr "login"; JStr "--use-device-code"] ;;
  ret tt.

(** [[x.a for x in xs]] *)
Fixpoint attributes (a : string) (xs : list json) : M (list json) :=
  match xs with
  | [] => ret []
  | x :: rest =>
      v <- getattr x a ;;
      vs <- attributes a rest ;;
      ret (v :: vs)
  end.

Definition subscriptions : M (list json) :=
  client <- load_global G "SubscriptionClient" ;;
  _credential G ;;
  callable client ;;
  listing <- perform w (EvSdk "subscriptions.list" []) ;;
  subs <- iterate listing ;;
  attributes "display_name" subs.

Definition resource_groups (subscription : string) : M (list json) :=
  client <- load_global G "ResourceManagementClient" ;;
  _credential G ;;
  _ <- _subscription_id w G (PStr subscription) ;;
  callable client ;;
  listing <- perform w (EvSdk "resource_groups.list" []) ;;
  groups <- iterate listing ;;
  attributes "name" groups.

(** The subscription is the default one of [_subscription_id], the first
    that is listed. *)
Definition storage_account_name_available (name : string) : M (json * json) :=
  storage_management_client w G PNone ;;
  result <- perform w (EvSdk "storage_accounts.check_name_availability"
                         [PStr name]) ;;
  name_available <- getattr result "name_available" ;;
  message <- getattr result "message" ;;
  ret (name_available, message).

End Listings.

(** * Vocabulary of the properties *)

(** A namespace with further bindings in front of it. *)
Definition with_bindings (extra : list (string * pyobj)) (G : namespace)
  : namespace :=
  fun name =>
    match binding name extra with
    | Some v => Some v
    | None => G name
    end.

(** The namespace of the module as the source builds it, in world [w]. *)
Definition module_of (w : world) : namespace := module_namespace (has_module w).

Definition is_upload (e : event) : bool :=
  match e with
  | EvUploadBlob _ _ _ _ _ => true
  | _ => false
  end.

Definition is_sleep (e : event) : bool :=
  match e with
  | EvSleep _ => true
  | _ => false
  end.

Definition count_events (p : event -> bool) (ev : list event) : nat :=
  length (filter p ev).

(** ** A storage account whose uploads are refused

    Every SDK read is answered, the connection string can be built, and
    every blob upload raises the SDK's [AzureHttpError]. *)
Definition refusing_answer (e : event) : exn + json :=
  match e with
  | EvSdk "subscriptions.list" _ =>
      inr (JList [JDict [("display_name", JStr "sub");
                         ("subscription_id", JStr "0000")]])
  | EvSdk "storage_accounts.list_keys" _ =>
      inr (JDict [("keys", JList [JDict [("value", JStr "key")]])])
  | EvUploadBlob _ _ _ _ _ =>
      inl (Exn (SdkError "AzureHttpError") "AuthorizationPermissionMismatch" None)
  | _ => inr JNull
  end.

Definition refusing_world : world :=
  {| answer := fun _ => refusing_answer;
     root := Dir [("build", Dir [("index.html", File);
                                 ("assets", Dir [("app.js", File)])])];
     python37 := true;
     has_module := fun _ => true;
     isoformat := decimal |}.

(** The same storage account seen from Python 3.6, where the batch is the
    plain loop over the files. *)
Definition sequential_refusing_world : world :=
  {| answer := fun _ => refusing_answer;
     root := root refusing_world;
     python37 := false;
     has_module := fun _ => true;
     isoformat := decimal |}.

(** The three names [storage_container_upload_folder] reads, bound. *)
Definition upload_names : list (string * pyobj) :=
  [("subscription", PStr "sub");
   ("resource_group", PStr "rg");
   ("AzureHttpError", PClass (SdkError "AzureHttpError"))].

(** ** A subscription in which everything is already there

    The storage account [account] of resource group [rg] and its container
    [container] exist, and so does the app registration [webviz]: the
    listings show them, creating the container again is refused, and the
    CLI and the Graph API answer every other request. *)
Definition provisioned_answer (e : event) : exn + json :=
  match e with
  | EvSdk "subscriptions.list" _ =>
      inr (JList [JDict [("display_name", JStr "sub");
                         ("subscription_id", JStr "0000")]])
  | EvSdk "storage_accounts.list_keys" _ =>
      inr (JDict [("keys", JList [JDict [("value", JStr "key")]])])
  | EvSdk "storage_accounts.list_by_resource_group" _ =>
      inr (JList [JDict [("name", JStr "account")]])
  | EvSdk "blob_containers.list" _ =>
      inr (JList [JDict [("name", JStr "container")]])
  | EvCreateContainer _ _ =>
      inl (Exn (SdkError "ResourceExistsError")
               "The specified container already exists." None)
  | EvGetToken _ => inr (JDict [("token", JStr "token")])
  | EvHttp GET _ _ _ =>
      inr (JDict [("value", JList [JDict [("appId", JStr "app-1");
                                          ("id", JStr "object-1")]])])
  | EvAzureCli _ => inr (JDict [("id", JStr "/subscriptions/0000/resourceGroups/rg")])
  | _ => inr JNull
  end.

Definition provisioned_world : world :=
  {| answer := fun _ => provisioned_answer;
     root := Dir [];
     python37 := true;
     has_module := fun _ => true;
     isoformat := decimal |}.

(** The same subscription before the container is created. *)
Definition fresh_answer (e : event) : exn + json :=
  match e with
  | EvSdk "blob_containers.list" _ => inr (JList [])
  | EvCreateContainer _ _ => inr JNull
  | _ => provisioned_answer e
  end.

Definition fresh_world : world :=
  {| answer := fun _ => fresh_answer;
     root := Dir [];
     python37 := true;
     has_module := fun _ => true;
     isoformat := decimal |}.

(** A storage account as the SDK lists it: its [name], and whatever other
    attributes. *)
Definition account (entry : string * list (string * json)) : json :=
  JDict (("name", JStr (fst entry)) :: snd entry).

(** The same subscription seen from resource group [other]: the account
    [account] is listed in the subscription, not in the group. *)
Definition elsewhere_answer (e : event) : exn + json :=
  match e with
  | EvSdk "storage_accounts.list_by_resource_group" _ =>
      inr (JList [account ("logs", [])])
  | EvSdk "storage_accounts.list" _ =>
      inr (JList [account ("logs", []);
                  account ("account", [("resourceGroup", JStr "rg")])])
  | _ => provisioned_answer e
  end.

Definition elsewhere_world : world :=
  {| answer := fun _ => elsewhere_answer;
     root := Dir [];
     python37 := true;
     has_module := fun _ => true;
     isoformat := decimal |}.

Definition is_warning (e : event) : bool :=
  match e with
  | EvWarn _ => true
  | _ => false
  end.

(** The listings by which the module checks that a storage account or a
    container exists. *)
Definition is_existence_check (e : event) : bool :=
  match e with
  | EvSdk "storage_accounts.list_by_resource_group" _
  | EvSdk "storage_accounts.list" _
  | EvSdk "blob_containers.list" _ => true
  | _ => false
  end.

Definition is_create_request (e : event) : bool :=
  match e with
  | EvHttp POST _ _ _ => true
  | EvCreateContainer _ _ => true
  | EvAzureCli (JStr "storage" :: JStr "account" :: JStr "create" :: _) => true
  | _ => false
  end.

(** ** Privileges that are not there yet

    The CLI refuses to create the storage account, and the Graph API finds
    no app registration and refuses to create one. *)
Definition denying_answer (e : event) : exn + json :=
  match e with
  | EvAzureCli _ =>
      inl (Exn (SdkError "HttpResponseError")
               "(AuthorizationFailed) The client does not have authorization."
               None)
  | EvHttp GET _ _ _ => inr (JDict [("value", JList [])])
  | EvHttp POST _ _ _ =>
      inr (JDict [("error",
                   JDict [("code", JStr "Authorization_RequestDenied")])])
  | _ => provisioned_answer e
  end.

Definition denying_world : world :=
  {| answer := fun _ => denying_answer;
     root := Dir [];
     python37 := true;
     has_module := fun _ => true;
     isoformat := decimal |}.

(** The three names [create_storage_account] reads, bound. *)
Definition cli_names : list (string * pyobj) :=
  [("_azure_cli", PCallable "_azure_cli");
   ("HttpResponseError", PClass (SdkError "HttpResponseError"));
   ("CloudError", PClass (SdkError "CloudError"))].

(** What one refused attempt of [create_storage_account] appends. *)
Definition refused_attempt (subscription resource_group name : string)
    (azure_pim_already_open : bool) : list event :=
  EvAzureCli (account_create_args subscription resource_group name)
  :: (if azure_pim_already_open then []
      else [EvBrowserOpen (fstr [PIMCOMMON_URL; "/azurerbac"]);
            EvPrint storage_account_prompt])
  ++ [EvPrint "New attempt of app registration in 1 minute."; EvSleep 60].

(** ** A Graph API that keeps what it is sent

    One application, of client id [app_id] and object id [object_id].  Its
    [web] document is the one of the latest [PATCH] of the application, or
    [initial] when there was none; a [GET] of the application shows it. *)
Definition application_url (object_id : string) : string :=
  fstr [GRAPH_BASE_URL; "/v1.0/applications/"; object_id].

Definition patched (object_id : string) (web : json) (e : event) : json :=
  match e with
  | EvHttp PATCH url (Some (JDict fields)) _ =>
      if String.eqb url (application_url object_id) then
        match assoc "web" fields with
        | Some web' => web'
        | None => web
        end
      else web
  | _ => web
  end.

Definition stored_web (object_id : string) (initial : json) (h : history) : json :=
  fold_left (patched object_id) h initial.

Definition graph_answer (app_id object_id : string) (initial : json)
    (h : history) (e : event) : exn + json :=
  match e with
  | EvGetToken _ => inr (JDict [("token", JStr "token")])
  | EvHttp GET url _ _ =>
      if String.eqb url (application_url object_id) then
        inr (JDict [("id", JStr object_id); ("appId", JStr app_id);
                    ("web", stored_web object_id initial h)])
      else
        inr (JDict [("value", JList [JDict [("id", JStr object_id);
                                            ("appId", JStr app_id)]])])
  | _ => inr JNull
  end.

Definition graph_world (app_id object_id : string) (initial : json) : world :=
  {| answer := graph_answer app_id object_id initial;
     root := Dir [];
     python37 := true;
     has_module := fun _ => true;
     isoformat := decimal |}.

(** The redirect URIs of a [web] document, when they are strings. *)
Fixpoint strings (items : list json) : option (list string) :=
  match items with
  | [] => Some []
  | JStr s :: rest =>
      match strings rest with
      | Some l => Some (s :: l)
      | None => None
      end
  | _ :: _ => None
  end.

Definition redirect_uris (web : json) : option (list string) :=
  match web with
  | JDict fields =>
      match assoc "redirectUris" fields with
      | Some (JList items) => strings items
      | _ => None
      end
  | _ => None
  end.

(** The [web] document that [add_reply_url] sends back, given the one it
    received. *)
Definition with_reply_url (reply_url : string) (fields : list (string * json))
    (items : list json) : json :=
  if str_in reply_url items then JDict fields
  else JDict (assoc_set "redirectUris" (JList (items ++ [JStr reply_url])) fields).

Definition graph_headers : list (string * string) :=
  [("Authorization", "bearer token"); ("Content-type", "application/json")].

(** ** The files of a folder

    The relative paths of the files at and below a node, by descent: a file
    is at the empty path from itself. *)
Fixpoint relative_files (n : node) : list path :=
  match n with
  | File => [[]]
  | Dir entries =>
      flat_map (fun entry => map (cons (fst entry)) (relative_files (snd entry)))
               entries
  end.

(** The number of files at and below a node. *)
Fixpoint count_files (n : node) : nat :=
  match n with
  | File => 1
  | Dir entries => list_sum (map (fun entry => count_files (snd entry)) entries)
  end.

(** The files below a folder; a folder that is a file has none below it. *)
Definition files_below (n : node) : list path :=
  match n with
  | File => []
  | Dir _ => relative_files n
  end.

(** No directory holds a name twice. *)
Fixpoint distinct (names : list string) : bool :=
  match names with
  | [] => true
  | name :: rest => negb (existsb (String.eqb name) rest) && distinct rest
  end.

Fixpoint distinct_names (n : node) : bool :=
  match n with
  | File => true
  | Dir entries =>
      distinct (map fst entries)
      && forallb (fun entry => distinct_names (snd entry)) entries
  end.

(** The blob names of the uploads among some events. *)
Definition blob_names (ev : list event) : list string :=
  flat_map (fun e =>
              match e with
              | EvUploadBlob _ _ name _ _ => [name]
              | _ => []
              end) ev.

(** The local files of the uploads among some events. *)
Definition uploaded_files (ev : list event) : list path :=
  flat_map (fun e =>
              match e with
              | EvUploadBlob _ _ _ file _ => [file]
              | _ => []
              end) ev.

(** The packages [_upload_batch] imports. *)
Definition batch_imports (w : world) : list string :=
  if python37 w then ["tqdm.asyncio"; "azure.storage.blob.aio"]
  else ["tqdm"; "azure.storage.blob"].

(** The upload of the file at [relative] below [source_folder]. *)
Definition upload_of (connection container_name : string) (source_folder : path)
    (relative : path) : event :=
  EvUploadBlob connection container_name (as_posix relative)
               (source_folder ++ relative) true.

(** A built site on disk, in the subscription of [provisioned_world]. *)
Definition site_world : world :=
  {| answer := fun _ => provisioned_answer;
     root := Dir [("home",
                   Dir [("build",
                         Dir [("index.html", File);
                              ("assets",
                               Dir [("app.js", File);
                                    ("img", Dir [("logo.png", File)]);
                                    ("empty", Dir [])]);
                              ("robots.txt", File)])])];
     python37 := true;
     has_module := fun _ => true;
     isoformat := decimal |}.

(** ** Secrets *)

(** The document [create_secret] posts. *)
Definition secret_request (description end_datetime : string) : json :=
  JDict [("passwordCredential",
          JDict [("displayName", JStr description);
                 ("endDateTime", JStr end_datetime)])].

(** A Graph API that hands out a secret, at noon of 2026-11-03. *)
Definition secret_answer (e : event) : exn + json :=
  match e with
  | EvNow => inr (JInt 63929304000000000)
  | EvHttp POST _ _ _ => inr (JDict [("secretText", JStr "s3cr3t~value")])
  | _ => provisioned_answer e
  end.

Definition secret_world : world :=
  {| answer := fun _ => secret_answer;
     root := Dir [];
     python37 := true;
     has_module := fun _ => true;
     isoformat := decimal |}.

(** The same Graph API when it refuses the secret: the [addPassword]
    request is answered with an error document. *)
Definition unanswered_secret_answer (e : event) : exn + json :=
  match e with
  | EvHttp POST _ _ _ =>
      inr (JDict [("error",
                   JDict [("code", JStr "Authorization_RequestDenied");
                          ("message",
                           JStr "Insufficient privileges to complete the operation.")])])
  | _ => secret_answer e
  end.

Definition unanswered_secret_world : world :=
  {| answer := fun _ => unanswered_secret_answer;
     root := Dir [];
     python37 := true;
     has_module := fun _ => true;
     isoformat := decimal |}.

(** ** Listings

    The SDK classes that the functions construct are bound. *)
Definition sdk_ready (G : namespace) : bool :=
  forallb (fun name =>
             match G name with
             | Some (PClass _) | Some (PCallable _) => true
             | _ => false
             end)
          (map snd sdk_imports).

(** The value that the module's top level gives [AZURE_CLI_INSTALLED]. *)
Definition azure_cli_installed (found : string -> bool) : bool :=
  snd (import_all found sdk_imports).

(** A subscription as the SDK lists it: display name and id. *)
Definition subscription_record (entry : string * string) : json :=
  JDict [("display_name", JStr (fst entry));
         ("subscription_id", JStr (snd entry))].

(** The id of the first subscription of a display name. *)
Fixpoint first_id (name : string) (subs : list (string * string))
  : option string :=
  match subs with
  | [] => None
  | (display_name, id) :: rest =>
      if String.eqb display_name name then Some id else first_id name rest
  end.

Definition is_listing (call : string) (e : event) : bool :=
  match e with
  | EvSdk c _ => String.eqb c call
  | _ => false
  end.

Definition is_http (verb : http_verb) (e : event) : bool :=
  match e, verb with
  | EvHttp GET _ _ _, GET | EvHttp POST _ _ _, POST
  | EvHttp PATCH _ _ _, PATCH => true
  | _, _ => false
  end.

(** An access key as the SDK lists it. *)
Definition key_record (value : string) : json := JDict [("value", JStr value)].

(** The connection string of a storage account and one of its keys. *)
Definition connection_string (storage_account key : string) : string :=
  fstr ["DefaultEndpointsProtocol=https;AccountName="; storage_account;
        ";AccountKey="; key].

(** A tenant: its subscriptions, the access keys of its storage accounts,
    two resource groups, and a storage account name that is taken. *)
Definition tenant_answer (subs : list (string * string)) (keys : list string)
    (e : event) : exn + json :=
  match e with
  | EvSdk "subscriptions.list" _ => inr (JList (map subscription_record subs))
  | EvSdk "resource_groups.list" _ =>
      inr (JList [account ("rg-a", [("location", JStr "northeurope")]);
                  account ("rg-b", [])])
  | EvSdk "storage_accounts.check_name_availability" _ =>
      inr (JDict [("name_available", JBool false);
                  ("reason", JStr "AlreadyExists");
                  ("message", JStr "The storage account is already taken.")])
  | EvSdk "storage_accounts.list_keys" _ =>
      inr (JDict [("keys", JList (map key_record keys))])
  | EvSdk "storage_accounts.list_by_resource_group" _ =>
      inr (JList [account ("logs", []); account ("account", [])])
  | EvSdk "storage_accounts.list" _ =>
      inr (JList [account ("logs", []); account ("account", []);
                  account ("backup", [("resourceGroup", JStr "rg-b")])])
  | EvSdk "blob_containers.list" _ =>
      inr (JList [account ("$web", []); account ("container", [])])
  | _ => inr JNull
  end.

Definition tenant_world (subs : list (string * string)) (keys : list string)
  : world :=
  {| answer := fun _ => tenant_answer subs keys;
     root := Dir [("home", Dir [("notes.txt", File)])];
     python37 := true;
     has_module := fun _ => true;
     isoformat := decimal |}.

(** Three subscriptions, two of which share a display name. *)
Definition three_subscriptions : list (string * string) :=
  [("dev", "1111"); ("prod", "2222"); ("dev", "3333")].

(** ** The Graph API, request by request *)

(** The headers of a request made with the access token [token]. *)
Definition bearer (token : string) : list (string * string) :=
  [("Authorization", fstr ["bearer "; token]);
   ("Content-type", "application/json")].

(** The credential hands out [token] whenever it is asked. *)
Definition grants (w : world) (token : string) : Prop :=
  forall h, answer w h (EvGetToken GRAPH_BASE_URL)
            = inr (JDict [("token", JStr token)]).

(** The world answers the request [e] with [r], whatever came before. *)
Definition replies (w : world) (e : event) (r : exn + json) : Prop :=
  forall h, answer w h e = r.

Definition graph_url (endpoint : string) : string :=
  fstr [GRAPH_BASE_URL; "/v1.0/"; endpoint].

(** The three lookups by filter. *)
Definition applications_named (display_name : string) : string :=
  graph_url (fstr ["applications?$filter=displayName eq '"; display_name; "'"]).

Definition applications_of (app_id : string) : string :=
  graph_url (fstr ["applications?$filter=appID eq '"; app_id; "'"]).

Definition service_principals_of (app_id : string) : string :=
  graph_url (fstr ["servicePrincipals?$filter=appID eq '"; app_id; "'"]).

(** The documents that the two create requests post. *)
Definition new_application (display_name : string) : json :=
  JDict [("displayName", JStr display_name);
         ("signInAudience", JStr "AzureADMyOrg")].

Definition new_service_principal (app_id : json) : json :=
  JDict [("appId", app_id); ("appRoleAssignmentRequired", JBool true)].

(** One request of the Graph API: the token, then the request itself. *)
Definition graph_request (token : string) (verb : http_verb) (url : string)
    (body : option json) : list event :=
  [EvGetToken GRAPH_BASE_URL; EvHttp verb url body (bearer token)].

(** A directory that answers every lookup with [found] and every create
    request with [created]. *)
Definition directory_answer (found created : json) (e : event) : exn + json :=
  match e with
  | EvGetToken _ => inr (JDict [("token", JStr "token")])
  | EvHttp GET _ _ _ => inr found
  | EvHttp POST _ _ _ => inr created
  | _ => inr JNull
  end.

Definition directory_world (found created : json) : world :=
  {| answer := fun _ => directory_answer found created;
     root := Dir [];
     python37 := true;
     has_module := fun _ => true;
     isoformat := decimal |}.

(** The answer to a lookup by filter: the documents that match. *)
Definition matches (documents : list json) : json :=
  JDict [("@odata.context", JStr "https://graph.microsoft.com/v1.0/$metadata");
         ("value", JList documents)].

(** The error document of the Graph API. *)
Definition graph_error (code message : string) : json :=
  JDict [("error", JDict [("code", JStr code); ("message", JStr message)])].

(** What a pass through the handler of [azure_app_registration_setup]
    appends. *)
Definition denied_attempt (azure_pim_already_open : bool) : list event :=
  (if azure_pim_already_open then []
   else [EvBrowserOpen (fstr [PIMCOMMON_URL; "/aadmigratedroles"]);
         EvPrint app_registration_prompt])
  ++ [EvPrint "New attempt of app registration in 30 seconds."; EvSleep 30].

(** ** The requests after a storage account is created *)

Definition signed_in_user : event :=
  EvAzureCli (map JStr ["ad"; "signed-in-user"; "show"; "--query"; "objectId";
                        "-o"; "tsv"]).

Definition group_show (subscription resource_group : string) : event :=
  EvAzureCli (map JStr ["group"; "show"; "--subscription"; subscription;
                        "--name"; resource_group]).

(** The scope of a storage account within its resource group. *)
Definition storage_account_scope (resource_group_id name : string) : string :=
  fstr [resource_group_id; "/providers/Microsoft.Storage/storageAccounts/"; name].

Definition role_assignment (role : string) (user_id : json) (scope : string)
  : event :=
  EvAzureCli [JStr "role"; JStr "assignment"; JStr "create";
              JStr "--role"; JStr role;
              JStr "--assignee"; user_id;
              JStr "--scope"; JStr scope].

(** The world accepts the request [e], whatever came before. *)
Definition accepts (w : world) (e : event) : Prop :=
  forall h, exists v, answer w h e = inr v.

(** A CLI that refuses every request: the name of the account is taken. *)
Definition taken_world : world :=
  {| answer := fun _ e =>
       match e with
       | EvAzureCli _ =>
           inl (Exn (SdkError "CloudError")
                  "(StorageAccountAlreadyTaken) The name is taken." None)
       | _ => inr JNull
       end;
     root := Dir [];
     python37 := true;
     has_module := fun _ => true;
     isoformat := decimal |}.





(** What the [finally] block of [storage_container_upload_folder] appends. *)
Definition activation_wait : list event :=
  [EvPrint "Waiting on Azure access activation... please wait."; EvSleep 60].

(** ** Runs

    A run only ever appends to the history.  [produces m Q]: from every
    history, [m] ends in an outcome [o] having appended the events [ev],
    with [Q o ev]. *)
Definition produces {A} (m : M A) (Q : outcome A -> list event -> Prop) : Prop :=
  forall h, exists o ev, m h = (o, h ++ ev) /\ Q o ev.

(** [emits p m]: every event that [m] appends satisfies [p]. *)
Definition emits {A} (p : event -> bool) (m : M A) : Prop :=
  produces m (fun _ ev => forallb p ev = true).

(** The requests proper, as opposed to what goes to the console and the
    browser. *)
Definition is_request (e : event) : bool :=
  match e with
  | EvBrowserOpen _ | EvPrint _ | EvWarn _ | EvSleep _ => false
  | _ => true
  end.

(** ** The remediation prompt

    The prompt of either loop is a browser tab on the privilege page
    together with the console message that explains it. *)
Inductive prompt_part : Type := TheBrowserTab | TheMessage.

Definition shows (part : prompt_part) (e : event) : bool :=
  match part, e with
  | TheBrowserTab, EvBrowserOpen _ => true
  | TheMessage, EvPrint msg =>
      String.eqb msg storage_account_prompt
      || String.eqb msg app_registration_prompt
  | _, _ => false
  end.

Definition prompts (part : prompt_part) (ev : list event) : nat :=
  count_events (shows part) ev.

(** What is left of the one prompt a loop may show. *)
Definition budget (azure_pim_already_open : bool) : nat :=
  if azure_pim_already_open then 0 else 1.

(** * Properties *)

(** ** The module namespace *)

Lemma import_all_names found name :
  binding name (fst (import_all found sdk_imports)) <> None ->
  In name (map snd sdk_imports).
Proof.
  unfold sdk_imports. simpl.
  repeat match goal with
         | |- context [if found ?p then _ else _] => destruct (found p); simpl
         | |- context [String.eqb name ?n] =>
             destruct (String.eqb_spec name n); [subst; simpl; tauto |]
         end;
    simpl; congruence.
Qed.

Lemma binding_app name (a b : list (string * pyobj)) :
  binding name (a ++ b) =
  match binding name a with
  | Some v => Some v
  | None => binding name b
  end.
Proof.
  induction a as [| [n v] a IH]; simpl; [reflexivity |].
  destruct (String.eqb name n); [reflexivity | exact IH].
Qed.

(** None of the names below is bound by the module's top level, whatever
    packages are installed. *)
Lemma unbound_in_module found name :
  In name ["_azure_cli"; "HttpResponseError"; "CloudError"; "AzureHttpError";
           "subscription"; "resource_group"; "account"; "azure"] ->
  module_namespace found name = None.
Proof.
  intros H. unfold module_namespace, module_bindings.
  destruct (import_all found sdk_imports) as [sdk ok] eqn:E.
  assert (Hsdk : binding name sdk = None).
  { destruct (binding name sdk) eqn:B; [| reflexivity].
    exfalso.
    assert (In name (map snd sdk_imports)).
    { apply (import_all_names found). rewrite E. simpl. congruence. }
    simpl in *. intuition (subst; discriminate). }
  simpl in H.
  rewrite !binding_app, Hsdk.
  repeat (destruct H as [H | H]; [subst name; reflexivity |]).
  contradiction.
Qed.

(** ** The logic of runs *)

Section Runs.

Context {A B : Type}.

Lemma produces_ret (a : A) (Q : outcome A -> list event -> Prop) :
  Q (Returned a) [] -> produces (ret a) Q.
Proof. intros H h. exists (Returned a), []. now rewrite app_nil_r. Qed.

Lemma produces_raise (e : exn) (Q : outcome A -> list event -> Prop) :
  Q (Raised e) [] -> produces (raise e) Q.
Proof. intros H h. exists (Raised e), []. now rewrite app_nil_r. Qed.

Lemma produces_looping (Q : outcome A -> list event -> Prop) :
  Q Looping [] -> produces looping Q.
Proof. intros H h. exists Looping, []. now rewrite app_nil_r. Qed.

Lemma produces_weaken (m : M A) (Q Q' : outcome A -> list event -> Prop) :
  produces m Q -> (forall o ev, Q o ev -> Q' o ev) -> produces m Q'.
Proof.
  intros H HQ h. destruct (H h) as (o & ev & E & q). exists o, ev. auto.
Qed.

Lemma produces_bind (m : M A) (k : A -> M B)
    (R : outcome A -> list event -> Prop)
    (Q : outcome B -> list event -> Prop) :
  produces m R ->
  (forall a ev, R (Returned a) ev ->
                produces (k a) (fun o ev' => Q o (ev ++ ev'))) ->
  (forall e ev, R (Raised e) ev -> Q (Raised e) ev) ->
  (forall ev, R Looping ev -> Q Looping ev) ->
  produces (bind m k) Q.
Proof.
  intros Hm Hk He Hl h. unfold bind.
  destruct (Hm h) as (o & ev & E & r). rewrite E.
  destruct o as [a | e |].
  - destruct (Hk a ev r (h ++ ev)) as (o' & ev' & E' & q).
    exists o', (ev ++ ev'). rewrite E', app_assoc. auto.
  - exists (Raised e), ev. auto.
  - exists Looping, ev. auto.
Qed.

Lemma produces_try_except (body : M A) (handler : exn -> M A)
    (R Q : outcome A -> list event -> Prop) :
  produces body R ->
  (forall e ev, R (Raised e) ev ->
                produces (handler e) (fun o ev' => Q o (ev ++ ev'))) ->
  (forall a ev, R (Returned a) ev -> Q (Returned a) ev) ->
  (forall ev, R Looping ev -> Q Looping ev) ->
  produces (try_except body handler) Q.
Proof.
  intros Hm Hk Hr Hl h. unfold try_except.
  destruct (Hm h) as (o & ev & E & r). rewrite E.
  destruct o as [a | e |].
  - exists (Returned a), ev. auto.
  - destruct (Hk e ev r (h ++ ev)) as (o' & ev' & E' & q).
    exists o', (ev ++ ev'). rewrite E', app_assoc. auto.
  - exists Looping, ev. auto.
Qed.

Lemma produces_try_finally (body : M A) (cleanup : M unit)
    (R Q : outcome A -> list event -> Prop) :
  produces body R ->
  (forall o ev, R o ev -> o <> Looping ->
                produces cleanup
                  (fun o' ev' =>
                     match o' with
                     | Returned _ => Q o (ev ++ ev')
                     | Raised e => Q (Raised e) (ev ++ ev')
                     | Looping => Q Looping (ev ++ ev')
                     end)) ->
  (forall ev, R Looping ev -> Q Looping ev) ->
  produces (try_finally body cleanup) Q.
Proof.
  intros Hm Hc Hl h. unfold try_finally.
  destruct (Hm h) as (o & ev & E & r). rewrite E.
  destruct o as [a | e |].
  - destruct (Hc _ ev r ltac:(discriminate) (h ++ ev)) as (o' & ev' & E' & q).
    rewrite E'. destruct o'; eexists _, (ev ++ ev'); rewrite app_assoc; eauto.
  - destruct (Hc _ ev r ltac:(discriminate) (h ++ ev)) as (o' & ev' & E' & q).
    rewrite E'. destruct o'; eexists _, (ev ++ ev'); rewrite app_assoc; eauto.
  - exists Looping, ev. auto.
Qed.

End Runs.

Lemma produces_emit (e : event) (Q : outcome unit -> list event -> Prop) :
  Q (Returned tt) [e] -> produces (emit e) Q.
Proof. intros H h. exists (Returned tt), [e]. auto. Qed.

Lemma produces_perform (w : world) (e : event)
    (Q : outcome json -> list event -> Prop) :
  (forall v, Q (Returned v) [e]) -> (forall x, Q (Raised x) [e]) ->
  produces (perform w e) Q.
Proof.
  intros Hv Hx h. unfold perform.
  destruct (answer w h e) as [x | v]; eexists _, [e]; eauto.
Qed.

(** *** Events of one kind *)

Section Emits.

Variable p : event -> bool.

Lemma forallb_app_true (a b : list event) :
  forallb p a = true -> forallb p b = true -> forallb p (a ++ b) = true.
Proof. intros Ha Hb. rewrite forallb_app, Ha, Hb. reflexivity. Qed.

Lemma emits_ret {A} (a : A) : emits p (ret a).
Proof. now apply produces_ret. Qed.

Lemma emits_raise {A} (e : exn) : emits p (raise e : M A).
Proof. now apply produces_raise. Qed.

Lemma emits_looping {A} : emits p (looping : M A).
Proof. now apply produces_looping. Qed.

Lemma emits_bind {A B} (m : M A) (k : A -> M B) :
  emits p m -> (forall a, emits p (k a)) -> emits p (bind m k).
Proof.
  intros Hm Hk. eapply produces_bind; [exact Hm | | auto | auto].
  intros a ev H. eapply produces_weaken; [apply Hk |].
  cbv beta. intros _ ev'. now apply forallb_app_true.
Qed.

Lemma emits_try_except {A} (body : M A) (handler : exn -> M A) :
  emits p body -> (forall e, emits p (handler e)) ->
  emits p (try_except body handler).
Proof.
  intros Hm Hk. eapply produces_try_except; [exact Hm | | auto | auto].
  intros e ev H. eapply produces_weaken; [apply Hk |].
  cbv beta. intros _ ev'. now apply forallb_app_true.
Qed.

Lemma emits_try_finally {A} (body : M A) (cleanup : M unit) :
  emits p body -> emits p cleanup -> emits p (try_finally body cleanup).
Proof.
  intros Hm Hc. eapply produces_try_finally; [exact Hm | | auto].
  intros o ev H _. eapply produces_weaken; [apply Hc |].
  cbv beta. intros o' ev' H'. destruct o'; now apply forallb_app_true.
Qed.

Lemma emits_emit (e : event) : p e = true -> emits p (emit e).
Proof. intros H. apply produces_emit. simpl. now rewrite H. Qed.

Lemma emits_perform (w : world) (e : event) :
  p e = true -> emits p (perform w e).
Proof. intros H. apply produces_perform; intros; simpl; now rewrite H. Qed.

End Emits.

Create HintDb emits.

Ltac emits_step :=
  lazymatch goal with
  | |- emits _ (bind _ _) => apply emits_bind; [| intro]
  | |- emits _ (ret _) => apply emits_ret
  | |- emits _ (raise _) => apply emits_raise
  | |- emits _ looping => apply emits_looping
  | |- emits _ (try_except _ _) => apply emits_try_except; [| intro]
  | |- emits _ (try_finally _ _) => apply emits_try_finally
  | |- emits _ (emit _) => apply emits_emit; reflexivity
  | |- emits _ (perform _ _) => apply emits_perform; reflexivity
  | |- emits _ (match ?x with _ => _ end) => destruct x
  end.

Ltac emits_auto := repeat (emits_step || assumption || eauto with emits).

(** *** What the Graph functions and the CLI runner append *)

Section Requests.

Variable w : world.
Variable G : namespace.

Lemma emits_load_global p name : emits p (load_global G name).
Proof. unfold load_global. emits_auto. Qed.

Lemma emits_getitem p v k : emits p (getitem v k).
Proof. unfold getitem. emits_auto. Qed.

Lemma emits_getindex p v i : emits p (getindex v i).
Proof. unfold getindex. emits_auto. Qed.

Lemma emits_getattr p v a : emits p (getattr v a).
Proof. unfold getattr. emits_auto. Qed.

Lemma emits_py_in p k v : emits p (py_in k v).
Proof. unfold py_in. emits_auto. Qed.

Lemma emits_callable p v : emits p (callable v).
Proof. unfold callable. emits_auto. Qed.

#[local] Hint Resolve emits_load_global emits_getitem emits_getindex
  emits_getattr emits_py_in emits_callable : emits.

Lemma requests_azure_cli args : emits is_request (_azure_cli w G args).
Proof. unfold _azure_cli. emits_auto. Qed.

Lemma requests_credential : emits is_request (_credential G).
Proof. unfold _credential. emits_auto. Qed.

#[local] Hint Resolve requests_credential : emits.

Lemma requests_graph_headers : emits is_request (_graph_headers w G).
Proof. unfold _graph_headers. emits_auto. Qed.

#[local] Hint Resolve requests_graph_headers : emits.

Lemma requests_request verb url body : emits is_request (request w G verb url body).
Proof. unfold request. emits_auto. Qed.

#[local] Hint Resolve requests_request : emits.

Lemma requests_existing_app_registration display_name :
  emits is_request (existing_app_registration w G display_name).
Proof. unfold existing_app_registration. emits_auto. Qed.

#[local] Hint Resolve requests_existing_app_registration : emits.

Lemma requests_create_app_registration display_name :
  emits is_request (create_app_registration w G display_name).
Proof. unfold create_app_registration. emits_auto. Qed.

Lemma requests_create_service_principal app_registration_id :
  emits is_request (create_service_principal w G app_registration_id).
Proof. unfold create_service_principal. emits_auto. Qed.

Lemma requests_object_id_from_app_id app_registration_id :
  emits is_request (_object_id_from_app_id w G app_registration_id).
Proof. unfold _object_id_from_app_id. emits_auto. Qed.

#[local] Hint Resolve requests_object_id_from_app_id : emits.

Lemma requests_create_secret app_registration_id description years :
  emits is_request (create_secret w G app_registration_id description years).
Proof.
  unfold create_secret, datetime_now, datetime_add_days. emits_auto.
Qed.

Lemma requests_add_reply_url app_registration_id reply_url :
  emits is_request (add_reply_url w G app_registration_id reply_url).
Proof. unfold add_reply_url. emits_auto. Qed.

Lemma requests_assign_roles roles user_id resource_group_id name :
  emits is_request (assign_roles w G roles user_id resource_group_id name).
Proof.
  induction roles as [| role roles IH]; simpl; emits_auto.
  apply requests_azure_cli.
Qed.

End Requests.

(** ** Uploading a folder *)

(** C9: the body of [storage_container_upload_folder] reads [subscription],
    [resource_group] and [AzureHttpError], none of which the module binds
    (they are no parameters or locals either: the embedding reads them from
    the namespace).  So every invocation, in every world, raises a
    [NameError] on its first attempt, after the 60 seconds of the [finally]
    block, and no request of an upload is ever issued. *)
Theorem upload_folder_raises_name_error
    (w : world) (storage_name container_name : string) (source_folder : path)
    (h : history) :
  module_of w "subscription" = None
  /\ module_of w "resource_group" = None
  /\ module_of w "AzureHttpError" = None
  /\ storage_container_upload_folder w (module_of w) storage_name container_name
       source_folder h
     = (Raised (Exn NameError "name 'AzureHttpError' is not defined" None),
        h ++ [EvPrint "Waiting on Azure access activation... please wait.";
              EvSleep 60]).
Proof.
  assert (U : forall name,
             In name ["subscription"; "resource_group"; "AzureHttpError"] ->
             module_of w name = None).
  { intros name H. apply unbound_in_module. simpl in *. tauto. }
  repeat split; try (apply U; simpl; tauto).
  unfold storage_container_upload_folder, upload_attempts, upload_attempt.
  unfold bind, try_finally, try_except, load_global.
  rewrite (U "subscription"), (U "AzureHttpError") by (simpl; tauto).
  simpl. rewrite <- app_assoc. reflexivity.
Qed.

(** C2, on the code: in a world whose every upload fails with the SDK's
    transient HTTP error, the function does not attempt the batch five times
    and end in the fatal [RuntimeError]; it attempts no upload at all,
    sleeps once and ends in a [NameError]. *)
Theorem upload_folder_in_refusing_world :
  let run :=
    storage_container_upload_folder refusing_world (module_of refusing_world)
      "account" "container" ["build"] [] in
  fst run = Raised (Exn NameError "name 'AzureHttpError' is not defined" None)
  /\ count_events is_upload (snd run) = 0
  /\ count_events is_sleep (snd run) = 1.
Proof. vm_compute. repeat split. Qed.

(** Once the three names are bound, the loop is the one C2 describes, here
    where the batch uploads one file after the other: five attempts of the
    batch, each stopped by its first upload, sixty seconds after each, then
    the fatal error. *)
Lemma upload_folder_with_names_bound :
  let run :=
    storage_container_upload_folder sequential_refusing_world
      (with_bindings upload_names (module_of sequential_refusing_world))
      "account" "container" ["build"] [] in
  fst run = Raised (Exn RuntimeError
                      "Not able to upload folder to blob storage container." None)
  /\ count_events is_upload (snd run) = 5
  /\ filter is_sleep (snd run) = repeat (EvSleep 60) 5.
Proof. vm_compute. repeat split. Qed.

(** With the names bound and a container that takes the uploads, the first
    attempt is the last: four blobs, one wait, a return. *)
Lemma upload_folder_succeeds_with_names_bound :
  let run :=
    storage_container_upload_folder site_world
      (with_bindings upload_names (module_of site_world))
      "account" "container" ["home"; "build"] [] in
  fst run = Returned tt
  /\ count_events is_upload (snd run) = 4
  /\ filter is_sleep (snd run) = [EvSleep 60].
Proof. vm_compute. repeat split. Qed.

(** ** Creating a storage account *)

(** C3, on the code: [create_storage_account] reads [_azure_cli] from the
    module namespace, where it is not bound; the [NameError] reaches the
    [except] clause, whose classes [HttpResponseError] and [CloudError] are
    not bound either.  So in every world the function raises a [NameError]
    before any request is issued: no create request, no authorization link,
    no retry, no [RuntimeError]. *)
Theorem create_storage_account_raises_name_error
    (w : world) (fuel : nat) (subscription resource_group name : string)
    (h : history) :
  create_storage_account w (module_of w) (S fuel) subscription resource_group
    name h
  = (Raised (Exn NameError "name 'HttpResponseError' is not defined" None), h).
Proof.
  assert (U : forall n,
             In n ["_azure_cli"; "HttpResponseError"] -> module_of w n = None).
  { intros n H. apply unbound_in_module. simpl in *. tauto. }
  unfold create_storage_account. simpl.
  unfold bind, try_except, _azure_cli, bind, load_global.
  rewrite (U "_azure_cli"), (U "HttpResponseError") by (simpl; tauto).
  reflexivity.
Qed.

(** ** The retry loops, once their names are bound

    What one pass through the loop of [create_storage_account] does when the
    namespace binds the CLI runner and the two classes of the [except]
    clause: an authorization failure is retried after sixty seconds, with
    the prompt on the first pass only; another error of those classes is
    wrapped in a [RuntimeError]; an error of another class propagates. *)

Section BoundNames.

Variable w : world.
Variable G : namespace.
Variables (runner : string) (c1 c2 : exn_class).

Hypothesis cli_bound : G "_azure_cli" = Some (PCallable runner).
Hypothesis http_bound : G "HttpResponseError" = Some (PClass c1).
Hypothesis cloud_bound : G "CloudError" = Some (PClass c2).

Variables subscription resource_group name : string.
Variable exc : exn.
Variable h : history.

Hypothesis refused :
  answer w h (EvAzureCli (account_create_args subscription resource_group name))
  = inl exc.

Lemma storage_loop_retries fuel flag :
  isinstance exc [c1; c2] = true ->
  contains "AuthorizationFailed" (exn_msg exc) = true ->
  create_storage_account_loop w G (S fuel) subscription resource_group name
    flag h
  = create_storage_account_loop w G fuel subscription resource_group name true
      (h ++ refused_attempt subscription resource_group name flag).
Proof.
  intros Hclass Hmsg. cbn [create_storage_account_loop].
  unfold bind at 1, try_except, bind at 1, _azure_cli, bind at 1, load_global.
  rewrite cli_bound. unfold ret at 1, bind at 1, callable, ret at 1, perform.
  rewrite refused.
  unfold bind at 1, load_global. rewrite http_bound. unfold ret at 1.
  unfold bind at 1. rewrite cloud_bound. unfold ret at 1.
  unfold bind at 1, exception_class, ret at 1.
  unfold bind at 1, ret at 1. rewrite Hclass, Hmsg.
  unfold refused_attempt.
  destruct flag; cbn -[create_storage_account_loop account_create_args fstr];
    rewrite <- !app_assoc; reflexivity.
Qed.

Lemma storage_loop_fatal fuel flag :
  isinstance exc [c1; c2] = true ->
  contains "AuthorizationFailed" (exn_msg exc) = false ->
  create_storage_account_loop w G (S fuel) subscription resource_group name
    flag h
  = (Raised (Exn RuntimeError "Not able to create new storage account."
               (Some exc)),
     h ++ [EvAzureCli (account_create_args subscription resource_group name)]).
Proof.
  intros Hclass Hmsg. cbn [create_storage_account_loop].
  unfold bind at 1, try_except, bind at 1, _azure_cli, bind at 1, load_global.
  rewrite cli_bound. unfold ret at 1, bind at 1, callable, ret at 1, perform.
  rewrite refused.
  unfold bind at 1, load_global. rewrite http_bound. unfold ret at 1.
  unfold bind at 1. rewrite cloud_bound. unfold ret at 1.
  unfold bind at 1, exception_class, ret at 1.
  unfold bind at 1, ret at 1. rewrite Hclass, Hmsg. reflexivity.
Qed.

Lemma storage_loop_propagates fuel flag :
  isinstance exc [c1; c2] = false ->
  create_storage_account_loop w G (S fuel) subscription resource_group name
    flag h
  = (Raised exc,
     h ++ [EvAzureCli (account_create_args subscription resource_group name)]).
Proof.
  intros Hclass. cbn [create_storage_account_loop].
  unfold bind at 1, try_except, bind at 1, _azure_cli, bind at 1, load_global.
  rewrite cli_bound. unfold ret at 1, bind at 1, callable, ret at 1, perform.
  rewrite refused.
  unfold bind at 1, load_global. rewrite http_bound. unfold ret at 1.
  unfold bind at 1. rewrite cloud_bound. unfold ret at 1.
  unfold bind at 1, exception_class, ret at 1.
  unfold bind at 1, ret at 1. rewrite Hclass. reflexivity.
Qed.

End BoundNames.

(** ** The remediation prompt is shown at most once *)

(** Case analysis on what a handler reads: the bindings of the names it
    loads, then the tests it branches on. *)
Ltac run_cases G :=
  repeat (match goal with
          | |- context [match G ?n with _ => _ end] => destruct (G n) as [[]|]
          | |- context [if ?b then _ else _] => destruct b
          end; simpl).

(** A run that appended nothing, or a list that [reflexivity] finds. *)
Ltac ends_run :=
  first [ reflexivity
        | instantiate (1 := []); now rewrite app_nil_r ].

Section Prompts.

Variable w : world.
Variable G : namespace.
Variable part : prompt_part.

Lemma prompts_app (a b : list event) :
  prompts part (a ++ b) = prompts part a + prompts part b.
Proof. unfold prompts, count_events. now rewrite filter_app, length_app. Qed.

Lemma requests_show_nothing (ev : list event) :
  forallb is_request ev = true -> prompts part ev = 0.
Proof.
  unfold prompts, count_events.
  induction ev as [| e ev IH]; simpl; [reflexivity |].
  intros H. apply andb_prop in H. destruct H as [He Hev].
  replace (shows part e) with false; [auto |].
  destruct part, e; simpl in *; congruence.
Qed.

(** One pass through the handler of [create_storage_account]: it shows the
    prompt only when the flag is down, and then raises the flag. *)
Lemma storage_loop_prompts fuel subscription resource_group name flag :
  produces
    (create_storage_account_loop w G fuel subscription resource_group name flag)
    (fun _ ev => prompts part ev <= budget flag).
Proof.
  revert flag. induction fuel as [| fuel IH]; intros flag.
  - apply produces_looping. apply Nat.le_0_l.
  - cbn [create_storage_account_loop].
    eapply produces_bind
      with (R := fun o ev =>
                   match o with
                   | Returned (Some opened) =>
                       prompts part ev + budget opened <= budget flag
                   | _ => prompts part ev <= budget flag
                   end).
    + eapply produces_try_except
        with (R := fun o ev => prompts part ev = 0 /\ o <> Returned (Some true)
                               /\ o <> Returned (Some false)).
      * eapply produces_bind; [apply requests_azure_cli | | | ]; cbv beta.
        -- intros _ ev Hev. apply produces_ret.
           rewrite app_nil_r, requests_show_nothing by exact Hev.
           repeat split; discriminate.
        -- intros e ev Hev. rewrite requests_show_nothing by exact Hev.
           repeat split; discriminate.
        -- intros ev Hev. rewrite requests_show_nothing by exact Hev.
           repeat split; discriminate.
      * intros exc ev (Hev & _) h.
        unfold bind, load_global, exception_class, raise, ret,
          webbrowser_open, print, sleep, emit.
        destruct flag; run_cases G;
          rewrite <- ?app_assoc; simpl;
          (eexists _, _; split; [ends_run |]);
          rewrite prompts_app, Hev; destruct part; vm_compute; lia.
      * intros [[|] |] ev (Hev & Ht & Hf); try congruence.
        rewrite Hev. apply Nat.le_0_l.
      * intros ev (Hev & _). rewrite Hev. apply Nat.le_0_l.
    + intros [opened |] ev Hev.
      * eapply produces_weaken; [apply IH |].
        cbv beta. intros _ ev' Hev'. rewrite prompts_app. lia.
      * apply produces_ret. rewrite app_nil_r. exact Hev.
    + auto.
    + auto.
Qed.

Lemma app_registration_loop_prompts fuel display_name flag :
  produces (app_registration_loop w G fuel display_name flag)
           (fun _ ev => prompts part ev <= budget flag).
Proof.
  revert flag. induction fuel as [| fuel IH]; intros flag.
  - apply produces_looping. apply Nat.le_0_l.
  - cbn [app_registration_loop].
    eapply produces_bind
      with (R := fun o ev =>
                   match o with
                   | Returned (inr opened) =>
                       prompts part ev + budget opened <= budget flag
                   | _ => prompts part ev <= budget flag
                   end).
    + eapply produces_try_except
        with (R := fun o ev => prompts part ev = 0
                               /\ forall opened, o <> Returned (inr opened)).
      * eapply produces_bind;
          [apply requests_create_app_registration | | | ]; cbv beta.
        -- intros app_registration_id ev Hev.
           eapply produces_bind;
             [apply requests_create_service_principal | | | ]; cbv beta.
           ++ intros ids ev' Hev'. apply produces_ret.
              rewrite app_nil_r, prompts_app, !requests_show_nothing
                by assumption.
              split; [reflexivity | discriminate].
           ++ intros e ev' Hev'.
              rewrite prompts_app, !requests_show_nothing by assumption.
              split; [reflexivity | discriminate].
           ++ intros ev' Hev'.
              rewrite prompts_app, !requests_show_nothing by assumption.
              split; [reflexivity | discriminate].
        -- intros e ev Hev. rewrite requests_show_nothing by exact Hev.
           split; [reflexivity | discriminate].
        -- intros ev Hev. rewrite requests_show_nothing by exact Hev.
           split; [reflexivity | discriminate].
      * intros exc ev (Hev & _) h.
        unfold bind, raise, ret, webbrowser_open, print, sleep, emit.
        destruct flag; run_cases G;
          rewrite <- ?app_assoc; simpl;
          (eexists _, _; split; [ends_run |]);
          rewrite prompts_app, Hev; destruct part; vm_compute; lia.
      * intros [ids | opened] ev (Hev & Hno).
        -- rewrite Hev. apply Nat.le_0_l.
        -- now destruct (Hno opened).
      * intros ev (Hev & _). rewrite Hev. apply Nat.le_0_l.
    + intros [ids | opened] ev Hev.
      * apply produces_ret. rewrite app_nil_r. exact Hev.
      * eapply produces_weaken; [apply IH |].
        cbv beta. intros _ ev' Hev'. rewrite prompts_app. lia.
    + auto.
    + auto.
Qed.

(** What follows a loop only issues requests. *)
Lemma prompts_then_requests {A B} (m : M A) (k : A -> M B) (n : nat) :
  produces m (fun _ ev => prompts part ev <= n) ->
  (forall a, emits is_request (k a)) ->
  produces (bind m k) (fun _ ev => prompts part ev <= n).
Proof.
  intros Hm Hk. eapply produces_bind; [exact Hm | | auto | auto].
  intros a ev Hev. eapply produces_weaken; [apply Hk |].
  cbv beta in *. intros _ ev' Hev'.
  rewrite prompts_app, (requests_show_nothing ev') by exact Hev'. lia.
Qed.

Lemma create_storage_account_prompts fuel subscription resource_group name :
  produces (create_storage_account w G fuel subscription resource_group name)
           (fun _ ev => prompts part ev <= 1).
Proof.
  unfold create_storage_account.
  apply prompts_then_requests; [apply (storage_loop_prompts _ _ _ _ false) |].
  intros _. emits_auto;
    auto using requests_azure_cli, requests_assign_roles, emits_getitem.
Qed.

Lemma app_registration_setup_prompts fuel display_name proxy_redirect_url :
  produces (azure_app_registration_setup w G fuel display_name proxy_redirect_url)
           (fun _ ev => prompts part ev <= 1).
Proof.
  unfold azure_app_registration_setup.
  apply prompts_then_requests;
    [apply (app_registration_loop_prompts _ _ false) |].
  intros [[app_registration_id object_id] tenant_id]. emits_auto;
    auto using requests_create_secret, requests_add_reply_url.
Qed.

End Prompts.

(** C7: within one run, each part of the remediation prompt -- the browser
    tab and the console message -- is shown at most once, whatever number of
    iterations the retry loop goes through (whatever the fuel), in every
    world and with every binding of the names the loops read.  This holds
    for [create_storage_account] and for [azure_app_registration_setup]. *)
Theorem prompt_shown_at_most_once
    (w : world) (G : namespace) (part : prompt_part) (fuel : nat)
    (subscription resource_group name display_name proxy_redirect_url : string)
    (h : history) :
  (exists o ev,
      create_storage_account w G fuel subscription resource_group name h
      = (o, h ++ ev)
      /\ prompts part ev <= 1)
  /\ (exists o ev,
         azure_app_registration_setup w G fuel display_name proxy_redirect_url h
         = (o, h ++ ev)
         /\ prompts part ev <= 1).
Proof.
  split.
  - apply create_storage_account_prompts.
  - apply app_registration_setup_prompts.
Qed.

(** Three refused attempts in a row: one prompt, three waits, and the loop
    goes on. *)
Example storage_account_denied_thrice :
  let run :=
    create_storage_account denying_world
      (with_bindings cli_names (module_of denying_world)) 3 "sub" "rg" "account"
      [] in
  fst run = Looping
  /\ prompts TheBrowserTab (snd run) = 1
  /\ prompts TheMessage (snd run) = 1
  /\ filter is_sleep (snd run) = repeat (EvSleep 60) 3.
Proof. vm_compute. repeat split. Qed.

(** The same for the app registration, with the module as it is. *)
Example app_registration_denied_thrice :
  let run :=
    azure_app_registration_setup denying_world (module_of denying_world) 3
      "webviz" "https://webviz.example/oauth2/callback" [] in
  fst run = Looping
  /\ prompts TheBrowserTab (snd run) = 1
  /\ prompts TheMessage (snd run) = 1
  /\ filter is_sleep (snd run) = repeat (EvSleep 30) 3.
Proof. vm_compute. repeat split. Qed.

(** ** Existence checks *)

Lemma bind_returned {A B} (m : M A) (k : A -> M B) h b h' :
  bind m k h = (Returned b, h') ->
  exists a h1, m h = (Returned a, h1) /\ k a h1 = (Returned b, h').
Proof.
  unfold bind. destruct (m h) as [[a | e |] h1]; intros H; try discriminate.
  now exists a, h1.
Qed.

Lemma count_none (p : event -> bool) (ev : list event) :
  forallb (fun e => negb (p e)) ev = true -> count_events p ev = 0.
Proof.
  unfold count_events.
  induction ev as [| e ev IH]; simpl; [reflexivity |].
  intros H. apply andb_prop in H. destruct H as [He Hev].
  destruct (p e); [discriminate | auto].
Qed.

Section NoCheck.

Variable w : world.
Variable G : namespace.

Let unchecked (e : event) : bool := negb (is_existence_check e).
Let uncreated (e : event) : bool := negb (is_create_request e).

Lemma uncreated_existing_app_registration display_name :
  emits uncreated (existing_app_registration w G display_name).
Proof.
  unfold existing_app_registration, request, _graph_headers, _credential.
  emits_auto;
    auto using emits_getattr, emits_getindex, emits_getitem, emits_load_global,
      emits_callable.
Qed.

Lemma unchecked_find_subscription subscription_name subs :
  emits unchecked (find_subscription subscription_name subs).
Proof.
  induction subs as [| sub subs IH]; simpl; emits_auto;
    auto using emits_getattr.
Qed.

Lemma unchecked_connection_string subscription resource_group storage_account :
  emits unchecked (_connection_string w G subscription resource_group
                                     storage_account).
Proof.
  unfold _connection_string, get_storage_account_access_key,
    storage_management_client, _subscription_id, _credential, iterate.
  emits_auto;
    auto using emits_getattr, emits_getindex, emits_load_global, emits_callable,
      unchecked_find_subscription.
Qed.

End NoCheck.

(** C1, where the code departs from it: the container [container] exists,
    as [storage_container_exists] reports, and [create_storage_container]
    issues the create request all the same (which the storage service
    refuses). *)
Lemma create_container_does_not_check :
  let G := module_of provisioned_world in
  fst (storage_container_exists provisioned_world G "container" "account" "sub"
         "rg" [])
  = Returned true
  /\ In (EvCreateContainer
           "DefaultEndpointsProtocol=https;AccountName=account;AccountKey=key"
           "container")
        (snd (create_storage_container provisioned_world G "sub" "rg" "account"
                "container" [])).
Proof. vm_compute. auto. Qed.

(** What the two storage functions append, in whatever world: no listing
    of storage accounts or of containers is among it. *)
Section NoListing.

Variable w : world.
Variable G : namespace.

Let unchecked (e : event) : bool := negb (is_existence_check e).

Lemma unchecked_azure_cli args : emits unchecked (_azure_cli w G args).
Proof.
  unfold _azure_cli. emits_auto; auto using emits_load_global, emits_callable.
Qed.

Lemma unchecked_storage_loop fuel subscription resource_group name :
  forall flag,
    emits unchecked
      (create_storage_account_loop w G fuel subscription resource_group name
         flag).
Proof.
  induction fuel as [| fuel IH]; intros flag; cbn [create_storage_account_loop].
  - apply emits_looping.
  - apply emits_bind.
    + apply emits_try_except.
      * apply emits_bind; [apply unchecked_azure_cli | intro; apply emits_ret].
      * intro exc.
        unfold exception_class, webbrowser_open, print, sleep.
        emits_auto; auto using emits_load_global.
    + intros [opened |]; [apply IH | apply emits_ret].
Qed.

Lemma unchecked_assign_roles roles user_id resource_group_id name :
  emits unchecked (assign_roles w G roles user_id resource_group_id name).
Proof.
  induction roles as [| role roles IH]; simpl; emits_auto.
  apply unchecked_azure_cli.
Qed.

Lemma unchecked_create_storage_account fuel subscription resource_group name :
  emits unchecked
    (create_storage_account w G fuel subscription resource_group name).
Proof.
  unfold create_storage_account.
  apply emits_bind; [apply unchecked_storage_loop | intros _].
  apply emits_bind; [apply unchecked_azure_cli | intros user_id].
  apply emits_bind; [apply unchecked_azure_cli | intros group].
  apply emits_bind; [apply emits_getitem | intros resource_group_id].
  apply unchecked_assign_roles.
Qed.

Lemma unchecked_create_storage_container
    subscription resource_group storage_account container :
  emits unchecked
    (create_storage_container w G subscription resource_group storage_account
       container).
Proof.
  unfold create_storage_container.
  apply emits_bind; [apply emits_load_global | intros client].
  apply emits_bind; [unfold attribute; emits_auto | intros _].
  apply emits_bind; [apply unchecked_connection_string | intros connection].
  apply emits_bind; [apply emits_perform; reflexivity | intros _].
  apply emits_ret.
Qed.

(** With the CLI runner bound, a pass through the loop of
    [create_storage_account] begins with the create request. *)
Lemma bound_loop_creates_first runner fuel subscription resource_group name flag :
  G "_azure_cli" = Some (PCallable runner) ->
  produces
    (create_storage_account_loop w G (S fuel) subscription resource_group name
       flag)
    (fun _ ev =>
       exists rest,
         ev = EvAzureCli (account_create_args subscription resource_group name)
              :: rest).
Proof.
  intros Hcli.
  set (create := EvAzureCli (account_create_args subscription resource_group name)).
  cbn [create_storage_account_loop]. fold create.
  eapply produces_bind
    with (R := fun _ ev => exists rest, ev = create :: rest).
  - eapply produces_try_except with (R := fun _ ev => ev = [create]).
    + intros h. unfold _azure_cli, bind, load_global. rewrite Hcli.
      unfold ret, callable, ret, perform. fold create.
      destruct (answer w h create);
        (eexists _, [create]; split; reflexivity).
    + intros exc ev Hev. subst ev.
      eapply produces_weaken with (Q := fun _ _ => True).
      * intros h.
        unfold bind, load_global, exception_class, raise, ret,
          webbrowser_open, print, sleep, emit.
        destruct flag; run_cases G;
          rewrite <- ?app_assoc; simpl;
          (eexists _, _; split; [ends_run | exact I]).
      * cbv beta. intros o ev' _. now exists ev'.
    + intros a ev Hev. subst ev. now exists [].
    + intros ev Hev. subst ev. now exists [].
  - intros next ev (rest & Hev). subst ev.
    eapply produces_weaken with (Q := fun _ _ => True).
    + destruct next as [opened |].
      * eapply produces_weaken;
          [apply (storage_loop_prompts w G TheBrowserTab) | auto].
      * now apply produces_ret.
    + cbv beta. intros o ev' _. now exists (rest ++ ev').
  - auto.
  - auto.
Qed.

Lemma bound_create_storage_account_creates_first
    runner fuel subscription resource_group name :
  G "_azure_cli" = Some (PCallable runner) ->
  produces
    (create_storage_account w G (S fuel) subscription resource_group name)
    (fun _ ev =>
       exists rest,
         ev = EvAzureCli (account_create_args subscription resource_group name)
              :: rest).
Proof.
  intros Hcli. unfold create_storage_account.
  eapply produces_bind;
    [apply (@bound_loop_creates_first runner fuel subscription resource_group
              name false Hcli) | | auto | auto].
  cbv beta. intros [] ev (rest & Hev). subst ev.
  eapply produces_weaken with (Q := fun _ ev => forallb unchecked ev = true).
  - refine (_ : emits unchecked _).
    apply emits_bind; [apply unchecked_azure_cli | intros user_id].
    apply emits_bind; [apply unchecked_azure_cli | intros group].
    apply emits_bind; [apply emits_getitem | intros resource_group_id].
    apply unchecked_assign_roles.
  - cbv beta. intros o ev' _. now exists (rest ++ ev').
Qed.

End NoListing.

(** C1, as the code has it.  [create_app_registration] looks for the app
    registration itself: when the lookup finds one of the display name, the
    function returns its id and stops where the lookup stopped, so no create
    request is issued.  [create_storage_container] and
    [create_storage_account] do not look: no run of either, whether it
    returns or not, lists storage accounts or containers.  The container is
    requested as soon as the connection string is there, and the storage
    account, once the CLI runner is bound, is requested first of all. *)
Theorem existence_checks_of_create_operations
    (w : world) (G : namespace)
    (display_name subscription resource_group storage_account container
       name : string) :
  (forall h h1 existing_app_id,
      existing_app_registration w G display_name h
      = (Returned existing_app_id, h1) ->
      existing_app_id <> JNull ->
      create_app_registration w G display_name h
      = (Returned existing_app_id, h1)
      /\ exists ev, h1 = h ++ ev /\ count_events is_create_request ev = 0)
  /\ (forall h,
         exists o ev,
           create_storage_container w G subscription resource_group
             storage_account container h
           = (o, h ++ ev)
           /\ count_events is_existence_check ev = 0)
  /\ (forall h h1 client connection,
         G "BlobServiceClient" = Some (PCallable client) ->
         _connection_string w G (PStr subscription) (PStr resource_group)
           storage_account h
         = (Returned connection, h1) ->
         snd (create_storage_container w G subscription resource_group
                storage_account container h)
         = h1 ++ [EvCreateContainer connection container])
  /\ (forall fuel h,
         exists o ev,
           create_storage_account w G fuel subscription resource_group name h
           = (o, h ++ ev)
           /\ count_events is_existence_check ev = 0)
  /\ (forall fuel h runner,
         G "_azure_cli" = Some (PCallable runner) ->
         exists o rest,
           create_storage_account w G (S fuel) subscription resource_group
             name h
           = (o, h ++ EvAzureCli (account_create_args subscription
                                    resource_group name) :: rest)).
Proof.
  split; [| split; [| split; [| split]]].
  - intros h h1 existing_app_id Hfound Hid. split.
    + unfold create_app_registration, bind. rewrite Hfound.
      destruct existing_app_id; try reflexivity. congruence.
    + destruct (uncreated_existing_app_registration w G display_name h)
        as (o & ev & E & Hev).
      rewrite Hfound in E. inversion E; subst.
      exists ev. split; [reflexivity | now apply count_none].
  - intros h.
    destruct (unchecked_create_storage_container w G subscription
                resource_group storage_account container h)
      as (o & ev & E & Hev).
    exists o, ev. split; [exact E | now apply count_none].
  - intros h h1 client connection Hclient Hconnection.
    unfold create_storage_container, bind, load_global. rewrite Hclient.
    unfold ret, attribute, ret. rewrite Hconnection.
    unfold perform.
    now destruct (answer w h1 (EvCreateContainer connection container)).
  - intros fuel h.
    destruct (unchecked_create_storage_account w G fuel subscription
                resource_group name h)
      as (o & ev & E & Hev).
    exists o, ev. split; [exact E | now apply count_none].
  - intros fuel h runner Hcli.
    destruct (@bound_create_storage_account_creates_first w G runner fuel
                subscription resource_group name Hcli h)
      as (o & ev & E & rest & Hev).
    subst ev. now exists o, rest.
Qed.

(** The theorem at work, in [provisioned_world], where everything is
    already there: the app registration is found and not created again,
    and the container is requested again. *)
Lemma existence_checks_of_create_operations_witness :
  let w := provisioned_world in
  let G := module_of provisioned_world in
  let connection :=
    "DefaultEndpointsProtocol=https;AccountName=account;AccountKey=key" in
  (create_app_registration w G "webviz" []
   = (Returned (JStr "app-1"), snd (existing_app_registration w G "webviz" []))
   /\ exists ev,
        snd (existing_app_registration w G "webviz" []) = [] ++ ev
        /\ count_events is_create_request ev = 0)
  /\ snd (create_storage_container w G "sub" "rg" "account" "container" [])
     = snd (_connection_string w G (PStr "sub") (PStr "rg") "account" [])
       ++ [EvCreateContainer connection "container"].
Proof.
  intros w G connection.
  destruct (@existence_checks_of_create_operations w G "webviz" "sub" "rg"
              "account" "container" "account")
    as (Hregistration & _ & Hcontainer & _).
  split.
  - apply Hregistration; [reflexivity | discriminate].
  - apply (Hcontainer [] _ "BlobServiceClient" connection); reflexivity.
Defined.

(** ** Looking for a storage account *)

Lemma any_named_absent name accounts h :
  ~ In name (map fst accounts) ->
  any_named name (map account accounts) h = (Returned false, h).
Proof.
  induction accounts as [| [n extra] accounts IH]; simpl; intros H.
  - reflexivity.
  - unfold bind, getattr. simpl.
    destruct (String.eqb_spec n name) as [-> | Hn]; [tauto |].
    apply IH. tauto.
Qed.

Lemma any_named_present name accounts h :
  In name (map fst accounts) ->
  any_named name (map account accounts) h = (Returned true, h).
Proof.
  induction accounts as [| [n extra] accounts IH]; simpl; intros H.
  - contradiction.
  - unfold bind, getattr. simpl.
    destruct (String.eqb_spec n name) as [-> | Hn]; [reflexivity |].
    apply IH. destruct H; [contradiction | assumption].
Qed.

(** C10: when the account is not among those listed for the resource group
    and is among those listed for the subscription, [storage_account_exists]
    raises a [NameError]: the message of the warning reads [account], the
    variable of the generator expression, which the function's scope and
    the module do not bind.  The run ends with the second listing; no
    warning is emitted and [True] is not returned. *)
Theorem storage_account_exists_raises_name_error
    (w : world) (name subscription resource_group : string) (h h1 : history)
    (here everywhere : list (string * list (string * json)))
    (Hclient : storage_management_client w (module_of w) (PStr subscription) h
               = (Returned tt, h1))
    (Hhere : answer w h1
               (EvSdk "storage_accounts.list_by_resource_group"
                  [PStr resource_group])
             = inr (JList (map account here)))
    (Habsent : ~ In name (map fst here))
    (Heverywhere :
       answer w
         (h1 ++ [EvSdk "storage_accounts.list_by_resource_group"
                   [PStr resource_group]])
         (EvSdk "storage_accounts.list" [])
       = inr (JList (map account everywhere)))
    (Hpresent : In name (map fst everywhere)) :
  storage_account_exists w (module_of w) name subscription resource_group h
  = (Raised (Exn NameError "name 'account' is not defined" None),
     h1 ++ [EvSdk "storage_accounts.list_by_resource_group" [PStr resource_group];
            EvSdk "storage_accounts.list" []]).
Proof.
  unfold storage_account_exists.
  unfold bind at 1. rewrite Hclient.
  unfold bind at 1, perform at 1. rewrite Hhere.
  unfold bind at 1, iterate at 1, ret at 1.
  unfold bind at 1. rewrite (any_named_absent _ _ _ Habsent).
  unfold bind at 1, perform at 1. rewrite Heverywhere.
  unfold bind at 1, iterate at 1, ret at 1.
  unfold bind at 1. rewrite (any_named_present _ _ _ Hpresent).
  assert (U : module_of w "account" = None)
    by (apply unbound_in_module; simpl; tauto).
  unfold bind at 1, load_global. rewrite U.
  unfold raise. rewrite <- app_assoc. reflexivity.
Qed.

(** The theorem at work: [account] lives in resource group [rg] and is
    looked for in resource group [other]. *)
Lemma storage_account_exists_raises_name_error_witness :
  let w := elsewhere_world in
  storage_account_exists w (module_of w) "account" "sub" "other" []
  = (Raised (Exn NameError "name 'account' is not defined" None),
     snd (storage_management_client w (module_of w) (PStr "sub") [])
     ++ [EvSdk "storage_accounts.list_by_resource_group" [PStr "other"];
         EvSdk "storage_accounts.list" []])
  /\ count_events is_warning
       (snd (storage_account_exists w (module_of w) "account" "sub" "other" []))
     = 0.
Proof.
  intros w. split; [| reflexivity].
  apply (@storage_account_exists_raises_name_error w "account" "sub" "other" []
           (snd (storage_management_client w (module_of w) (PStr "sub") []))
           [("logs", [])]
           [("logs", []); ("account", [("resourceGroup", JStr "rg")])]).
  - reflexivity.
  - reflexivity.
  - simpl. intros [H | []]. discriminate.
  - reflexivity.
  - simpl. auto.
Defined.

(** ** Reply URLs *)

(** One call of [add_reply_url], in any world: the document it patches the
    application with is the one it read, with the URL appended unless it was
    there. *)
Lemma add_reply_url_run (w : world) (G : namespace)
    (app_registration_id object_id data v : json) (reply_url : string)
    (fields : list (string * json)) (items : list json) (h h1 h2 h3 : history) :
  _object_id_from_app_id w G app_registration_id h = (Returned object_id, h1) ->
  request w G GET (fstr [GRAPH_BASE_URL; "/v1.0/applications/"; py_str object_id])
    None h1
  = (Returned data, h2) ->
  getitem data "web" h2 = (Returned (JDict fields), h2) ->
  assoc "redirectUris" fields = Some (JList items) ->
  request w G PATCH (fstr [GRAPH_BASE_URL; "/v1.0/applications/"; py_str object_id])
    (Some (JDict [("web", with_reply_url reply_url fields items)])) h2
  = (Returned v, h3) ->
  add_reply_url w G app_registration_id reply_url h = (Returned tt, h3).
Proof.
  intros H1 H2 Hweb Huris H3. unfold add_reply_url.
  unfold bind at 1. rewrite H1.
  unfold bind at 1. rewrite H2.
  unfold bind at 1. rewrite Hweb.
  unfold bind at 1, getitem at 1. rewrite Huris. unfold ret at 1.
  unfold bind at 1, py_in at 1, ret at 1.
  unfold with_reply_url in H3.
  destruct (str_in reply_url items); cbn [negb].
  - unfold bind at 1, ret at 1. unfold bind. rewrite H3. reflexivity.
  - unfold bind at 1. unfold bind at 1, getitem at 1. rewrite Huris.
    unfold ret at 1, ret at 1. unfold bind. rewrite H3. reflexivity.
Qed.

Section GraphWorld.

Variables app_id object_id : string.
Variable initial : json.

Let w := graph_world app_id object_id initial.
Let G := module_of w.

Lemma graph_world_headers h :
  _graph_headers w G h = (Returned graph_headers, h ++ [EvGetToken GRAPH_BASE_URL]).
Proof. reflexivity. Qed.

Lemma graph_world_object_id h :
  _object_id_from_app_id w G (JStr app_id) h
  = (Returned (JStr object_id),
     h ++ [EvGetToken GRAPH_BASE_URL;
           EvHttp GET
             (fstr [GRAPH_BASE_URL; "/v1.0/";
                    fstr ["applications?$filter=appID eq '"; app_id; "'"]])
             None graph_headers]).
Proof.
  unfold _object_id_from_app_id, request.
  unfold bind at 1. unfold bind at 1. rewrite graph_world_headers.
  unfold perform. cbn [answer w graph_world graph_answer].
  replace (String.eqb _ (application_url object_id)) with false by reflexivity.
  cbn. rewrite <- app_assoc. reflexivity.
Qed.

Lemma stored_web_app h ev :
  stored_web object_id initial (h ++ ev)
  = fold_left (patched object_id) ev (stored_web object_id initial h).
Proof. unfold stored_web. apply fold_left_app. Qed.

Lemma graph_world_get h :
  request w G GET (application_url object_id) None h
  = (Returned (JDict [("id", JStr object_id); ("appId", JStr app_id);
                      ("web", stored_web object_id initial h)]),
     h ++ [EvGetToken GRAPH_BASE_URL;
           EvHttp GET (application_url object_id) None graph_headers]).
Proof.
  unfold request. unfold bind. rewrite graph_world_headers.
  unfold perform. cbn [answer w graph_world graph_answer].
  rewrite String.eqb_refl, stored_web_app. cbn [fold_left patched].
  rewrite <- app_assoc. reflexivity.
Qed.

Lemma graph_world_patch h body :
  request w G PATCH (application_url object_id) (Some body) h
  = (Returned JNull,
     h ++ [EvGetToken GRAPH_BASE_URL;
           EvHttp PATCH (application_url object_id) (Some body) graph_headers]).
Proof.
  unfold request. unfold bind. rewrite graph_world_headers.
  unfold perform. cbn [answer w graph_world graph_answer].
  rewrite <- app_assoc. reflexivity.
Qed.

(** One call against the stub: it returns, and the stub then stores the
    document of [with_reply_url]. *)
Lemma graph_world_add_reply_url reply_url h fields items :
  stored_web object_id initial h = JDict fields ->
  assoc "redirectUris" fields = Some (JList items) ->
  exists h',
    add_reply_url w G (JStr app_id) reply_url h = (Returned tt, h')
    /\ stored_web object_id initial h' = with_reply_url reply_url fields items.
Proof.
  intros Hweb Huris. eexists. split.
  - eapply add_reply_url_run with (fields := fields) (items := items).
    + apply graph_world_object_id.
    + apply graph_world_get.
    + rewrite stored_web_app. cbn [fold_left patched]. rewrite Hweb. reflexivity.
    + exact Huris.
    + apply graph_world_patch.
  - rewrite !stored_web_app. cbn [fold_left patched assoc].
    rewrite String.eqb_refl. reflexivity.
Qed.

End GraphWorld.

Lemma assoc_set_same k v fields : assoc k (assoc_set k v fields) = Some v.
Proof.
  induction fields as [| [k' v'] fields IH]; simpl.
  - now rewrite String.eqb_refl.
  - destruct (String.eqb k k') eqn:E; simpl; rewrite E; [reflexivity | exact IH].
Qed.

Lemma strings_app items uris s :
  strings items = Some uris -> strings (items ++ [JStr s]) = Some (uris ++ [s]).
Proof.
  revert uris. induction items as [| [] items IH]; simpl; intros uris H;
    try discriminate.
  - inversion H. reflexivity.
  - destruct (strings items) as [l |]; [| discriminate].
    inversion H. now rewrite (@IH l eq_refl).
Qed.

Lemma str_in_strings s items uris :
  strings items = Some uris ->
  str_in s items = true <-> In s uris.
Proof.
  revert uris. induction items as [| [] items IH]; simpl; intros uris H;
    try discriminate.
  - inversion H. simpl. split; [discriminate | contradiction].
  - destruct (strings items) as [l |]; [| discriminate].
    inversion H; subst uris. simpl.
    rewrite orb_true_iff, (@IH l eq_refl).
    destruct (String.eqb_spec s0 s); intuition congruence.
Qed.

(** What [with_reply_url] does to a set of URIs: the URL is in it once. *)
Lemma with_reply_url_once reply_url fields items uris :
  assoc "redirectUris" fields = Some (JList items) ->
  strings items = Some uris ->
  NoDup uris ->
  exists fields' items' uris',
    with_reply_url reply_url fields items = JDict fields'
    /\ assoc "redirectUris" fields' = Some (JList items')
    /\ strings items' = Some uris'
    /\ str_in reply_url items' = true
    /\ count_occ string_dec uris' reply_url = 1.
Proof.
  intros Hfields Hitems Hset. unfold with_reply_url.
  destruct (str_in reply_url items) eqn:E.
  - exists fields, items, uris. repeat split; auto.
    apply NoDup_count_occ'; [exact Hset |].
    now apply (@str_in_strings reply_url items uris).
  - exists (assoc_set "redirectUris" (JList (items ++ [JStr reply_url])) fields),
      (items ++ [JStr reply_url]), (uris ++ [reply_url]).
    repeat split.
    + apply assoc_set_same.
    + now apply strings_app.
    + apply (@str_in_strings reply_url _ (uris ++ [reply_url]));
        [now apply strings_app | apply in_or_app; simpl; auto].
    + rewrite count_occ_app. simpl.
      destruct (string_dec reply_url reply_url); [| congruence].
      rewrite (proj1 (count_occ_not_In string_dec uris reply_url)); [reflexivity |].
      intros Hin. apply (@str_in_strings reply_url items uris Hitems) in Hin.
      congruence.
Qed.

(** C6: against a Graph API that keeps the document it is patched with,
    calling [add_reply_url] twice with the same URL leaves the URL exactly
    once in the stored set of redirect URIs; the second call stores what the
    first one stored, the URL is not appended again. *)
Theorem add_reply_url_idempotent
    (app_id object_id reply_url : string) (initial : json) (h : history)
    (uris : list string)
    (Hstored : redirect_uris (stored_web object_id initial h) = Some uris)
    (Hset : NoDup uris) :
  let w := graph_world app_id object_id initial in
  let first := add_reply_url w (module_of w) (JStr app_id) reply_url h in
  let second :=
    add_reply_url w (module_of w) (JStr app_id) reply_url (snd first) in
  fst first = Returned tt
  /\ fst second = Returned tt
  /\ stored_web object_id initial (snd second)
     = stored_web object_id initial (snd first)
  /\ exists uris',
       redirect_uris (stored_web object_id initial (snd second)) = Some uris'
       /\ count_occ string_dec uris' reply_url = 1.
Proof.
  intros w first second.
  unfold redirect_uris in Hstored.
  destruct (stored_web object_id initial h) as [| | | | | fields] eqn:Hweb;
    try discriminate.
  destruct (assoc "redirectUris" fields) as [[| | | | items |] |] eqn:Hfields;
    try discriminate.
  destruct (graph_world_add_reply_url app_id object_id initial reply_url h
              Hweb Hfields) as (h1 & E1 & S1).
  destruct (with_reply_url_once reply_url fields Hfields Hstored Hset)
    as (fields' & items' & uris' & W & Hfields' & Hitems' & Hin & Hcount).
  rewrite W in S1.
  destruct (graph_world_add_reply_url app_id object_id initial reply_url h1
              S1 Hfields') as (h2 & E2 & S2).
  unfold with_reply_url in S2. rewrite Hin in S2.
  subst first second w. rewrite E1. cbn [fst snd]. rewrite E2. cbn [fst snd].
  repeat split.
  - now rewrite S1, S2.
  - exists uris'. split; [| exact Hcount].
    rewrite S2. unfold redirect_uris. now rewrite Hfields'.
Qed.

(** The theorem at work: an application with one redirect URI gets a
    second one, once. *)
Lemma add_reply_url_idempotent_witness :
  let initial := JDict [("redirectUris", JList [JStr "https://a.example"])] in
  let w := graph_world "app-1" "object-1" initial in
  let first :=
    add_reply_url w (module_of w) (JStr "app-1") "https://b.example" [] in
  let second :=
    add_reply_url w (module_of w) (JStr "app-1") "https://b.example" (snd first) in
  fst first = Returned tt
  /\ fst second = Returned tt
  /\ stored_web "object-1" initial (snd second)
     = stored_web "object-1" initial (snd first)
  /\ exists uris',
       redirect_uris (stored_web "object-1" initial (snd second)) = Some uris'
       /\ count_occ string_dec uris' "https://b.example" = 1.
Proof.
  intros initial.
  apply (@add_reply_url_idempotent "app-1" "object-1" "https://b.example"
           initial [] ["https://a.example"]).
  - reflexivity.
  - constructor; [simpl; tauto | constructor].
Defined.

(** ** Secrets *)

(** [365.242 * 100] in binary64 is one unit in the last place above 36524.2;
    as a [timedelta] it is 36524 days and 17280 seconds to the microsecond. *)
Lemma hundred_years :
  timedelta_days (365.242 * float_of_int 100)%float = inr 3155690880000000%Z.
Proof. vm_compute. reflexivity. Qed.

(** C8, where the code departs from it: the Graph API answers the
    [addPassword] request with an error document, and [create_secret]
    returns no string: it raises the [KeyError] of the subscript. *)
Lemma create_secret_raises_on_error_answer :
  let w := unanswered_secret_world in
  fst (create_secret w (module_of w) (JStr "app-1") "cli secret" 100 [])
  = Raised (Exn KeyError "'secretText'" None).
Proof. vm_compute. reflexivity. Qed.

(** C8, as the code has it.  The one request that
    [create_secret app_id "cli secret" 100] posts asks for an expiry that is
    the current time plus 100 * 365.242 days, to the microsecond (the
    tolerance below is one microsecond, in thousandths).  What the function
    returns is the [secretText] of the answer, as it is: it is a non-empty
    string when the answer's is, and when the answer has no [secretText]
    the function raises a [KeyError]. *)
Theorem create_secret_expires_in_hundred_years
    (w : world) (G : namespace) (app_id object_id : json)
    (now : datetime) (headers : list (string * string))
    (fields : list (string * json)) (h h1 h2 : history)
    (Hobject : _object_id_from_app_id w G app_id h = (Returned object_id, h1))
    (Hnow : answer w h1 EvNow = inr (JInt now))
    (Hrange : (0 <= now <= datetime_max - 3155690880000000)%Z)
    (Hheaders : _graph_headers w G (h1 ++ [EvNow]) = (Returned headers, h2))
    (Hanswer : forall body,
        answer w h2
          (EvHttp POST
             (fstr [GRAPH_BASE_URL; "/v1.0/applications/"; py_str object_id;
                    "/addPassword"])
             (Some body) headers)
        = inr (JDict fields)) :
  exists end_datetime : datetime,
    create_secret w G app_id "cli secret" 100 h
    = (match assoc "secretText" fields with
       | Some secret => Returned secret
       | None => Raised (Exn KeyError "'secretText'" None)
       end,
       h2 ++ [EvHttp POST
                (fstr [GRAPH_BASE_URL; "/v1.0/applications/"; py_str object_id;
                       "/addPassword"])
                (Some (secret_request "cli secret" (isoformat w end_datetime)))
                headers])
    /\ (Z.abs (1000 * (end_datetime - now) - 100 * 365242 * 86400000000)
        <= 1000)%Z.
Proof.
  exists (now + 3155690880000000)%Z. split; [| lia].
  unfold create_secret.
  unfold bind at 1. rewrite Hobject.
  unfold bind at 1, datetime_now, bind at 1, perform. rewrite Hnow.
  unfold ret at 1. cbv beta iota.
  unfold bind at 1, datetime_add_days. rewrite hundred_years. cbv beta iota.
  assert (Hok : (0 <=? now + 3155690880000000)%Z
                && (now + 3155690880000000 <=? datetime_max)%Z = true)
    by (apply andb_true_intro; split; apply Z.leb_le; lia).
  rewrite Hok. unfold ret at 1.
  unfold bind at 1, request, bind at 1. rewrite Hheaders.
  unfold perform. fold (secret_request "cli secret"
                          (isoformat w (now + 3155690880000000)%Z)).
  rewrite Hanswer. unfold getitem.
  destruct (assoc "secretText" fields); reflexivity.
Qed.

(** The theorem at work, in [secret_world]. *)
Lemma create_secret_expires_in_hundred_years_witness :
  let w := secret_world in
  let G := module_of w in
  let h1 := snd (_object_id_from_app_id w G (JStr "app-1") []) in
  let h2 := snd (_graph_headers w G (h1 ++ [EvNow])) in
  exists end_datetime : datetime,
    create_secret w G (JStr "app-1") "cli secret" 100 []
    = (Returned (JStr "s3cr3t~value"),
       h2 ++ [EvHttp POST
                (fstr [GRAPH_BASE_URL; "/v1.0/applications/";
                       py_str (JStr "object-1"); "/addPassword"])
                (Some (secret_request "cli secret" (isoformat w end_datetime)))
                graph_headers])
    /\ (Z.abs (1000 * (end_datetime - 63929304000000000)
               - 100 * 365242 * 86400000000)
        <= 1000)%Z.
Proof.
  intros w G h1 h2.
  apply (@create_secret_expires_in_hundred_years w G (JStr "app-1")
           (JStr "object-1") 63929304000000000%Z graph_headers
           [("secretText", JStr "s3cr3t~value")] [] h1 h2).
  - reflexivity.
  - reflexivity.
  - unfold datetime_max. lia.
  - reflexivity.
  - reflexivity.
Defined.

(** ** The files of a folder *)

Lemma node_induction (P : node -> Prop) :
  P File ->
  (forall entries, Forall (fun entry => P (snd entry)) entries -> P (Dir entries)) ->
  forall n, P n.
Proof.
  intros HF HD. fix IH 1. intros [| entries]; [exact HF |].
  apply HD. induction entries as [| [name child] entries IHentries];
    constructor; [apply IH | exact IHentries].
Qed.

Lemma iterate_directories_prefix n : forall p q,
  iterate_directories (p ++ q) n
  = map (fun d => (p ++ fst d, snd d)) (iterate_directories q n).
Proof.
  induction n as [| entries IH] using node_induction; intros p q; simpl.
  - reflexivity.
  - f_equal. induction IH as [| entry entries Hentry _ IHentries]; simpl.
    + reflexivity.
    + rewrite map_app. f_equal; [| exact IHentries].
      rewrite <- app_assoc. apply Hentry.
Qed.

Lemma entries_below_prefix n p q :
  entries_below (p ++ q) n = map (app p) (entries_below q n).
Proof.
  unfold entries_below. rewrite iterate_directories_prefix.
  induction (iterate_directories q n) as [| d ds IH]; simpl.
  - reflexivity.
  - rewrite map_app, IH, map_map. f_equal.
    apply map_ext. intros entry. simpl. now rewrite app_assoc.
Qed.

Lemma entries_below_dir entries :
  entries_below [] (Dir entries)
  = map (fun entry => [fst entry]) entries
    ++ flat_map (fun entry =>
                   map (cons (fst entry)) (entries_below [] (snd entry)))
                entries.
Proof.
  unfold entries_below at 1. simpl. f_equal.
  induction entries as [| entry entries IH]; simpl.
  - reflexivity.
  - rewrite flat_map_app. f_equal; [| exact IH].
    exact (entries_below_prefix (snd entry) [fst entry] []).
Qed.

Lemma lookup_app fs p q :
  lookup fs (p ++ q)
  = match lookup fs p with
    | Some n => lookup n q
    | None => None
    end.
Proof.
  revert fs. induction p as [| name p IH]; intros fs; simpl.
  - reflexivity.
  - destruct fs as [| entries]; [reflexivity |].
    destruct (entry_named name entries); [apply IH | reflexivity].
Qed.

Lemma relative_to_app folder relative :
  relative_to (folder ++ relative) folder = Some relative.
Proof.
  induction folder as [| name folder IH]; simpl.
  - now destruct relative.
  - now rewrite String.eqb_refl.
Qed.

Lemma distinct_not_in name names :
  existsb (String.eqb name) names = false -> ~ In name names.
Proof.
  intros H Hin. assert (existsb (String.eqb name) names = true); [| congruence].
  apply existsb_exists. exists name. split; [exact Hin | apply String.eqb_refl].
Qed.

(** In a directory of distinct names, a name resolves to its entry. *)
Lemma entry_named_in name child entries :
  distinct (map fst entries) = true ->
  In (name, child) entries ->
  entry_named name entries = Some child.
Proof.
  induction entries as [| [name' child'] entries IH]; simpl; intros Hd Hin.
  - contradiction.
  - apply andb_prop in Hd. destruct Hd as [Hfresh Hd].
    destruct Hin as [Hin | Hin].
    + inversion Hin; subst. now rewrite String.eqb_refl.
    + destruct (String.eqb_spec name name') as [-> | _]; [| now apply IH].
      exfalso. apply negb_true_iff in Hfresh.
      apply (@distinct_not_in name' (map fst entries) Hfresh).
      apply (in_map fst) in Hin. exact Hin.
Qed.

Lemma filter_below name child entries (paths : list path) :
  entry_named name entries = Some child ->
  filter (is_file (Dir entries)) (map (cons name) paths)
  = map (cons name) (filter (is_file child) paths).
Proof.
  intros H. induction paths as [| p paths IH]; simpl; [reflexivity |].
  unfold is_file at 1. simpl. rewrite H. fold (is_file child p).
  destruct (is_file child p); simpl; now rewrite IH.
Qed.

(** The files that [rglob] and [is_file] select below a folder are the
    files below it. *)
Lemma selected_files n :
  distinct_names n = true ->
  Permutation (filter (is_file n) (entries_below [] n)) (files_below n).
Proof.
  induction n as [| entries IH] using node_induction; intros Hd.
  - constructor.
  - simpl in Hd. apply andb_prop in Hd. destruct Hd as [Hnames Hchildren].
    rewrite entries_below_dir, filter_app. simpl.
    assert (Hsuffix : forall l, incl l entries ->
      Permutation
        (filter (is_file (Dir entries)) (map (fun entry => [fst entry]) l)
         ++ filter (is_file (Dir entries))
              (flat_map (fun entry =>
                           map (cons (fst entry)) (entries_below [] (snd entry)))
                        l))
        (flat_map (fun entry => map (cons (fst entry)) (relative_files (snd entry)))
                  l)).
    { induction l as [| [name child] l IHl]; intros Hincl.
      - constructor.
      - assert (Hin : In (name, child) entries) by (apply Hincl; simpl; auto).
        assert (Hentry := @entry_named_in name child entries Hnames Hin).
        assert (Hl : incl l entries)
          by (intros e He; apply Hincl; simpl; auto).
        specialize (IHl Hl).
        cbn [map flat_map fst snd filter]. rewrite filter_app.
        rewrite (@filter_below name child entries _ Hentry).
        unfold is_file at 1. cbn [lookup]. rewrite Hentry. cbn [lookup].
        destruct child as [| sub].
        + simpl. constructor. exact IHl.
        + rewrite Forall_forall in IH.
          assert (Hsub : Permutation
                           (filter (is_file (Dir sub)) (entries_below [] (Dir sub)))
                           (relative_files (Dir sub))).
          { apply (IH (name, Dir sub) Hin).
            rewrite forallb_forall in Hchildren.
            apply (Hchildren (name, Dir sub) Hin). }
          rewrite Permutation_app_swap_app.
          apply Permutation_app; [now apply Permutation_map | exact IHl]. }
    apply Hsuffix. apply incl_refl.
Qed.

Lemma count_relative_files n : length (relative_files n) = count_files n.
Proof.
  induction n as [| entries IH] using node_induction; simpl.
  - reflexivity.
  - induction IH as [| entry entries Hentry _ IHentries]; simpl.
    + reflexivity.
    + rewrite length_app, length_map. f_equal; [exact Hentry | exact IHentries].
Qed.

Lemma is_file_under fs folder tree relative :
  lookup fs folder = Some tree ->
  is_file fs (folder ++ relative) = is_file tree relative.
Proof. intros H. unfold is_file. now rewrite lookup_app, H. Qed.

Lemma filter_under fs folder tree (paths : list path) :
  lookup fs folder = Some tree ->
  filter (is_file fs) (map (app folder) paths)
  = map (app folder) (filter (is_file tree) paths).
Proof.
  intros H. induction paths as [| p paths IH]; simpl; [reflexivity |].
  rewrite (@is_file_under fs folder tree p H).
  destruct (is_file tree p); simpl; now rewrite IH.
Qed.

Section UploadBatch.

Variable w : world.
Variable G : namespace.
Variables connection container_name : string.
Variable source_folder : path.

Hypothesis uploads_succeed :
  forall h e, is_upload e = true -> exists v, answer w h e = inr v.

Lemma for_each_uploads (selected : list path) : forall h,
  (forall relative, In relative selected ->
                    is_file (root w) (source_folder ++ relative) = true) ->
  for_each (map (app source_folder) selected)
           (_upload_file w connection container_name source_folder) h
  = (Returned tt,
     h ++ map (upload_of connection container_name source_folder) selected).
Proof.
  induction selected as [| relative selected IH]; intros h Hfiles; simpl.
  - now rewrite app_nil_r.
  - unfold bind at 1, _upload_file, bind at 1, open_rb.
    rewrite (Hfiles relative) by (simpl; auto). unfold ret at 1.
    rewrite relative_to_app. unfold bind at 1, perform.
    fold (upload_of connection container_name source_folder relative).
    destruct (uploads_succeed h
                (upload_of connection container_name source_folder relative)
                eq_refl) as (v & ->).
    unfold ret at 1. rewrite IH by (intros r Hr; apply Hfiles; simpl; auto).
    now rewrite <- app_assoc.
Qed.

End UploadBatch.

Lemma blob_names_uploads connection container_name source_folder selected :
  blob_names (map (upload_of connection container_name source_folder) selected)
  = map as_posix selected.
Proof.
  induction selected as [| relative selected IH]; simpl; [reflexivity |].
  now rewrite IH.
Qed.

Lemma uploaded_files_uploads connection container_name source_folder selected :
  uploaded_files
    (map (upload_of connection container_name source_folder) selected)
  = map (app source_folder) selected.
Proof.
  induction selected as [| relative selected IH]; simpl; [reflexivity |].
  now rewrite IH.
Qed.

Lemma forallb_uploads connection container_name source_folder selected :
  forallb is_upload
    (map (upload_of connection container_name source_folder) selected)
  = true.
Proof. induction selected; simpl; auto. Qed.

(** C5: when the source folder is a directory of [N] files, nested at any
    depth, one batch that reaches the container uploads [N] blobs and
    nothing else: the files uploaded are those [N] files, and the names of
    the blobs are, up to their order, the POSIX relative paths of the files
    with respect to the folder. *)
Theorem upload_batch_uploads_the_files
    (w : world) (G : namespace) (subscription resource_group : pyobj)
    (storage_name container_name connection : string) (source_folder : path)
    (entries : list (string * node)) (h h1 : history)
    (Hfolder : lookup (root w) source_folder = Some (Dir entries))
    (Hnames : distinct_names (Dir entries) = true)
    (Himports : forallb (has_module w) (batch_imports w) = true)
    (Hconnection : _connection_string w G subscription resource_group
                     storage_name h
                   = (Returned connection, h1))
    (Huploads : forall h' e, is_upload e = true ->
                             exists v, answer w h' e = inr v) :
  exists ev,
    _upload_batch w G subscription resource_group storage_name container_name
      source_folder h
    = (Returned tt, h1 ++ ev)
    /\ forallb is_upload ev = true
    /\ length ev = count_files (Dir entries)
    /\ Permutation (uploaded_files ev)
                   (map (app source_folder) (relative_files (Dir entries)))
    /\ Permutation (blob_names ev)
                   (map as_posix (relative_files (Dir entries))).
Proof.
  set (tree := Dir entries) in *.
  set (selected := filter (is_file tree) (entries_below [] tree)).
  assert (Hselected : Permutation selected (relative_files tree))
    by (apply (selected_files tree Hnames)).
  assert (Hpaths : filter (is_file (root w)) (rglob (root w) source_folder)
                   = map (app source_folder) selected).
  { unfold rglob. rewrite Hfolder.
    rewrite <- (app_nil_r source_folder) at 1.
    rewrite entries_below_prefix. now apply filter_under. }
  assert (Hfiles : forall relative, In relative selected ->
                     is_file (root w) (source_folder ++ relative) = true).
  { intros relative Hin. apply filter_In in Hin. destruct Hin as [_ Hfile].
    now rewrite (@is_file_under (root w) source_folder tree relative Hfolder). }
  exists (map (upload_of connection container_name source_folder) selected).
  split; [| split; [| split; [| split]]].
  - unfold _upload_batch, batch_imports in *. rewrite Hpaths.
    destruct (python37 w); simpl in Himports;
      repeat (apply andb_prop in Himports; destruct Himports as [? Himports]);
      unfold bind at 1, import_module;
      match goal with H : has_module w _ = true |- _ => rewrite H; clear H end;
      unfold ret at 1; unfold bind at 1;
      match goal with H : has_module w _ = true |- _ => rewrite H; clear H end;
      unfold ret at 1; unfold bind at 1; rewrite Hconnection;
      now apply for_each_uploads.
  - apply forallb_uploads.
  - rewrite length_map, (Permutation_length Hselected).
    apply count_relative_files.
  - rewrite uploaded_files_uploads. now apply Permutation_map.
  - rewrite blob_names_uploads. now apply Permutation_map.
Qed.

(** The theorem at work: the four files of the site in [site_world]. *)
Lemma upload_batch_uploads_the_files_witness :
  let w := site_world in
  let G := module_of w in
  let h1 := snd (_connection_string w G (PStr "sub") (PStr "rg") "account" []) in
  exists ev,
    _upload_batch w G (PStr "sub") (PStr "rg") "account" "container"
      ["home"; "build"] []
    = (Returned tt, h1 ++ ev)
    /\ forallb is_upload ev = true
    /\ length ev = 4
    /\ Permutation (uploaded_files ev)
                   [["home"; "build"; "index.html"];
                    ["home"; "build"; "assets"; "app.js"];
                    ["home"; "build"; "assets"; "img"; "logo.png"];
                    ["home"; "build"; "robots.txt"]]
    /\ Permutation (blob_names ev)
                   ["index.html"; "assets/app.js"; "assets/img/logo.png";
                    "robots.txt"].
Proof.
  intros w G h1.
  apply (@upload_batch_uploads_the_files w G (PStr "sub") (PStr "rg") "account"
           "container"
           "DefaultEndpointsProtocol=https;AccountName=account;AccountKey=key"
           ["home"; "build"]
           [("index.html", File);
            ("assets", Dir [("app.js", File);
                            ("img", Dir [("logo.png", File)]);
                            ("empty", Dir [])]);
            ("robots.txt", File)]
           [] h1).
  - reflexivity.
  - reflexivity.
  - reflexivity.
  - reflexivity.
  - intros h' [] H; try discriminate H; eexists; reflexivity.
Defined.

(** * Further properties of the module *)

(** ** Stepping through a run *)

Lemma bind_returns {A B} (m : M A) (k : A -> M B) h a h' :
  m h = (Returned a, h') -> bind m k h = k a h'.
Proof. intros H. unfold bind. now rewrite H. Qed.

Lemma bind_raises {A B} (m : M A) (k : A -> M B) h e h' :
  m h = (Raised e, h') -> bind m k h = (Raised e, h').
Proof. intros H. unfold bind. now rewrite H. Qed.

Lemma perform_answered w h e v :
  answer w h e = inr v -> perform w e h = (Returned v, h ++ [e]).
Proof. intros H. unfold perform. now rewrite H. Qed.

Lemma perform_refused w h e x :
  answer w h e = inl x -> perform w e h = (Raised x, h ++ [e]).
Proof. intros H. unfold perform. now rewrite H. Qed.

(** ** The SDK classes, when they are bound *)

Lemma sdk_ready_bound G name :
  sdk_ready G = true ->
  In name (map snd sdk_imports) ->
  exists v, G name = Some v
            /\ callable v = ret tt
            /\ forall a, attribute v a = ret tt.
Proof.
  unfold sdk_ready. rewrite forallb_forall. intros H Hin.
  specialize (H name Hin).
  destruct (G name) as [[] |]; try discriminate; eexists; eauto.
Qed.

Lemma construct_ready G name h :
  sdk_ready G = true ->
  In name (map snd sdk_imports) ->
  exists v, load_global G name h = (Returned v, h)
            /\ callable v = ret tt
            /\ forall a, attribute v a = ret tt.
Proof.
  intros H Hin. destruct (@sdk_ready_bound G name H Hin) as (v & E & Hc & Ha).
  exists v. unfold load_global. rewrite E. auto.
Qed.

Lemma credential_ready G h :
  sdk_ready G = true -> _credential G h = (Returned tt, h).
Proof.
  intros H.
  destruct (@construct_ready G "AzureCliCredential" h H) as (v & E & Hc & _);
    [simpl; tauto |].
  unfold _credential. rewrite (@bind_returns _ _ _ _ _ _ _ E), Hc. reflexivity.
Qed.

(** The module's own namespace is ready when the five packages are found. *)
Lemma module_ready found :
  forallb found (map fst sdk_imports) = true ->
  sdk_ready (module_namespace found) = true.
Proof.
  simpl. intros H.
  repeat (apply andb_prop in H; destruct H as [? H]).
  unfold sdk_ready, module_namespace, module_bindings, sdk_imports.
  cbn [import_all].
  repeat match goal with E : found _ = true |- _ => rewrite E; clear E end.
  reflexivity.
Qed.

(** ** Resolving a subscription *)

Section Subscriptions.

Variable w : world.
Variable G : namespace.
Hypothesis ready : sdk_ready G = true.

Variable subs : list (string * string).
Variable h : history.
Hypothesis listed :
  answer w h (EvSdk "subscriptions.list" [])
  = inr (JList (map subscription_record subs)).

Lemma find_subscription_first name : forall l h',
  find_subscription (PStr name) (map subscription_record l) h'
  = (match first_id name l with
     | Some id => Returned (JStr id)
     | None =>
         Raised (Exn ValueError
                   (fstr ["Could not find a subscription with name "; name])
                   None)
     end, h').
Proof.
  induction l as [| [display_name id] l IH]; intros h'; simpl.
  - reflexivity.
  - unfold bind, getattr. simpl.
    destruct (String.eqb display_name name); [reflexivity | apply IH].
Qed.

Lemma subscription_id_run name :
  _subscription_id w G (PStr name) h
  = (match first_id name subs with
     | Some id => Returned (JStr id)
     | None =>
         Raised (Exn ValueError
                   (fstr ["Could not find a subscription with name "; name])
                   None)
     end, h ++ [EvSdk "subscriptions.list" []]).
Proof.
  destruct (@construct_ready G "SubscriptionClient" h ready) as (v & E & Hc & _);
    [simpl; tauto |].
  unfold _subscription_id.
  rewrite (@bind_returns _ _ _ _ _ _ _ E).
  rewrite (@bind_returns _ _ _ _ _ _ _ (@credential_ready G h ready)).
  rewrite Hc. unfold bind at 1, ret at 1.
  rewrite (@bind_returns _ _ _ _ _ _ _ (@perform_answered w h _ _ listed)).
  unfold bind at 1, iterate, ret at 1.
  apply find_subscription_first.
Qed.

Lemma default_subscription_run :
  _subscription_id w G PNone h
  = (match subs with
     | [] => Raised (Exn StopIteration EmptyString None)
     | first :: _ => Returned (JStr (snd first))
     end, h ++ [EvSdk "subscriptions.list" []]).
Proof.
  destruct (@construct_ready G "SubscriptionClient" h ready) as (v & E & Hc & _);
    [simpl; tauto |].
  unfold _subscription_id.
  rewrite (@bind_returns _ _ _ _ _ _ _ E).
  rewrite (@bind_returns _ _ _ _ _ _ _ (@credential_ready G h ready)).
  rewrite Hc. unfold bind at 1, ret at 1.
  rewrite (@bind_returns _ _ _ _ _ _ _ (@perform_answered w h _ _ listed)).
  unfold bind at 1, iterate, ret at 1.
  destruct subs as [| [display_name id] rest]; reflexivity.
Qed.

End Subscriptions.

Lemma first_id_listed name id before after :
  ~ In name (map fst before) ->
  first_id name (before ++ (name, id) :: after) = Some id.
Proof.
  induction before as [| [n i] before IH]; simpl; intros H.
  - now rewrite String.eqb_refl.
  - destruct (String.eqb_spec n name) as [-> | _]; [tauto |].
    apply IH. tauto.
Qed.

Lemma first_id_unlisted name subs :
  ~ In name (map fst subs) -> first_id name subs = None.
Proof.
  induction subs as [| [n i] subs IH]; simpl; intros H; [reflexivity |].
  destruct (String.eqb_spec n name) as [-> | _]; [tauto |].
  apply IH. tauto.
Qed.

Lemma attributes_display_name subs h :
  attributes "display_name" (map subscription_record subs) h
  = (Returned (map JStr (map fst subs)), h).
Proof.
  induction subs as [| [n i] subs IH]; simpl; [reflexivity |].
  unfold bind at 1, getattr. simpl. unfold bind. rewrite IH. reflexivity.
Qed.

Lemma attributes_name entries h :
  attributes "name" (map account entries) h
  = (Returned (map JStr (map fst entries)), h).
Proof.
  induction entries as [| [n extra] entries IH]; simpl; [reflexivity |].
  unfold bind at 1, getattr. simpl. unfold bind. rewrite IH. reflexivity.
Qed.

(** ** The session *)

Lemma installed_when_all_found found :
  azure_cli_installed found = forallb found (map fst sdk_imports).
Proof.
  unfold azure_cli_installed, sdk_imports. cbn [import_all map fst forallb].
  repeat match goal with
         | |- context [if found ?p then _ else _] => destruct (found p)
         end; reflexivity.
Qed.

Lemma module_installed_flag found :
  module_namespace found "AZURE_CLI_INSTALLED"
  = Some (PBool (azure_cli_installed found)).
Proof.
  unfold module_namespace, module_bindings, azure_cli_installed, sdk_imports.
  cbn [import_all].
  repeat match goal with
         | |- context [if found ?p then _ else _] => destruct (found p)
         end; reflexivity.
Qed.

Lemma logged_in_run (w : world) (h : history) :
  logged_in w (module_of w) h
  = (Raised (if forallb (has_module w) (map fst sdk_imports)
             then Exn NameError "name 'azure' is not defined" None
             else Exn RuntimeError install_hint None),
     h).
Proof.
  rewrite <- installed_when_all_found.
  unfold logged_in. unfold bind at 1, load_global at 1, module_of.
  rewrite module_installed_flag. unfold ret at 1.
  destruct (azure_cli_installed (has_module w)); cbn [obj_truthy negb];
    [| reflexivity].
  unfold try_except, _azure_cli, bind, load_global.
  rewrite !unbound_in_module by (simpl; tauto).
  reflexivity.
Qed.

(** X1: the two functions of the session never succeed as the module is
    shipped, and issue no request.  [logged_in] raises the [RuntimeError]
    with the installation hint when one of the five SDK packages is missing;
    when they are all there, its call of the unbound [_azure_cli] raises a
    [NameError], and so does its [except] clause, which reads the unbound
    name [azure].  [log_in] raises the [NameError] of [_azure_cli]. *)
Theorem session_functions_never_answer (w : world) (h : history) :
  logged_in w (module_of w) h
  = (Raised (if forallb (has_module w) (map fst sdk_imports)
             then Exn NameError "name 'azure' is not defined" None
             else Exn RuntimeError install_hint None),
     h)
  /\ log_in w (module_of w) h
     = (Raised (Exn NameError "name '_azure_cli' is not defined" None), h).
Proof.
  split; [apply logged_in_run |].
  unfold log_in, _azure_cli, bind, load_global, module_of.
  rewrite unbound_in_module by (simpl; tauto).
  reflexivity.
Qed.

(** ** Subscriptions and resource groups *)

(** X2: with the SDK installed, [subscriptions] returns the display names of
    the subscriptions in the order of the listing, duplicates included,
    after the one listing request. *)
Theorem subscriptions_lists_display_names
    (w : world) (G : namespace) (subs : list (string * string)) (h : history)
    (Hready : sdk_ready G = true)
    (Hlisted : answer w h (EvSdk "subscriptions.list" [])
               = inr (JList (map subscription_record subs))) :
  subscriptions w G h
  = (Returned (map JStr (map fst subs)), h ++ [EvSdk "subscriptions.list" []]).
Proof.
  destruct (@construct_ready G "SubscriptionClient" h Hready)
    as (v & E & Hc & _); [simpl; tauto |].
  unfold subscriptions.
  rewrite (@bind_returns _ _ _ _ _ _ _ E).
  rewrite (@bind_returns _ _ _ _ _ _ _ (@credential_ready G h Hready)).
  rewrite Hc. unfold bind at 1, ret at 1.
  rewrite (@bind_returns _ _ _ _ _ _ _ (@perform_answered w h _ _ Hlisted)).
  unfold bind at 1, iterate, ret at 1.
  apply attributes_display_name.
Qed.

Lemma subscriptions_lists_display_names_witness :
  let w := tenant_world three_subscriptions [] in
  subscriptions w (module_of w) []
  = (Returned [JStr "dev"; JStr "prod"; JStr "dev"],
     [EvSdk "subscriptions.list" []]).
Proof.
  intros w.
  apply (@subscriptions_lists_display_names w (module_of w) three_subscriptions
           []); reflexivity.
Defined.

(** X3: [_subscription_id] resolves a display name to the id of the first
    subscription listed under that name; later subscriptions of the same
    name are never returned. *)
Theorem subscription_id_first_match
    (w : world) (G : namespace) (before after : list (string * string))
    (name id : string) (h : history)
    (Hready : sdk_ready G = true)
    (Hlisted : answer w h (EvSdk "subscriptions.list" [])
               = inr (JList (map subscription_record
                               (before ++ (name, id) :: after))))
    (Hfirst : ~ In name (map fst before)) :
  _subscription_id w G (PStr name) h
  = (Returned (JStr id), h ++ [EvSdk "subscriptions.list" []]).
Proof.
  rewrite (@subscription_id_run w G Hready _ h Hlisted name).
  now rewrite first_id_listed.
Qed.

Lemma subscription_id_first_match_witness :
  let w := tenant_world three_subscriptions [] in
  _subscription_id w (module_of w) (PStr "dev") []
  = (Returned (JStr "1111"), [EvSdk "subscriptions.list" []])
  /\ _subscription_id w (module_of w) (PStr "prod") []
     = (Returned (JStr "2222"), [EvSdk "subscriptions.list" []]).
Proof.
  intros w. split.
  - apply (@subscription_id_first_match w (module_of w) []
             [("prod", "2222"); ("dev", "3333")] "dev" "1111" []);
      [reflexivity | reflexivity | simpl; tauto].
  - apply (@subscription_id_first_match w (module_of w) [("dev", "1111")]
             [("dev", "3333")] "prod" "2222" []);
      [reflexivity | reflexivity |].
    simpl. intros [H | []]. discriminate.
Defined.

(** X4: a display name that no listed subscription has -- in particular
    any name when the listing is empty -- makes [_subscription_id] raise a
    [ValueError] that quotes the name. *)
Theorem subscription_id_unknown_name
    (w : world) (G : namespace) (subs : list (string * string))
    (name : string) (h : history)
    (Hready : sdk_ready G = true)
    (Hlisted : answer w h (EvSdk "subscriptions.list" [])
               = inr (JList (map subscription_record subs)))
    (Hunknown : ~ In name (map fst subs)) :
  _subscription_id w G (PStr name) h
  = (Raised (Exn ValueError
               (fstr ["Could not find a subscription with name "; name]) None),
     h ++ [EvSdk "subscriptions.list" []]).
Proof.
  rewrite (@subscription_id_run w G Hready _ h Hlisted name).
  now rewrite first_id_unlisted.
Qed.

Lemma subscription_id_unknown_name_witness :
  _subscription_id (tenant_world three_subscriptions [])
    (module_of (tenant_world three_subscriptions [])) (PStr "test") []
  = (Raised (Exn ValueError "Could not find a subscription with name test" None),
     [EvSdk "subscriptions.list" []])
  /\ _subscription_id (tenant_world [] []) (module_of (tenant_world [] []))
       (PStr "dev") []
     = (Raised (Exn ValueError "Could not find a subscription with name dev" None),
        [EvSdk "subscriptions.list" []]).
Proof.
  split.
  - apply (@subscription_id_unknown_name (tenant_world three_subscriptions [])
             (module_of (tenant_world three_subscriptions []))
             three_subscriptions "test" []);
      [reflexivity | reflexivity |].
    simpl. intros [H | [H | [H | []]]]; discriminate.
  - apply (@subscription_id_unknown_name (tenant_world [] [])
             (module_of (tenant_world [] [])) [] "dev" []);
      [reflexivity | reflexivity | simpl; tauto].
Defined.

(** X5: without a name, [_subscription_id] returns the id of the first
    subscription of the listing, and raises [StopIteration] when the
    listing is empty. *)
Theorem subscription_id_default
    (w : world) (G : namespace) (subs : list (string * string)) (h : history)
    (Hready : sdk_ready G = true)
    (Hlisted : answer w h (EvSdk "subscriptions.list" [])
               = inr (JList (map subscription_record subs))) :
  _subscription_id w G PNone h
  = (match subs with
     | [] => Raised (Exn StopIteration EmptyString None)
     | first :: _ => Returned (JStr (snd first))
     end,
     h ++ [EvSdk "subscriptions.list" []]).
Proof. exact (@default_subscription_run w G Hready subs h Hlisted). Qed.

Lemma subscription_id_default_witness :
  _subscription_id (tenant_world three_subscriptions [])
    (module_of (tenant_world three_subscriptions [])) PNone []
  = (Returned (JStr "1111"), [EvSdk "subscriptions.list" []])
  /\ _subscription_id (tenant_world [] []) (module_of (tenant_world [] []))
       PNone []
     = (Raised (Exn StopIteration EmptyString None),
        [EvSdk "subscriptions.list" []]).
Proof.
  split.
  - apply (@subscription_id_default (tenant_world three_subscriptions [])
             (module_of (tenant_world three_subscriptions []))
             three_subscriptions []); reflexivity.
  - apply (@subscription_id_default (tenant_world [] [])
             (module_of (tenant_world [] [])) [] []); reflexivity.
Defined.

Lemma first_id_known name subs :
  In name (map fst subs) -> exists id, first_id name subs = Some id.
Proof.
  induction subs as [| [n i] subs IH]; simpl; intros H; [contradiction |].
  destruct (String.eqb_spec n name) as [-> | Hn]; [now exists i |].
  apply IH. destruct H; [contradiction | assumption].
Qed.

(** The clients of a subscription that the listing knows. *)
Section KnownSubscription.

Variable w : world.
Variable G : namespace.
Hypothesis ready : sdk_ready G = true.

Variable subs : list (string * string).
Variable h : history.
Hypothesis listed :
  answer w h (EvSdk "subscriptions.list" [])
  = inr (JList (map subscription_record subs)).

Variable subscription : string.
Hypothesis known : In subscription (map fst subs).

Lemma known_subscription_id :
  exists id,
    _subscription_id w G (PStr subscription) h
    = (Returned (JStr id), h ++ [EvSdk "subscriptions.list" []]).
Proof.
  destruct (@first_id_known subscription subs known) as (id & E).
  exists id. rewrite (@subscription_id_run w G ready _ h listed subscription).
  now rewrite E.
Qed.

Lemma known_storage_client :
  storage_management_client w G (PStr subscription) h
  = (Returned tt, h ++ [EvSdk "subscriptions.list" []]).
Proof.
  destruct (@construct_ready G "StorageManagementClient" h ready)
    as (v & E & Hc & _); [simpl; tauto |].
  destruct known_subscription_id as (id & Hid).
  unfold storage_management_client.
  rewrite (@bind_returns _ _ _ _ _ _ _ E).
  rewrite (@bind_returns _ _ _ _ _ _ _ (@credential_ready G h ready)).
  rewrite (@bind_returns _ _ _ _ _ _ _ Hid).
  rewrite Hc. reflexivity.
Qed.

End KnownSubscription.

(** X6: for a subscription that the listing knows, [resource_groups]
    returns the names of the resource groups in the order of their listing,
    which it requests after the listing of the subscriptions. *)
Theorem resource_groups_lists_names
    (w : world) (G : namespace) (subs : list (string * string))
    (groups : list (string * list (string * json)))
    (subscription : string) (h : history)
    (Hready : sdk_ready G = true)
    (Hlisted : answer w h (EvSdk "subscriptions.list" [])
               = inr (JList (map subscription_record subs)))
    (Hknown : In subscription (map fst subs))
    (Hgroups : answer w (h ++ [EvSdk "subscriptions.list" []])
                 (EvSdk "resource_groups.list" [])
               = inr (JList (map account groups))) :
  resource_groups w G subscription h
  = (Returned (map JStr (map fst groups)),
     h ++ [EvSdk "subscriptions.list" []; EvSdk "resource_groups.list" []]).
Proof.
  destruct (@construct_ready G "ResourceManagementClient" h Hready)
    as (v & E & Hc & _); [simpl; tauto |].
  destruct (@known_subscription_id w G Hready subs h Hlisted subscription Hknown)
    as (id & Hid).
  unfold resource_groups.
  rewrite (@bind_returns _ _ _ _ _ _ _ E).
  rewrite (@bind_returns _ _ _ _ _ _ _ (@credential_ready G h Hready)).
  rewrite (@bind_returns _ _ _ _ _ _ _ Hid).
  rewrite Hc. unfold bind at 1, ret at 1.
  rewrite (@bind_returns _ _ _ _ _ _ _ (@perform_answered w _ _ _ Hgroups)).
  unfold bind at 1, iterate, ret at 1.
  rewrite attributes_name, <- app_assoc. reflexivity.
Qed.

Lemma resource_groups_lists_names_witness :
  let w := tenant_world three_subscriptions [] in
  resource_groups w (module_of w) "prod" []
  = (Returned [JStr "rg-a"; JStr "rg-b"],
     [EvSdk "subscriptions.list" []; EvSdk "resource_groups.list" []]).
Proof.
  intros w.
  apply (@resource_groups_lists_names w (module_of w) three_subscriptions
           [("rg-a", [("location", JStr "northeurope")]); ("rg-b", [])]
           "prod" []);
    [reflexivity | reflexivity | simpl; tauto | reflexivity].
Defined.

(** X7: for a subscription that the listing does not know,
    [resource_groups] raises the [ValueError] of [_subscription_id] and
    never requests the listing of the resource groups. *)
Theorem resource_groups_unknown_subscription
    (w : world) (G : namespace) (subs : list (string * string))
    (subscription : string) (h : history)
    (Hready : sdk_ready G = true)
    (Hlisted : answer w h (EvSdk "subscriptions.list" [])
               = inr (JList (map subscription_record subs)))
    (Hunknown : ~ In subscription (map fst subs)) :
  resource_groups w G subscription h
  = (Raised (Exn ValueError
               (fstr ["Could not find a subscription with name "; subscription])
               None),
     h ++ [EvSdk "subscriptions.list" []]).
Proof.
  destruct (@construct_ready G "ResourceManagementClient" h Hready)
    as (v & E & Hc & _); [simpl; tauto |].
  unfold resource_groups.
  rewrite (@bind_returns _ _ _ _ _ _ _ E).
  rewrite (@bind_returns _ _ _ _ _ _ _ (@credential_ready G h Hready)).
  apply bind_raises.
  rewrite (@subscription_id_run w G Hready _ h Hlisted subscription).
  now rewrite first_id_unlisted.
Qed.

Lemma resource_groups_unknown_subscription_witness :
  let w := tenant_world three_subscriptions [] in
  resource_groups w (module_of w) "test" []
  = (Raised (Exn ValueError "Could not find a subscription with name test" None),
     [EvSdk "subscriptions.list" []]).
Proof.
  intros w.
  apply (@resource_groups_unknown_subscription w (module_of w)
           three_subscriptions "test" []);
    [reflexivity | reflexivity |].
  simpl. intros [H | [H | [H | []]]]; discriminate.
Defined.

(** ** Storage accounts and containers *)

(** The client of the default subscription. *)
Lemma default_storage_client w G subs h :
  sdk_ready G = true ->
  answer w h (EvSdk "subscriptions.list" [])
  = inr (JList (map subscription_record subs)) ->
  storage_management_client w G PNone h
  = (match subs with
     | [] => Raised (Exn StopIteration EmptyString None)
     | _ :: _ => Returned tt
     end,
     h ++ [EvSdk "subscriptions.list" []]).
Proof.
  intros ready listed.
  destruct (@construct_ready G "StorageManagementClient" h ready)
    as (v & E & Hc & _); [simpl; tauto |].
  unfold storage_management_client.
  rewrite (@bind_returns _ _ _ _ _ _ _ E).
  rewrite (@bind_returns _ _ _ _ _ _ _ (@credential_ready G h ready)).
  unfold bind. rewrite (@default_subscription_run w G ready subs h listed).
  destruct subs; [reflexivity |]. now rewrite Hc.
Qed.

(** X8: when a subscription is listed, [storage_account_name_available]
    asks once whether the name is available, after the listing of the
    subscriptions, and returns the pair of the [name_available] and
    [message] attributes of the answer as they are. *)
Theorem name_available_returns_the_answer
    (w : world) (G : namespace) (first : string * string)
    (others : list (string * string)) (name : string)
    (result : list (string * json)) (name_available message : json)
    (h : history)
    (Hready : sdk_ready G = true)
    (Hlisted : answer w h (EvSdk "subscriptions.list" [])
               = inr (JList (map subscription_record (first :: others))))
    (Hchecked : answer w (h ++ [EvSdk "subscriptions.list" []])
                  (EvSdk "storage_accounts.check_name_availability" [PStr name])
                = inr (JDict result))
    (Havailable : assoc "name_available" result = Some name_available)
    (Hmessage : assoc "message" result = Some message) :
  storage_account_name_available w G name h
  = (Returned (name_available, message),
     h ++ [EvSdk "subscriptions.list" [];
           EvSdk "storage_accounts.check_name_availability" [PStr name]]).
Proof.
  unfold storage_account_name_available.
  rewrite (@bind_returns _ _ _ _ _ _ _
             (@default_storage_client w G _ h Hready Hlisted)).
  rewrite (@bind_returns _ _ _ _ _ _ _ (@perform_answered w _ _ _ Hchecked)).
  unfold bind, getattr. rewrite Havailable, Hmessage.
  unfold ret. rewrite <- app_assoc. reflexivity.
Qed.

Lemma name_available_returns_the_answer_witness :
  let w := tenant_world three_subscriptions [] in
  storage_account_name_available w (module_of w) "webviz" []
  = (Returned (JBool false, JStr "The storage account is already taken."),
     [EvSdk "subscriptions.list" [];
      EvSdk "storage_accounts.check_name_availability" [PStr "webviz"]]).
Proof.
  intros w.
  apply (@name_available_returns_the_answer w (module_of w) ("dev", "1111")
           [("prod", "2222"); ("dev", "3333")] "webviz"
           [("name_available", JBool false);
            ("reason", JStr "AlreadyExists");
            ("message", JStr "The storage account is already taken.")]
           (JBool false) (JStr "The storage account is already taken.") []);
    reflexivity.
Defined.

(** X9: when no subscription is listed, [storage_account_name_available]
    raises [StopIteration] and the availability of the name is never
    requested. *)
Theorem name_available_without_subscription
    (w : world) (G : namespace) (name : string) (h : history)
    (Hready : sdk_ready G = true)
    (Hlisted : answer w h (EvSdk "subscriptions.list" []) = inr (JList [])) :
  storage_account_name_available w G name h
  = (Raised (Exn StopIteration EmptyString None),
     h ++ [EvSdk "subscriptions.list" []]).
Proof.
  unfold storage_account_name_available.
  apply bind_raises.
  exact (@default_storage_client w G [] h Hready Hlisted).
Qed.

Lemma name_available_without_subscription_witness :
  let w := tenant_world [] [] in
  storage_account_name_available w (module_of w) "webviz" []
  = (Raised (Exn StopIteration EmptyString None),
     [EvSdk "subscriptions.list" []]).
Proof.
  intros w.
  apply (@name_available_without_subscription w (module_of w) "webviz" []);
    reflexivity.
Defined.

(** X10: when the storage account is among those listed for the resource
    group, [storage_account_exists] returns [True] at once: the accounts of
    the whole subscription are not listed and nothing is warned about. *)
Theorem storage_account_exists_in_group
    (w : world) (G : namespace) (subs : list (string * string))
    (here : list (string * list (string * json)))
    (name subscription resource_group : string) (h : history)
    (Hready : sdk_ready G = true)
    (Hlisted : answer w h (EvSdk "subscriptions.list" [])
               = inr (JList (map subscription_record subs)))
    (Hknown : In subscription (map fst subs))
    (Hhere : answer w (h ++ [EvSdk "subscriptions.list" []])
               (EvSdk "storage_accounts.list_by_resource_group"
                  [PStr resource_group])
             = inr (JList (map account here)))
    (Hpresent : In name (map fst here)) :
  storage_account_exists w G name subscription resource_group h
  = (Returned true,
     h ++ [EvSdk "subscriptions.list" [];
           EvSdk "storage_accounts.list_by_resource_group"
             [PStr resource_group]]).
Proof.
  unfold storage_account_exists.
  rewrite (@bind_returns _ _ _ _ _ _ _
             (@known_storage_client w G Hready subs h Hlisted subscription
                Hknown)).
  rewrite (@bind_returns _ _ _ _ _ _ _ (@perform_answered w _ _ _ Hhere)).
  unfold bind at 1, iterate, ret at 1.
  rewrite (@bind_returns _ _ _ _ _ _ _
             (@any_named_present name here _ Hpresent)).
  unfold ret. rewrite <- app_assoc. reflexivity.
Qed.

Lemma storage_account_exists_in_group_witness :
  let w := tenant_world three_subscriptions [] in
  storage_account_exists w (module_of w) "account" "prod" "rg-a" []
  = (Returned true,
     [EvSdk "subscriptions.list" [];
      EvSdk "storage_accounts.list_by_resource_group" [PStr "rg-a"]]).
Proof.
  intros w.
  apply (@storage_account_exists_in_group w (module_of w) three_subscriptions
           [("logs", []); ("account", [])] "account" "prod" "rg-a" []);
    [reflexivity | reflexivity | simpl; tauto | reflexivity | simpl; tauto].
Defined.

(** X11: when the storage account is listed neither for the resource group
    nor for the subscription, [storage_account_exists] returns [False],
    after both listings and without a warning. *)
Theorem storage_account_exists_nowhere
    (w : world) (G : namespace) (subs : list (string * string))
    (here everywhere : list (string * list (string * json)))
    (name subscription resource_group : string) (h : history)
    (Hready : sdk_ready G = true)
    (Hlisted : answer w h (EvSdk "subscriptions.list" [])
               = inr (JList (map subscription_record subs)))
    (Hknown : In subscription (map fst subs))
    (Hhere : answer w (h ++ [EvSdk "subscriptions.list" []])
               (EvSdk "storage_accounts.list_by_resource_group"
                  [PStr resource_group])
             = inr (JList (map account here)))
    (Habsent : ~ In name (map fst here))
    (Heverywhere :
       answer w
         (h ++ [EvSdk "subscriptions.list" [];
                EvSdk "storage_accounts.list_by_resource_group"
                  [PStr resource_group]])
         (EvSdk "storage_accounts.list" [])
       = inr (JList (map account everywhere)))
    (Hnowhere : ~ In name (map fst everywhere)) :
  storage_account_exists w G name subscription resource_group h
  = (Returned false,
     h ++ [EvSdk "subscriptions.list" [];
           EvSdk "storage_accounts.list_by_resource_group"
             [PStr resource_group];
           EvSdk "storage_accounts.list" []]).
Proof.
  unfold storage_account_exists.
  rewrite (@bind_returns _ _ _ _ _ _ _
             (@known_storage_client w G Hready subs h Hlisted subscription
                Hknown)).
  rewrite (@bind_returns _ _ _ _ _ _ _ (@perform_answered w _ _ _ Hhere)).
  unfold bind at 1, iterate at 1, ret at 1.
  rewrite (@bind_returns _ _ _ _ _ _ _
             (@any_named_absent name here _ Habsent)).
  rewrite <- app_assoc. cbn [app].
  rewrite (@bind_returns _ _ _ _ _ _ _ (@perform_answered w _ _ _ Heverywhere)).
  unfold bind at 1, iterate, ret at 1.
  rewrite (@bind_returns _ _ _ _ _ _ _
             (@any_named_absent name everywhere _ Hnowhere)).
  unfold ret. rewrite <- app_assoc. reflexivity.
Qed.

Lemma storage_account_exists_nowhere_witness :
  let w := tenant_world three_subscriptions [] in
  storage_account_exists w (module_of w) "webviz" "prod" "rg-a" []
  = (Returned false,
     [EvSdk "subscriptions.list" [];
      EvSdk "storage_accounts.list_by_resource_group" [PStr "rg-a"];
      EvSdk "storage_accounts.list" []]).
Proof.
  intros w.
  apply (@storage_account_exists_nowhere w (module_of w) three_subscriptions
           [("logs", []); ("account", [])]
           [("logs", []); ("account", []);
            ("backup", [("resourceGroup", JStr "rg-b")])]
           "webviz" "prod" "rg-a" []);
    try reflexivity; simpl; intuition discriminate.
Defined.

Lemma any_named_listed name entries h :
  any_named name (map account entries) h
  = (Returned (existsb (String.eqb name) (map fst entries)), h).
Proof.
  induction entries as [| [n extra] entries IH]; simpl; [reflexivity |].
  unfold bind, getattr. simpl. rewrite (String.eqb_sym name n).
  destruct (String.eqb n name); [reflexivity | apply IH].
Qed.

(** X12: [storage_container_exists] answers whether the name is among the
    names of the containers listed for the storage account: it returns
    [True] exactly when it is, after the one listing of the containers. *)
Theorem storage_container_exists_iff_listed
    (w : world) (G : namespace) (subs : list (string * string))
    (containers : list (string * list (string * json)))
    (container_name account_name subscription resource_group : string)
    (h : history)
    (Hready : sdk_ready G = true)
    (Hlisted : answer w h (EvSdk "subscriptions.list" [])
               = inr (JList (map subscription_record subs)))
    (Hknown : In subscription (map fst subs))
    (Hcontainers : answer w (h ++ [EvSdk "subscriptions.list" []])
                     (EvSdk "blob_containers.list"
                        [PStr resource_group; PStr account_name])
                   = inr (JList (map account containers))) :
  exists found : bool,
    storage_container_exists w G container_name account_name subscription
      resource_group h
    = (Returned found,
       h ++ [EvSdk "subscriptions.list" [];
             EvSdk "blob_containers.list"
               [PStr resource_group; PStr account_name]])
    /\ (found = true <-> In container_name (map fst containers)).
Proof.
  exists (existsb (String.eqb container_name) (map fst containers)). split.
  - unfold storage_container_exists.
    rewrite (@bind_returns _ _ _ _ _ _ _
               (@known_storage_client w G Hready subs h Hlisted subscription
                  Hknown)).
    rewrite (@bind_returns _ _ _ _ _ _ _
               (@perform_answered w _ _ _ Hcontainers)).
    unfold bind at 1, iterate, ret at 1.
    rewrite any_named_listed, <- app_assoc. reflexivity.
  - rewrite existsb_exists. split.
    + intros (x & Hin & Hx). apply String.eqb_eq in Hx. now subst.
    + intros Hin. exists container_name. split; [exact Hin |].
      apply String.eqb_refl.
Qed.

Lemma storage_container_exists_iff_listed_witness :
  let w := tenant_world three_subscriptions [] in
  exists found : bool,
    storage_container_exists w (module_of w) "$web" "account" "prod" "rg-a" []
    = (Returned found,
       [EvSdk "subscriptions.list" [];
        EvSdk "blob_containers.list" [PStr "rg-a"; PStr "account"]])
    /\ (found = true <-> In "$web" ["$web"; "container"]).
Proof.
  intros w.
  apply (@storage_container_exists_iff_listed w (module_of w)
           three_subscriptions [("$web", []); ("container", [])]
           "$web" "account" "prod" "rg-a" []);
    [reflexivity | reflexivity | simpl; tauto | reflexivity].
Defined.

(** *** Access keys *)

Section AccessKeys.

Variable w : world.
Variable G : namespace.
Hypothesis ready : sdk_ready G = true.

Variable subs : list (string * string).
Variable h : history.
Hypothesis listed :
  answer w h (EvSdk "subscriptions.list" [])
  = inr (JList (map subscription_record subs)).

Variables subscription resource_group storage_account : string.
Hypothesis known : In subscription (map fst subs).

Variable keys : list string.
Hypothesis keys_listed :
  answer w (h ++ [EvSdk "subscriptions.list" []])
    (EvSdk "storage_accounts.list_keys"
       [PStr resource_group; PStr storage_account])
  = inr (JDict [("keys", JList (map key_record keys))]).

Lemma connection_string_run :
  _connection_string w G (PStr subscription) (PStr resource_group)
    storage_account h
  = (match keys with
     | [] => Raised (Exn IndexError "list index out of range" None)
     | key :: _ => Returned (connection_string storage_account key)
     end,
     h ++ [EvSdk "subscriptions.list" [];
           EvSdk "storage_accounts.list_keys"
             [PStr resource_group; PStr storage_account]]).
Proof.
  unfold _connection_string, get_storage_account_access_key.
  unfold bind at 1.
  rewrite (@bind_returns _ _ _ _ _ _ _
             (@known_storage_client w G ready subs h listed subscription
                known)).
  rewrite (@bind_returns _ _ _ _ _ _ _ (@perform_answered w _ _ _ keys_listed)).
  rewrite <- app_assoc. cbn [app].
  destruct keys; reflexivity.
Qed.

End AccessKeys.

(** X13: [create_storage_container] builds the connection string from the
    name of the storage account and the first of its access keys, and
    issues the create request with it, without looking whether the
    container exists; it returns [None] when the service accepts, and what
    the service raises otherwise. *)
Theorem create_container_with_first_key
    (w : world) (G : namespace) (subs : list (string * string))
    (subscription resource_group storage_account container key : string)
    (others : list string) (answered : exn + json) (h : history)
    (Hready : sdk_ready G = true)
    (Hlisted : answer w h (EvSdk "subscriptions.list" [])
               = inr (JList (map subscription_record subs)))
    (Hknown : In subscription (map fst subs))
    (Hkeys : answer w (h ++ [EvSdk "subscriptions.list" []])
               (EvSdk "storage_accounts.list_keys"
                  [PStr resource_group; PStr storage_account])
             = inr (JDict [("keys", JList (map key_record (key :: others)))]))
    (Hcreate : answer w
                 (h ++ [EvSdk "subscriptions.list" [];
                        EvSdk "storage_accounts.list_keys"
                          [PStr resource_group; PStr storage_account]])
                 (EvCreateContainer (connection_string storage_account key)
                    container)
               = answered) :
  create_storage_container w G subscription resource_group storage_account
    container h
  = (match answered with
     | inl refusal => Raised refusal
     | inr _ => Returned tt
     end,
     h ++ [EvSdk "subscriptions.list" [];
           EvSdk "storage_accounts.list_keys"
             [PStr resource_group; PStr storage_account];
           EvCreateContainer (connection_string storage_account key)
             container]).
Proof.
  destruct (@construct_ready G "BlobServiceClient" h Hready)
    as (v & E & _ & Ha); [simpl; tauto |].
  unfold create_storage_container.
  rewrite (@bind_returns _ _ _ _ _ _ _ E).
  rewrite Ha. unfold bind at 1, ret at 1.
  rewrite (@bind_returns _ _ _ _ _ _ _
             (@connection_string_run w G Hready subs h Hlisted subscription
                resource_group storage_account Hknown (key :: others) Hkeys)).
  unfold bind, perform. rewrite Hcreate.
  destruct answered; rewrite <- app_assoc; reflexivity.
Qed.

Lemma create_container_with_first_key_witness :
  let w := tenant_world three_subscriptions ["k1"; "k2"] in
  create_storage_container w (module_of w) "prod" "rg-a" "account" "$web" []
  = (Returned tt,
     [EvSdk "subscriptions.list" [];
      EvSdk "storage_accounts.list_keys" [PStr "rg-a"; PStr "account"];
      EvCreateContainer
        "DefaultEndpointsProtocol=https;AccountName=account;AccountKey=k1"
        "$web"]).
Proof.
  intros w.
  apply (@create_container_with_first_key w (module_of w) three_subscriptions
           "prod" "rg-a" "account" "$web" "k1" ["k2"] (inr JNull) []);
    [reflexivity | reflexivity | simpl; tauto | reflexivity | reflexivity].
Defined.

(** X14: for a storage account that lists no access key,
    [create_storage_container] raises an [IndexError], and the create
    request is never issued. *)
Theorem create_container_without_keys
    (w : world) (G : namespace) (subs : list (string * string))
    (subscription resource_group storage_account container : string)
    (h : history)
    (Hready : sdk_ready G = true)
    (Hlisted : answer w h (EvSdk "subscriptions.list" [])
               = inr (JList (map subscription_record subs)))
    (Hknown : In subscription (map fst subs))
    (Hkeys : answer w (h ++ [EvSdk "subscriptions.list" []])
               (EvSdk "storage_accounts.list_keys"
                  [PStr resource_group; PStr storage_account])
             = inr (JDict [("keys", JList [])])) :
  create_storage_container w G subscription resource_group storage_account
    container h
  = (Raised (Exn IndexError "list index out of range" None),
     h ++ [EvSdk "subscriptions.list" [];
           EvSdk "storage_accounts.list_keys"
             [PStr resource_group; PStr storage_account]]).
Proof.
  destruct (@construct_ready G "BlobServiceClient" h Hready)
    as (v & E & _ & Ha); [simpl; tauto |].
  unfold create_storage_container.
  rewrite (@bind_returns _ _ _ _ _ _ _ E).
  rewrite Ha. unfold bind at 1, ret at 1.
  apply bind_raises.
  exact (@connection_string_run w G Hready subs h Hlisted subscription
           resource_group storage_account Hknown [] Hkeys).
Qed.

Lemma create_container_without_keys_witness :
  let w := tenant_world three_subscriptions [] in
  create_storage_container w (module_of w) "prod" "rg-a" "account" "$web" []
  = (Raised (Exn IndexError "list index out of range" None),
     [EvSdk "subscriptions.list" [];
      EvSdk "storage_accounts.list_keys" [PStr "rg-a"; PStr "account"]]).
Proof.
  intros w.
  apply (@create_container_without_keys w (module_of w) three_subscriptions
           "prod" "rg-a" "account" "$web" []);
    [reflexivity | reflexivity | simpl; tauto | reflexivity].
Defined.

(** *** A source folder that is no directory *)

(** X15: when the source folder does not exist, or is a file,
    [_upload_batch] still imports its packages and builds the connection
    string, then uploads nothing and returns: the missing folder is not
    reported. *)
Theorem upload_batch_without_folder
    (w : world) (G : namespace) (subscription resource_group : pyobj)
    (storage_name container_name connection : string) (source_folder : path)
    (h h1 : history)
    (Hfolder : lookup (root w) source_folder = None
               \/ lookup (root w) source_folder = Some File)
    (Himports : forallb (has_module w) (batch_imports w) = true)
    (Hconnection : _connection_string w G subscription resource_group
                     storage_name h
                   = (Returned connection, h1)) :
  _upload_batch w G subscription resource_group storage_name container_name
    source_folder h
  = (Returned tt, h1).
Proof.
  assert (Hpaths : filter (is_file (root w)) (rglob (root w) source_folder) = []).
  { unfold rglob. destruct Hfolder as [E | E]; rewrite E; reflexivity. }
  unfold _upload_batch, batch_imports in *. rewrite Hpaths.
  destruct (python37 w); simpl in Himports;
    repeat (apply andb_prop in Himports; destruct Himports as [? Himports]);
    unfold bind at 1, import_module;
    match goal with H : has_module w _ = true |- _ => rewrite H; clear H end;
    unfold ret at 1; unfold bind at 1;
    match goal with H : has_module w _ = true |- _ => rewrite H; clear H end;
    unfold ret at 1; unfold bind at 1; rewrite Hconnection;
    reflexivity.
Qed.

Lemma upload_batch_without_folder_witness :
  let w := tenant_world three_subscriptions ["k1"] in
  let h1 := [EvSdk "subscriptions.list" [];
             EvSdk "storage_accounts.list_keys" [PStr "rg-a"; PStr "account"]] in
  _upload_batch w (module_of w) (PStr "prod") (PStr "rg-a") "account" "$web"
    ["home"; "build"] []
  = (Returned tt, h1)
  /\ _upload_batch w (module_of w) (PStr "prod") (PStr "rg-a") "account" "$web"
       ["home"; "notes.txt"] []
     = (Returned tt, h1).
Proof.
  intros w h1. split.
  - apply (@upload_batch_without_folder w (module_of w) (PStr "prod")
             (PStr "rg-a") "account" "$web"
             "DefaultEndpointsProtocol=https;AccountName=account;AccountKey=k1"
             ["home"; "build"] [] h1);
      [left; reflexivity | reflexivity | reflexivity].
  - apply (@upload_batch_without_folder w (module_of w) (PStr "prod")
             (PStr "rg-a") "account" "$web"
             "DefaultEndpointsProtocol=https;AccountName=account;AccountKey=k1"
             ["home"; "notes.txt"] [] h1);
      [right; reflexivity | reflexivity | reflexivity].
Defined.

(** ** The Graph API *)

Section Graph.

Variable w : world.
Variable G : namespace.
Variable token : string.

Hypothesis ready : sdk_ready G = true.
Hypothesis granted : grants w token.

Lemma graph_headers_run h :
  _graph_headers w G h
  = (Returned (bearer token), h ++ [EvGetToken GRAPH_BASE_URL]).
Proof.
  unfold _graph_headers.
  rewrite (@bind_returns _ _ _ _ _ _ _ (@credential_ready G h ready)).
  rewrite (@bind_returns _ _ _ _ _ _ _ (@perform_answered w h _ _ (granted h))).
  reflexivity.
Qed.

Lemma request_answered verb url body v h :
  replies w (EvHttp verb url body (bearer token)) (inr v) ->
  request w G verb url body h
  = (Returned v, h ++ graph_request token verb url body).
Proof.
  intros H. unfold request.
  rewrite (@bind_returns _ _ _ _ _ _ _ (graph_headers_run h)).
  rewrite (@perform_answered w _ _ _ (H _)), <- app_assoc. reflexivity.
Qed.

(** The lookup of an app registration that is not there. *)
Lemma no_existing_app_registration display_name found h :
  replies w (EvHttp GET (applications_named display_name) None (bearer token))
    (inr (JDict found)) ->
  assoc "value" found = Some (JList []) ->
  existing_app_registration w G display_name h
  = (Returned JNull,
     h ++ graph_request token GET (applications_named display_name) None).
Proof.
  intros Hlookup Hvalue. unfold existing_app_registration.
  rewrite (@bind_returns _ _ _ _ _ _ _
             (@request_answered GET (applications_named display_name) None _ h
                Hlookup)).
  unfold bind, getitem. rewrite Hvalue. reflexivity.
Qed.

(** The lookup of the object id of an application that is not there. *)
Lemma no_object_id app_id found h :
  replies w (EvHttp GET (applications_of app_id) None (bearer token))
    (inr (JDict found)) ->
  assoc "value" found = Some (JList []) ->
  _object_id_from_app_id w G (JStr app_id) h
  = (Raised (Exn IndexError "list index out of range" None),
     h ++ graph_request token GET (applications_of app_id) None).
Proof.
  intros Hlookup Hvalue. unfold _object_id_from_app_id.
  rewrite (@bind_returns _ _ _ _ _ _ _
             (@request_answered GET (applications_of app_id) None _ h Hlookup)).
  unfold bind, getitem. rewrite Hvalue. reflexivity.
Qed.

End Graph.

(** *** Creating an app registration *)

(** X16: when the lookup finds no app registration of the display name,
    [create_app_registration] posts a new application of that name for the
    own organisation and returns the [appId] of the answer. *)
Theorem create_app_registration_creates
    (w : world) (G : namespace) (token display_name : string)
    (found created : list (string * json)) (app_id : json) (h : history)
    (Hready : sdk_ready G = true)
    (Hgranted : grants w token)
    (Hlookup : replies w
                 (EvHttp GET (applications_named display_name) None
                    (bearer token))
                 (inr (JDict found)))
    (Hnone : assoc "value" found = Some (JList []))
    (Hcreated : replies w
                  (EvHttp POST (graph_url "applications")
                     (Some (new_application display_name)) (bearer token))
                  (inr (JDict created)))
    (Hok : assoc "error" created = None)
    (Hid : assoc "appId" created = Some app_id) :
  create_app_registration w G display_name h
  = (Returned app_id,
     h ++ graph_request token GET (applications_named display_name) None
       ++ graph_request token POST (graph_url "applications")
            (Some (new_application display_name))).
Proof.
  unfold create_app_registration.
  rewrite (@bind_returns _ _ _ _ _ _ _
             (@no_existing_app_registration w G token Hready Hgranted
                display_name found h Hlookup Hnone)).
  cbn [is_none negb].
  rewrite (@bind_returns _ _ _ _ _ _ _
             (@request_answered w G token Hready Hgranted POST
                (graph_url "applications")
                (Some (new_application display_name)) _ _ Hcreated)).
  unfold bind, py_in, getitem, ret. rewrite Hok, Hid.
  rewrite <- app_assoc. reflexivity.
Qed.

Lemma create_app_registration_creates_witness :
  let w := directory_world (matches [])
             (JDict [("id", JStr "object-2"); ("appId", JStr "app-2")]) in
  create_app_registration w (module_of w) "webviz" []
  = (Returned (JStr "app-2"),
     graph_request "token" GET (applications_named "webviz") None
     ++ graph_request "token" POST (graph_url "applications")
          (Some (new_application "webviz"))).
Proof.
  intros w.
  apply (@create_app_registration_creates w (module_of w) "token" "webviz"
           [("@odata.context", JStr "https://graph.microsoft.com/v1.0/$metadata");
            ("value", JList [])]
           [("id", JStr "object-2"); ("appId", JStr "app-2")]
           (JStr "app-2") []);
    try reflexivity; intro; reflexivity.
Defined.

Lemma app_registration_is_denied
    (w : world) (G : namespace) (token display_name : string)
    (found refused error : list (string * json)) (h : history)
    (Hready : sdk_ready G = true)
    (Hgranted : grants w token)
    (Hlookup : replies w
                 (EvHttp GET (applications_named display_name) None
                    (bearer token))
                 (inr (JDict found)))
    (Hnone : assoc "value" found = Some (JList []))
    (Hrefused : replies w
                  (EvHttp POST (graph_url "applications")
                     (Some (new_application display_name)) (bearer token))
                  (inr (JDict refused)))
    (Herror : assoc "error" refused = Some (JDict error))
    (Hcode : assoc "code" error = Some (JStr "Authorization_RequestDenied")) :
  create_app_registration w G display_name h
  = (Raised (Exn PermissionError
               "Insufficient privileges to create new app registration." None),
     h ++ graph_request token GET (applications_named display_name) None
       ++ graph_request token POST (graph_url "applications")
            (Some (new_application display_name))).
Proof.
  unfold create_app_registration.
  rewrite (@bind_returns _ _ _ _ _ _ _
             (@no_existing_app_registration w G token Hready Hgranted
                display_name found h Hlookup Hnone)).
  cbn [is_none negb].
  rewrite (@bind_returns _ _ _ _ _ _ _
             (@request_answered w G token Hready Hgranted POST
                (graph_url "applications")
                (Some (new_application display_name)) _ _ Hrefused)).
  unfold bind, py_in, getitem, ret. rewrite Herror. cbn iota.
  rewrite Hcode. cbn [eq_str]. rewrite String.eqb_refl.
  unfold raise. rewrite <- app_assoc. reflexivity.
Qed.

(** X17: when the create request is answered with the error code
    [Authorization_RequestDenied], [create_app_registration] raises a
    [PermissionError]. *)
Theorem create_app_registration_denied
    (w : world) (G : namespace) (token display_name : string)
    (found refused error : list (string * json)) (h : history)
    (Hready : sdk_ready G = true)
    (Hgranted : grants w token)
    (Hlookup : replies w
                 (EvHttp GET (applications_named display_name) None
                    (bearer token))
                 (inr (JDict found)))
    (Hnone : assoc "value" found = Some (JList []))
    (Hrefused : replies w
                  (EvHttp POST (graph_url "applications")
                     (Some (new_application display_name)) (bearer token))
                  (inr (JDict refused)))
    (Herror : assoc "error" refused = Some (JDict error))
    (Hcode : assoc "code" error = Some (JStr "Authorization_RequestDenied")) :
  create_app_registration w G display_name h
  = (Raised (Exn PermissionError
               "Insufficient privileges to create new app registration." None),
     h ++ graph_request token GET (applications_named display_name) None
       ++ graph_request token POST (graph_url "applications")
            (Some (new_application display_name))).
Proof.
  exact (@app_registration_is_denied w G token display_name found refused error
           h Hready Hgranted Hlookup Hnone Hrefused Herror Hcode).
Qed.

Lemma create_app_registration_denied_witness :
  let w := directory_world (matches [])
             (graph_error "Authorization_RequestDenied"
                "Insufficient privileges to complete the operation.") in
  create_app_registration w (module_of w) "webviz" []
  = (Raised (Exn PermissionError
               "Insufficient privileges to create new app registration." None),
     graph_request "token" GET (applications_named "webviz") None
     ++ graph_request "token" POST (graph_url "applications")
          (Some (new_application "webviz"))).
Proof.
  intros w.
  apply (@create_app_registration_denied w (module_of w) "token" "webviz"
           [("@odata.context", JStr "https://graph.microsoft.com/v1.0/$metadata");
            ("value", JList [])]
           [("error",
             JDict [("code", JStr "Authorization_RequestDenied");
                    ("message",
                     JStr "Insufficient privileges to complete the operation.")])]
           [("code", JStr "Authorization_RequestDenied");
            ("message",
             JStr "Insufficient privileges to complete the operation.")]
           []);
    try reflexivity; intro; reflexivity.
Defined.

(** X18: when the create request is answered with an error of any other
    code, [create_app_registration] does not report it: the error document
    has no [appId], and the function raises the [KeyError] of that
    subscript. *)
Theorem create_app_registration_other_error
    (w : world) (G : namespace) (token display_name : string)
    (found refused error : list (string * json)) (code : json) (h : history)
    (Hready : sdk_ready G = true)
    (Hgranted : grants w token)
    (Hlookup : replies w
                 (EvHttp GET (applications_named display_name) None
                    (bearer token))
                 (inr (JDict found)))
    (Hnone : assoc "value" found = Some (JList []))
    (Hrefused : replies w
                  (EvHttp POST (graph_url "applications")
                     (Some (new_application display_name)) (bearer token))
                  (inr (JDict refused)))
    (Herror : assoc "error" refused = Some (JDict error))
    (Hcode : assoc "code" error = Some code)
    (Hother : code <> JStr "Authorization_RequestDenied")
    (Hid : assoc "appId" refused = None) :
  create_app_registration w G display_name h
  = (Raised (Exn KeyError "'appId'" None),
     h ++ graph_request token GET (applications_named display_name) None
       ++ graph_request token POST (graph_url "applications")
            (Some (new_application display_name))).
Proof.
  unfold create_app_registration.
  rewrite (@bind_returns _ _ _ _ _ _ _
             (@no_existing_app_registration w G token Hready Hgranted
                display_name found h Hlookup Hnone)).
  cbn [is_none negb].
  rewrite (@bind_returns _ _ _ _ _ _ _
             (@request_answered w G token Hready Hgranted POST
                (graph_url "applications")
                (Some (new_application display_name)) _ _ Hrefused)).
  unfold bind, py_in, getitem, ret. rewrite Herror. cbn iota.
  rewrite Hcode.
  assert (E : eq_str code "Authorization_RequestDenied" = false).
  { destruct code; try reflexivity. cbn [eq_str].
    apply String.eqb_neq. congruence. }
  rewrite E, Hid. unfold raise. rewrite <- app_assoc. reflexivity.
Qed.

Lemma create_app_registration_other_error_witness :
  let w := directory_world (matches [])
             (graph_error "Request_BadRequest" "Invalid display name.") in
  create_app_registration w (module_of w) "webviz" []
  = (Raised (Exn KeyError "'appId'" None),
     graph_request "token" GET (applications_named "webviz") None
     ++ graph_request "token" POST (graph_url "applications")
          (Some (new_application "webviz"))).
Proof.
  intros w.
  apply (@create_app_registration_other_error w (module_of w) "token" "webviz"
           [("@odata.context", JStr "https://graph.microsoft.com/v1.0/$metadata");
            ("value", JList [])]
           [("error",
             JDict [("code", JStr "Request_BadRequest");
                    ("message", JStr "Invalid display name.")])]
           [("code", JStr "Request_BadRequest");
            ("message", JStr "Invalid display name.")]
           (JStr "Request_BadRequest") []);
    try reflexivity; try discriminate; intro; reflexivity.
Defined.

(** *** An application that the directory does not know *)

(** X19: when the lookup by app id matches no application,
    [_object_id_from_app_id] raises an [IndexError], and so do [create_secret]
    and [add_reply_url], which stop there: the clock is not read, no secret
    is requested and nothing is patched. *)
Theorem unknown_app_id_changes_nothing
    (w : world) (G : namespace) (token app_id description reply_url : string)
    (years : Z) (found : list (string * json)) (h : history)
    (Hready : sdk_ready G = true)
    (Hgranted : grants w token)
    (Hlookup : replies w
                 (EvHttp GET (applications_of app_id) None (bearer token))
                 (inr (JDict found)))
    (Hnone : assoc "value" found = Some (JList [])) :
  let stopped : outcome json * history :=
    (Raised (Exn IndexError "list index out of range" None),
     h ++ graph_request token GET (applications_of app_id) None) in
  _object_id_from_app_id w G (JStr app_id) h = stopped
  /\ create_secret w G (JStr app_id) description years h = stopped
  /\ add_reply_url w G (JStr app_id) reply_url h
     = (Raised (Exn IndexError "list index out of range" None), snd stopped).
Proof.
  pose proof (@no_object_id w G token Hready Hgranted app_id found h Hlookup
                Hnone) as E.
  cbv zeta. split; [exact E | split].
  - unfold create_secret. now apply bind_raises.
  - unfold add_reply_url. now apply bind_raises.
Qed.

Lemma unknown_app_id_changes_nothing_witness :
  let w := directory_world (matches []) JNull in
  let stopped : outcome json * history :=
    (Raised (Exn IndexError "list index out of range" None),
     graph_request "token" GET (applications_of "app-9") None) in
  _object_id_from_app_id w (module_of w) (JStr "app-9") [] = stopped
  /\ create_secret w (module_of w) (JStr "app-9") "cli secret" 100 [] = stopped
  /\ add_reply_url w (module_of w) (JStr "app-9")
       "https://webviz.example/oauth2/callback" []
     = (Raised (Exn IndexError "list index out of range" None), snd stopped).
Proof.
  intros w.
  apply (@unknown_app_id_changes_nothing w (module_of w) "token" "app-9"
           "cli secret" "https://webviz.example/oauth2/callback" 100
           [("@odata.context", JStr "https://graph.microsoft.com/v1.0/$metadata");
            ("value", JList [])]
           []);
    try reflexivity; intro; reflexivity.
Defined.

(** *** Service principals *)

(** X20: when the lookup finds a service principal that requires app role
    assignments, [create_service_principal] returns its object id and its
    tenant id, and creates nothing. *)
Theorem service_principal_reused
    (w : world) (G : namespace) (token app_id : string)
    (found principal : list (string * json)) (others : list json)
    (required object_id tenant_id : json) (h : history)
    (Hready : sdk_ready G = true)
    (Hgranted : grants w token)
    (Hlookup : replies w
                 (EvHttp GET (service_principals_of app_id) None
                    (bearer token))
                 (inr (JDict found)))
    (Hok : assoc "error" found = None)
    (Hvalue : assoc "value" found = Some (JList (JDict principal :: others)))
    (Hrequired : assoc "appRoleAssignmentRequired" principal = Some required)
    (Hsecured : truthy required = true)
    (Hobject : assoc "id" principal = Some object_id)
    (Htenant : assoc "appOwnerOrganizationId" principal = Some tenant_id) :
  create_service_principal w G (JStr app_id) h
  = (Returned (object_id, tenant_id),
     h ++ graph_request token GET (service_principals_of app_id) None).
Proof.
  unfold create_service_principal.
  rewrite (@bind_returns _ _ _ _ _ _ _
             (@request_answered w G token Hready Hgranted GET
                (service_principals_of app_id) None _ h Hlookup)).
  unfold bind, py_in, getitem, getindex, ret.
  rewrite Hok. cbn [negb]. rewrite Hvalue. cbn [truthy nth_error].
  rewrite Hrequired, Hsecured. cbn [negb]. rewrite Hobject, Htenant.
  reflexivity.
Qed.

Lemma service_principal_reused_witness :
  let w := directory_world
             (matches [JDict [("id", JStr "sp-1");
                              ("appOwnerOrganizationId", JStr "tenant-1");
                              ("appRoleAssignmentRequired", JBool true)]])
             JNull in
  create_service_principal w (module_of w) (JStr "app-1") []
  = (Returned (JStr "sp-1", JStr "tenant-1"),
     graph_request "token" GET (service_principals_of "app-1") None).
Proof.
  intros w.
  apply (@service_principal_reused w (module_of w) "token" "app-1"
           [("@odata.context", JStr "https://graph.microsoft.com/v1.0/$metadata");
            ("value",
             JList [JDict [("id", JStr "sp-1");
                           ("appOwnerOrganizationId", JStr "tenant-1");
                           ("appRoleAssignmentRequired", JBool true)]])]
           [("id", JStr "sp-1");
            ("appOwnerOrganizationId", JStr "tenant-1");
            ("appRoleAssignmentRequired", JBool true)]
           [] (JBool true) (JStr "sp-1") (JStr "tenant-1") []);
    try reflexivity; intro; reflexivity.
Defined.

(** X21: when the lookup finds a service principal that does not require
    app role assignments, [create_service_principal] raises a
    [RuntimeError] and leaves the service principal as it is: nothing is
    posted or patched. *)
Theorem service_principal_unsecured
    (w : world) (G : namespace) (token app_id : string)
    (found principal : list (string * json)) (others : list json)
    (required : json) (h : history)
    (Hready : sdk_ready G = true)
    (Hgranted : grants w token)
    (Hlookup : replies w
                 (EvHttp GET (service_principals_of app_id) None
                    (bearer token))
                 (inr (JDict found)))
    (Hok : assoc "error" found = None)
    (Hvalue : assoc "value" found = Some (JList (JDict principal :: others)))
    (Hrequired : assoc "appRoleAssignmentRequired" principal = Some required)
    (Hopen : truthy required = false) :
  create_service_principal w G (JStr app_id) h
  = (Raised
       (Exn RuntimeError
          (fstr ["Service principal already exists, and it does not require ";
                 "app role assignments. Deployment stopped, as this should be ";
                 "set to true in order to secure access."]) None),
     h ++ graph_request token GET (service_principals_of app_id) None).
Proof.
  unfold create_service_principal.
  rewrite (@bind_returns _ _ _ _ _ _ _
             (@request_answered w G token Hready Hgranted GET
                (service_principals_of app_id) None _ h Hlookup)).
  unfold bind, py_in, getitem, getindex, ret.
  rewrite Hok. cbn [negb]. rewrite Hvalue. cbn [truthy nth_error].
  rewrite Hrequired, Hopen. reflexivity.
Qed.

Lemma service_principal_unsecured_witness :
  let w := directory_world
             (matches [JDict [("id", JStr "sp-1");
                              ("appOwnerOrganizationId", JStr "tenant-1");
                              ("appRoleAssignmentRequired", JBool false)]])
             JNull in
  fst (create_service_principal w (module_of w) (JStr "app-1") [])
  = Raised
      (Exn RuntimeError
         (fstr ["Service principal already exists, and it does not require ";
                "app role assignments. Deployment stopped, as this should be ";
                "set to true in order to secure access."]) None)
  /\ snd (create_service_principal w (module_of w) (JStr "app-1") [])
     = graph_request "token" GET (service_principals_of "app-1") None.
Proof.
  intros w.
  pose proof
    (@service_principal_unsecured w (module_of w) "token" "app-1"
       [("@odata.context", JStr "https://graph.microsoft.com/v1.0/$metadata");
        ("value",
         JList [JDict [("id", JStr "sp-1");
                       ("appOwnerOrganizationId", JStr "tenant-1");
                       ("appRoleAssignmentRequired", JBool false)]])]
       [("id", JStr "sp-1");
        ("appOwnerOrganizationId", JStr "tenant-1");
        ("appRoleAssignmentRequired", JBool false)]
       [] (JBool false) []
       eq_refl (fun _ => eq_refl) (fun _ => eq_refl) eq_refl eq_refl eq_refl
       eq_refl) as E.
  split; [exact (f_equal fst E) | exact (f_equal snd E)].
Defined.

(** X22: when the lookup finds no service principal,
    [create_service_principal] posts a new one for the app id, with app role
    assignments required, and returns the ids of the answer. *)
Theorem service_principal_created
    (w : world) (G : namespace) (token app_id : string)
    (found created : list (string * json))
    (object_id tenant_id : json) (h : history)
    (Hready : sdk_ready G = true)
    (Hgranted : grants w token)
    (Hlookup : replies w
                 (EvHttp GET (service_principals_of app_id) None
                    (bearer token))
                 (inr (JDict found)))
    (Hok : assoc "error" found = None)
    (Hnone : assoc "value" found = Some (JList []))
    (Hcreated : replies w
                  (EvHttp POST (graph_url "servicePrincipals")
                     (Some (new_service_principal (JStr app_id)))
                     (bearer token))
                  (inr (JDict created)))
    (Hobject : assoc "id" created = Some object_id)
    (Htenant : assoc "appOwnerOrganizationId" created = Some tenant_id) :
  create_service_principal w G (JStr app_id) h
  = (Returned (object_id, tenant_id),
     h ++ graph_request token GET (service_principals_of app_id) None
       ++ graph_request token POST (graph_url "servicePrincipals")
            (Some (new_service_principal (JStr app_id)))).
Proof.
  unfold create_service_principal.
  rewrite (@bind_returns _ _ _ _ _ _ _
             (@request_answered w G token Hready Hgranted GET
                (service_principals_of app_id) None _ h Hlookup)).
  assert (Hin : forall h', py_in "error" (JDict found) h' = (Returned false, h')).
  { intros h'. unfold py_in. now rewrite Hok. }
  rewrite (@bind_returns _ _ _ _ _ _ _ (Hin _)). cbn [negb].
  unfold bind at 1, bind at 1, getitem at 1. rewrite Hnone.
  unfold ret at 1, ret at 1. cbn [truthy].
  unfold bind at 1, bind at 1.
  rewrite (@request_answered w G token Hready Hgranted POST
             (graph_url "servicePrincipals")
             (Some (new_service_principal (JStr app_id))) _ _ Hcreated).
  rewrite (@bind_returns _ _ _ _ _ _ _ (Hin _)).
  unfold ret at 1. unfold bind, getitem, ret. rewrite Hobject, Htenant.
  rewrite <- app_assoc. reflexivity.
Qed.

Lemma service_principal_created_witness :
  let w := directory_world (matches [])
             (JDict [("id", JStr "sp-2");
                     ("appId", JStr "app-1");
                     ("appOwnerOrganizationId", JStr "tenant-1")]) in
  create_service_principal w (module_of w) (JStr "app-1") []
  = (Returned (JStr "sp-2", JStr "tenant-1"),
     graph_request "token" GET (service_principals_of "app-1") None
     ++ graph_request "token" POST (graph_url "servicePrincipals")
          (Some (new_service_principal (JStr "app-1")))).
Proof.
  intros w.
  apply (@service_principal_created w (module_of w) "token" "app-1"
           [("@odata.context", JStr "https://graph.microsoft.com/v1.0/$metadata");
            ("value", JList [])]
           [("id", JStr "sp-2");
            ("appId", JStr "app-1");
            ("appOwnerOrganizationId", JStr "tenant-1")]
           (JStr "sp-2") (JStr "tenant-1") []);
    try reflexivity; intro; reflexivity.
Defined.



(** X24: an error document in answer to the create request goes unnoticed:
    the check after the request reads the answer of the lookup, which has no
    error, so [create_service_principal] goes on to read the [id] of the
    error document and raises a [KeyError], not the [RuntimeError] with the
    response. *)
Theorem service_principal_create_error_unnoticed
    (w : world) (G : namespace) (token app_id : string)
    (found refused : list (string * json)) (error : json) (h : history)
    (Hready : sdk_ready G = true)
    (Hgranted : grants w token)
    (Hlookup : replies w
                 (EvHttp GET (service_principals_of app_id) None
                    (bearer token))
                 (inr (JDict found)))
    (Hok : assoc "error" found = None)
    (Hnone : assoc "value" found = Some (JList []))
    (Hrefused : replies w
                  (EvHttp POST (graph_url "servicePrincipals")
                     (Some (new_service_principal (JStr app_id)))
                     (bearer token))
                  (inr (JDict refused)))
    (Herror : assoc "error" refused = Some error)
    (Hid : assoc "id" refused = None) :
  create_service_principal w G (JStr app_id) h
  = (Raised (Exn KeyError "'id'" None),
     h ++ graph_request token GET (service_principals_of app_id) None
       ++ graph_request token POST (graph_url "servicePrincipals")
            (Some (new_service_principal (JStr app_id)))).
Proof.
  unfold create_service_principal.
  rewrite (@bind_returns _ _ _ _ _ _ _
             (@request_answered w G token Hready Hgranted GET
                (service_principals_of app_id) None _ h Hlookup)).
  assert (Hin : forall h', py_in "error" (JDict found) h' = (Returned false, h')).
  { intros h'. unfold py_in. now rewrite Hok. }
  rewrite (@bind_returns _ _ _ _ _ _ _ (Hin _)). cbn [negb].
  unfold bind at 1, bind at 1, getitem at 1. rewrite Hnone.
  unfold ret at 1, ret at 1. cbn [truthy].
  unfold bind at 1, bind at 1.
  rewrite (@request_answered w G token Hready Hgranted POST
             (graph_url "servicePrincipals")
             (Some (new_service_principal (JStr app_id))) _ _ Hrefused).
  rewrite (@bind_returns _ _ _ _ _ _ _ (Hin _)).
  unfold ret at 1. unfold bind, getitem. rewrite Hid.
  unfold raise. rewrite <- app_assoc. reflexivity.
Qed.

Lemma service_principal_create_error_unnoticed_witness :
  let w := directory_world (matches [])
             (graph_error "Authorization_RequestDenied"
                "Insufficient privileges to complete the operation.") in
  create_service_principal w (module_of w) (JStr "app-1") []
  = (Raised (Exn KeyError "'id'" None),
     graph_request "token" GET (service_principals_of "app-1") None
     ++ graph_request "token" POST (graph_url "servicePrincipals")
          (Some (new_service_principal (JStr "app-1")))).
Proof.
  intros w.
  apply (@service_principal_create_error_unnoticed w (module_of w) "token"
           "app-1"
           [("@odata.context", JStr "https://graph.microsoft.com/v1.0/$metadata");
            ("value", JList [])]
           [("error",
             JDict [("code", JStr "Authorization_RequestDenied");
                    ("message",
                     JStr "Insufficient privileges to complete the operation.")])]
           (JDict [("code", JStr "Authorization_RequestDenied");
                   ("message",
                    JStr "Insufficient privileges to complete the operation.")])
           []);
    try reflexivity; intro; reflexivity.
Defined.

(** ** The loop of the app registration *)

Section RegistrationLoop.

Variable w : world.
Variable G : namespace.
Variable display_name : string.

(** One pass that ends in the handler. *)
Lemma registration_loop_retries fuel flag exc h h1 :
  create_app_registration w G display_name h = (Raised exc, h1) ->
  isinstance exc [PermissionError] = true ->
  app_registration_loop w G (S fuel) display_name flag h
  = app_registration_loop w G fuel display_name true
      (h1 ++ denied_attempt flag).
Proof.
  intros Hraised Hclass. cbn [app_registration_loop].
  unfold bind at 1, try_except, bind at 1. rewrite Hraised, Hclass.
  unfold denied_attempt.
  destruct flag;
    cbn -[app_registration_loop fstr app_registration_prompt];
    rewrite <- ?app_assoc; reflexivity.
Qed.

Lemma registration_loop_propagates fuel flag exc h h1 :
  create_app_registration w G display_name h = (Raised exc, h1) ->
  isinstance exc [PermissionError] = false ->
  app_registration_loop w G (S fuel) display_name flag h = (Raised exc, h1).
Proof.
  intros Hraised Hclass. cbn [app_registration_loop].
  unfold bind at 1, try_except, bind at 1. rewrite Hraised, Hclass.
  reflexivity.
Qed.

End RegistrationLoop.

Section Denied.

Variable w : world.
Variable G : namespace.
Variables token display_name : string.
Variables found refused error : list (string * json).

Hypothesis ready : sdk_ready G = true.
Hypothesis granted : grants w token.
Hypothesis looked_up :
  replies w (EvHttp GET (applications_named display_name) None (bearer token))
    (inr (JDict found)).
Hypothesis none : assoc "value" found = Some (JList []).
Hypothesis refusal :
  replies w
    (EvHttp POST (graph_url "applications")
       (Some (new_application display_name)) (bearer token))
    (inr (JDict refused)).
Hypothesis has_error : assoc "error" refused = Some (JDict error).
Hypothesis denied :
  assoc "code" error = Some (JStr "Authorization_RequestDenied").

Lemma denied_loop_goes_on fuel : forall flag h,
  exists ev,
    app_registration_loop w G fuel display_name flag h = (Looping, h ++ ev)
    /\ filter is_sleep ev = repeat (EvSleep 30) fuel
    /\ count_events (is_http POST) ev = fuel
    /\ count_events (is_http PATCH) ev = 0
    /\ forall part,
         prompts part ev = if flag then 0 else Nat.min 1 fuel.
Proof.
  induction fuel as [| fuel IH]; intros flag h.
  - exists []. rewrite app_nil_r. repeat split. now destruct flag.
  - pose proof (@app_registration_is_denied w G token display_name found
                  refused error h ready granted looked_up none refusal
                  has_error denied) as Hdenied.
    rewrite (@registration_loop_retries w G display_name fuel flag _ h _
               Hdenied eq_refl).
    match type of Hdenied with _ = (_, h ++ ?l) => set (requests := l) in * end.
    destruct (IH true ((h ++ requests) ++ denied_attempt flag))
      as (ev & E & Hsleep & Hpost & Hpatch & Hprompts).
    exists (requests ++ denied_attempt flag ++ ev).
    split; [rewrite E, <- !app_assoc; reflexivity |].
    split; [| split; [| split]].
    + rewrite !filter_app, Hsleep. now destruct flag.
    + unfold count_events in *. rewrite !filter_app, !length_app, Hpost.
      now destruct flag.
    + unfold count_events in *. rewrite !filter_app, !length_app, Hpatch.
      now destruct flag.
    + intros part. rewrite !prompts_app, Hprompts.
      destruct flag, part; vm_compute; reflexivity.
Qed.

End Denied.

(** X25: the loop of [azure_app_registration_setup] has no bound.  As long
    as the directory answers the create request with
    [Authorization_RequestDenied], the function does not leave the loop:
    whatever the number of passes, each has posted the create request and
    waited thirty seconds, the remediation prompt was shown on the first
    pass only, and neither a secret nor a reply URL was requested. *)
Theorem app_registration_setup_waits_while_denied
    (w : world) (G : namespace)
    (token display_name proxy_redirect_url : string)
    (found refused error : list (string * json)) (fuel : nat) (h : history)
    (Hready : sdk_ready G = true)
    (Hgranted : grants w token)
    (Hlookup : replies w
                 (EvHttp GET (applications_named display_name) None
                    (bearer token))
                 (inr (JDict found)))
    (Hnone : assoc "value" found = Some (JList []))
    (Hrefused : replies w
                  (EvHttp POST (graph_url "applications")
                     (Some (new_application display_name)) (bearer token))
                  (inr (JDict refused)))
    (Herror : assoc "error" refused = Some (JDict error))
    (Hcode : assoc "code" error = Some (JStr "Authorization_RequestDenied")) :
  exists ev,
    azure_app_registration_setup w G fuel display_name proxy_redirect_url h
    = (Looping, h ++ ev)
    /\ filter is_sleep ev = repeat (EvSleep 30) fuel
    /\ count_events (is_http POST) ev = fuel
    /\ count_events (is_http PATCH) ev = 0
    /\ prompts TheBrowserTab ev = Nat.min 1 fuel
    /\ prompts TheMessage ev = Nat.min 1 fuel.
Proof.
  destruct (@denied_loop_goes_on w G token display_name found refused error
              Hready Hgranted Hlookup Hnone Hrefused Herror Hcode fuel false h)
    as (ev & E & Hsleep & Hpost & Hpatch & Hprompts).
  exists ev. unfold azure_app_registration_setup, bind. rewrite E.
  repeat split; auto.
Qed.

Lemma app_registration_setup_waits_while_denied_witness :
  let w := directory_world (matches [])
             (graph_error "Authorization_RequestDenied"
                "Insufficient privileges to complete the operation.") in
  exists ev,
    azure_app_registration_setup w (module_of w) 3 "webviz"
      "https://webviz.example/oauth2/callback" []
    = (Looping, [] ++ ev)
    /\ filter is_sleep ev = repeat (EvSleep 30) 3
    /\ count_events (is_http POST) ev = 3
    /\ count_events (is_http PATCH) ev = 0
    /\ prompts TheBrowserTab ev = Nat.min 1 3
    /\ prompts TheMessage ev = Nat.min 1 3.
Proof.
  intros w.
  apply (@app_registration_setup_waits_while_denied w (module_of w) "token"
           "webviz" "https://webviz.example/oauth2/callback"
           [("@odata.context", JStr "https://graph.microsoft.com/v1.0/$metadata");
            ("value", JList [])]
           [("error",
             JDict [("code", JStr "Authorization_RequestDenied");
                    ("message",
                     JStr "Insufficient privileges to complete the operation.")])]
           [("code", JStr "Authorization_RequestDenied");
            ("message",
             JStr "Insufficient privileges to complete the operation.")]
           3 []);
    try reflexivity; intro; reflexivity.
Defined.

(** X26: only a [PermissionError] is retried.  When
    [create_app_registration] raises an exception of any other class,
    [azure_app_registration_setup] raises it at once: no prompt, no wait,
    no second attempt. *)
Theorem app_registration_setup_propagates
    (w : world) (G : namespace) (display_name proxy_redirect_url : string)
    (fuel : nat) (exc : exn) (h h1 : history)
    (Hraised : create_app_registration w G display_name h = (Raised exc, h1))
    (Hclass : exn_cls exc <> PermissionError) :
  azure_app_registration_setup w G (S fuel) display_name proxy_redirect_url h
  = (Raised exc, h1).
Proof.
  unfold azure_app_registration_setup.
  apply bind_raises.
  apply registration_loop_propagates; [exact Hraised |].
  unfold isinstance. cbn [existsb]. rewrite orb_false_r.
  destruct (exn_cls exc); try reflexivity. congruence.
Qed.

Lemma app_registration_setup_propagates_witness :
  let w := directory_world (matches [])
             (graph_error "Request_BadRequest" "Invalid display name.") in
  azure_app_registration_setup w (module_of w) 5 "webviz"
    "https://webviz.example/oauth2/callback" []
  = (Raised (Exn KeyError "'appId'" None),
     graph_request "token" GET (applications_named "webviz") None
     ++ graph_request "token" POST (graph_url "applications")
          (Some (new_application "webviz"))).
Proof.
  intros w.
  apply (@app_registration_setup_propagates w (module_of w) "webviz"
           "https://webviz.example/oauth2/callback" 4
           (Exn KeyError "'appId'" None) []);
    [reflexivity | discriminate].
Defined.

(** ** The storage account, once the CLI runner is bound

    The module as shipped binds neither [_azure_cli] nor the two classes of
    the [except] clause.  What [create_storage_account] does in a namespace
    that binds them is what follows. *)

(** X27: in a namespace that binds [_azure_cli], [HttpResponseError] and
    [CloudError]: when the create request raises an error of one of the two
    classes whose text does not contain [AuthorizationFailed],
    [create_storage_account] raises a [RuntimeError] caused by that error,
    at the first pass: no prompt, no wait, no role assignment. *)
Theorem create_storage_account_wraps_other_errors
    (w : world) (G : namespace) (runner : string) (c1 c2 : exn_class)
    (subscription resource_group name : string) (exc : exn) (fuel : nat)
    (h : history)
    (Hcli : G "_azure_cli" = Some (PCallable runner))
    (Hhttp : G "HttpResponseError" = Some (PClass c1))
    (Hcloud : G "CloudError" = Some (PClass c2))
    (Hrefused : answer w h
                  (EvAzureCli (account_create_args subscription resource_group
                                 name))
                = inl exc)
    (Hclass : isinstance exc [c1; c2] = true)
    (Hother : contains "AuthorizationFailed" (exn_msg exc) = false) :
  create_storage_account w G (S fuel) subscription resource_group name h
  = (Raised (Exn RuntimeError "Not able to create new storage account."
               (Some exc)),
     h ++ [EvAzureCli (account_create_args subscription resource_group name)]).
Proof.
  unfold create_storage_account. apply bind_raises.
  exact (@storage_loop_fatal w G runner c1 c2 Hcli Hhttp Hcloud subscription
           resource_group name exc h Hrefused fuel false Hclass Hother).
Qed.

Lemma create_storage_account_wraps_other_errors_witness :
  let w := taken_world in
  create_storage_account w (with_bindings cli_names (module_of w)) 1
    "sub" "rg" "account" []
  = (Raised (Exn RuntimeError "Not able to create new storage account."
               (Some (Exn (SdkError "CloudError")
                        "(StorageAccountAlreadyTaken) The name is taken."
                        None))),
     [EvAzureCli (account_create_args "sub" "rg" "account")]).
Proof.
  intros w.
  apply (@create_storage_account_wraps_other_errors w
           (with_bindings cli_names (module_of w)) "_azure_cli"
           (SdkError "HttpResponseError") (SdkError "CloudError")
           "sub" "rg" "account"
           (Exn (SdkError "CloudError")
              "(StorageAccountAlreadyTaken) The name is taken." None)
           0 []);
    reflexivity.
Defined.

Lemma azure_cli_accepted w G runner args h :
  G "_azure_cli" = Some (PCallable runner) ->
  accepts w (EvAzureCli args) ->
  exists v, _azure_cli w G args h = (Returned v, h ++ [EvAzureCli args]).
Proof.
  intros Hcli Haccepted. destruct (Haccepted h) as (v & E). exists v.
  unfold _azure_cli, bind, load_global. rewrite Hcli.
  unfold ret, callable, ret, perform. now rewrite E.
Qed.

Lemma azure_cli_answered w G runner args v h :
  G "_azure_cli" = Some (PCallable runner) ->
  replies w (EvAzureCli args) (inr v) ->
  _azure_cli w G args h = (Returned v, h ++ [EvAzureCli args]).
Proof.
  intros Hcli Hreplies.
  unfold _azure_cli, bind, load_global. rewrite Hcli.
  unfold ret, callable, ret, perform. now rewrite Hreplies.
Qed.

Lemma accepted_storage_account_run
    (w : world) (G : namespace) (runner : string)
    (subscription resource_group name : string)
    (user_id resource_group_id : json) (group : list (string * json))
    (fuel : nat) (h : history)
    (Hcli : G "_azure_cli" = Some (PCallable runner))
    (Hcreated : accepts w (EvAzureCli (account_create_args subscription
                                         resource_group name)))
    (Huser : replies w signed_in_user (inr user_id))
    (Hgroup : replies w (group_show subscription resource_group)
                (inr (JDict group)))
    (Hid : assoc "id" group = Some resource_group_id)
    (Hassigned : forall role,
        accepts w (role_assignment role user_id
                     (storage_account_scope (py_str resource_group_id) name))) :
  let scope := storage_account_scope (py_str resource_group_id) name in
  create_storage_account w G (S fuel) subscription resource_group name h
  = (Returned tt,
     h ++ [EvAzureCli (account_create_args subscription resource_group name);
           signed_in_user;
           group_show subscription resource_group;
           role_assignment "Storage Blob Data Contributor" user_id scope;
           role_assignment "Storage Account Key Operator Service Role" user_id
             scope]).
Proof.
  intros scope.
  destruct (@azure_cli_accepted w G runner _ h Hcli Hcreated) as (v & Ecreate).
  unfold create_storage_account. cbn [create_storage_account_loop].
  unfold bind at 1, bind at 1, try_except, bind at 1.
  rewrite Ecreate. unfold ret at 1, ret at 1.
  rewrite (@bind_returns _ _ _ _ _ _ _
             (@azure_cli_answered w G runner _ _ _ Hcli Huser)).
  rewrite (@bind_returns _ _ _ _ _ _ _
             (@azure_cli_answered w G runner _ _ _ Hcli Hgroup)).
  unfold bind at 1, getitem. rewrite Hid. unfold ret at 1.
  cbn [assign_roles].
  match goal with
  | |- bind (_azure_cli w G ?args) _ ?h' = _ =>
      destruct (@azure_cli_accepted w G runner args h' Hcli
                  (Hassigned "Storage Blob Data Contributor")) as (v1 & E1)
  end.
  rewrite (@bind_returns _ _ _ _ _ _ _ E1).
  match goal with
  | |- bind (_azure_cli w G ?args) _ ?h' = _ =>
      destruct (@azure_cli_accepted w G runner args h' Hcli
                  (Hassigned "Storage Account Key Operator Service Role"))
        as (v2 & E2)
  end.
  rewrite (@bind_returns _ _ _ _ _ _ _ E2).
  unfold ret. rewrite <- !app_assoc. reflexivity.
Qed.

(** X28: in a namespace that binds [_azure_cli]: when the CLI accepts the
    create request, [create_storage_account] asks for the signed-in user
    and for the resource group, and assigns the user two roles, the blob
    data contributor and the key operator, each on the scope of the new
    account within the resource group; it stops with the first pass
    through the loop. *)
Theorem create_storage_account_assigns_roles
    (w : world) (G : namespace) (runner : string)
    (subscription resource_group name : string)
    (user_id resource_group_id : json) (group : list (string * json))
    (fuel : nat) (h : history)
    (Hcli : G "_azure_cli" = Some (PCallable runner))
    (Hcreated : accepts w (EvAzureCli (account_create_args subscription
                                         resource_group name)))
    (Huser : replies w signed_in_user (inr user_id))
    (Hgroup : replies w (group_show subscription resource_group)
                (inr (JDict group)))
    (Hid : assoc "id" group = Some resource_group_id)
    (Hassigned : forall role,
        accepts w (role_assignment role user_id
                     (storage_account_scope (py_str resource_group_id) name))) :
  let scope := storage_account_scope (py_str resource_group_id) name in
  create_storage_account w G (S fuel) subscription resource_group name h
  = (Returned tt,
     h ++ [EvAzureCli (account_create_args subscription resource_group name);
           signed_in_user;
           group_show subscription resource_group;
           role_assignment "Storage Blob Data Contributor" user_id scope;
           role_assignment "Storage Account Key Operator Service Role" user_id
             scope]).
Proof.
  exact (@accepted_storage_account_run w G runner subscription resource_group
           name user_id resource_group_id group fuel h Hcli Hcreated Huser
           Hgroup Hid Hassigned).
Qed.

Lemma create_storage_account_assigns_roles_witness :
  let w := provisioned_world in
  let scope :=
    "/subscriptions/0000/resourceGroups/rg/providers/Microsoft.Storage/storageAccounts/account" in
  let user_id := JDict [("id", JStr "/subscriptions/0000/resourceGroups/rg")] in
  create_storage_account w (with_bindings cli_names (module_of w)) 1
    "sub" "rg" "account" []
  = (Returned tt,
     [EvAzureCli (account_create_args "sub" "rg" "account");
      signed_in_user;
      group_show "sub" "rg";
      role_assignment "Storage Blob Data Contributor" user_id scope;
      role_assignment "Storage Account Key Operator Service Role" user_id
        scope]).
Proof.
  intros w scope user_id.
  apply (@create_storage_account_assigns_roles w
           (with_bindings cli_names (module_of w)) "_azure_cli"
           "sub" "rg" "account" user_id
           (JStr "/subscriptions/0000/resourceGroups/rg")
           [("id", JStr "/subscriptions/0000/resourceGroups/rg")] 0 []);
    try reflexivity; intros; intro; try reflexivity; eexists; reflexivity.
Defined.




(** ** Uploading, once the names are bound

    The module binds none of [subscription], [resource_group] and
    [AzureHttpError].  What [storage_container_upload_folder] does in a
    namespace that binds them is what follows. *)


Section BoundUpload.

Variable w : world.
Variable G : namespace.
Variables subscription resource_group : pyobj.
Variables storage_name container_name : string.
Variable source_folder : path.

Hypothesis subscription_bound : G "subscription" = Some subscription.
Hypothesis group_bound : G "resource_group" = Some resource_group.

Lemma upload_attempt_done h h1 :
  _upload_batch w G subscription resource_group storage_name container_name
    source_folder h
  = (Returned tt, h1) ->
  upload_attempt w G storage_name container_name source_folder h
  = (Returned true, h1 ++ activation_wait).
Proof.
  intros Hbatch.
  unfold upload_attempt, try_finally, try_except, bind at 1, load_global.
  rewrite subscription_bound. unfold ret at 1.
  unfold bind at 1. rewrite group_bound. unfold ret at 1.
  unfold bind at 1. rewrite Hbatch. unfold ret at 1.
  unfold bind, print, sleep, emit. rewrite <- app_assoc. reflexivity.
Qed.

Variable c : exn_class.
Hypothesis class_bound : G "AzureHttpError" = Some (PClass c).


Variable exc : exn.
Variable attempt : list event.
Hypothesis refused : forall h,
  _upload_batch w G subscription resource_group storage_name container_name
    source_folder h
  = (Raised exc, h ++ attempt).
Hypothesis transient : exn_cls exc = c.


End BoundUpload.

(** X29: in a namespace that binds [subscription] and [resource_group]:
    when the first batch goes through, [storage_container_upload_folder]
    returns after this one batch -- and after the message and the sixty
    seconds of its [finally] block, which a successful upload waits
    for too. *)
Theorem upload_folder_waits_after_success
    (w : world) (G : namespace) (subscription resource_group : pyobj)
    (storage_name container_name : string) (source_folder : path)
    (h h1 : history)
    (Hsubscription : G "subscription" = Some subscription)
    (Hgroup : G "resource_group" = Some resource_group)
    (Hbatch : _upload_batch w G subscription resource_group storage_name
                container_name source_folder h
              = (Returned tt, h1)) :
  storage_container_upload_folder w G storage_name container_name
    source_folder h
  = (Returned tt, h1 ++ activation_wait).
Proof.
  unfold storage_container_upload_folder. cbn [upload_attempts].
  rewrite (@bind_returns _ _ _ _ _ _ _
             (@upload_attempt_done w G subscription resource_group
                storage_name container_name source_folder Hsubscription
                Hgroup h h1 Hbatch)).
  reflexivity.
Qed.

Lemma upload_folder_waits_after_success_witness :
  let w := site_world in
  let G := with_bindings upload_names (module_of w) in
  let h1 := snd (_upload_batch w G (PStr "sub") (PStr "rg") "account"
                   "container" ["home"; "build"] []) in
  storage_container_upload_folder w G "account" "container" ["home"; "build"] []
  = (Returned tt, h1 ++ activation_wait)
  /\ count_events is_upload h1 = 4.
Proof.
  intros w G h1. split; [| reflexivity].
  apply (@upload_folder_waits_after_success w G (PStr "sub") (PStr "rg")
           "account" "container" ["home"; "build"] [] h1);
    reflexivity.
Defined.


